(** * ASM2d-N2O biokinetic model: embedding of [asmbase.py] and [ASM2d_N2O.py]

    The Python classes [asm_model] and [ASM2d_N2O] are embedded as state
    passing code over a [world]: the model object ([self]), the heap of
    list objects it and its caller share by reference, and the text
    written by [print].  Python floats are idealised as real numbers;
    the operations that raise in Python (indexing, key lookup, true
    division) return an exception here as well, and what a statement
    wrote before it raised stays written. *)

From Stdlib Require Import Reals Lra.
From stdpp Require Import gmap strings list fin_maps.

Local Open Scope R_scope.

(** ** Python values, exceptions and the two monads *)

Abbreviation loc := positive.

(** The built-in exceptions the two source files can raise.  Neither file
    defines an exception class of its own. *)
Inductive exn : Type :=
| ZeroDivisionError
| IndexError
| KeyError (key : string)
| TypeError
| AttributeError (attr : string).

Definition exn_name (e : exn) : string :=
  match e with
  | ZeroDivisionError => "ZeroDivisionError"
  | IndexError => "IndexError"
  | KeyError _ => "KeyError"
  | TypeError => "TypeError"
  | AttributeError _ => "AttributeError"
  end.

Inductive result (A : Type) : Type :=
| Ok (a : A)
| Err (e : exn).
Arguments Ok {A} a.
Arguments Err {A} e.

Definition is_ok {A} (r : result A) : bool :=
  match r with Ok _ => true | Err _ => false end.

(** [asm_model.__init__] and [ASM2d_N2O.__init__] create these attributes.
    The three list attributes hold references; they are [None] until the
    constructor has assigned them. *)
Record asm_model : Type := Model {
  _temperature : R;
  _bulk_DO : R;
  _kinetics_20C : gmap string R;
  _params : gmap string R;
  _stoichs : gmap string R;
  _comps : option loc;
  _delta_t : R;
  _KLa : R;
  _monods : option loc;
  _rate_res : option loc
}.

Record world : Type := World {
  self : asm_model;
  heap : gmap loc (list R);
  stdout : list string
}.

(** Expressions read the world and may raise; statements may also write. *)
Definition E (A : Type) : Type := world → result A.
Definition M (A : Type) : Type := world → result A * world.

Declare Scope py_scope.
Delimit Scope py_scope with py.
Bind Scope py_scope with E.

Definition ret {A} (a : A) : M A := λ w, (Ok a, w).
Definition raise {A} (e : exn) : M A := λ w, (Err e, w).
Definition bind {A B} (m : M A) (f : A → M B) : M B :=
  λ w, match m w with
       | (Ok a, w') => f a w'
       | (Err e, w') => (Err e, w')
       end.
Definition eval {A} (e : E A) : M A := λ w, (e w, w).

Notation "x <- m ;; k" := (bind m (λ x, k))
  (at level 100, m at next level, right associativity, only parsing).
Notation "m ;;; k" := (bind m (λ _, k))
  (at level 100, right associativity, only parsing).

(** ** Expressions *)

#[export] Instance R_eq_dec : EqDecision R := Req_dec_T.

Definition py_div (a b : R) : result R :=
  if Req_dec_T b 0 then Err ZeroDivisionError else Ok (a / b).

Definition lit (r : R) : E R := λ _, Ok r.
Definition eraise {A} (e : exn) : E A := λ _, Err e.

Definition ebind {A B} (a : E A) (f : A → result B) : E B :=
  λ w, match a w with Ok x => f x | Err e => Err e end.

(** Binary operators evaluate the left operand, then the right one. *)
Definition ebin (f : R → R → result R) (a b : E R) : E R :=
  λ w, match a w with
       | Ok x => match b w with Ok y => f x y | Err e => Err e end
       | Err e => Err e
       end.

Definition eadd : E R → E R → E R := ebin (λ x y, Ok (x + y)).
Definition esub : E R → E R → E R := ebin (λ x y, Ok (x - y)).
Definition emul : E R → E R → E R := ebin (λ x y, Ok (x * y)).
Definition ediv : E R → E R → E R := ebin py_div.
(** [e ** n] for a literal natural [n], and [e ** (1 / 2)]. *)
Definition epow (a : E R) (n : nat) : E R := ebind a (λ x, Ok (x ^ n)).
Definition esqrt (a : E R) : E R := ebind a (λ x, Ok (sqrt x)).

Notation "a + b" := (eadd a b) : py_scope.
Notation "a - b" := (esub a b) : py_scope.
Notation "a * b" := (emul a b) : py_scope.
Notation "a / b" := (ediv a b) : py_scope.
Notation "a ^ n" := (epow a n) : py_scope.

(** The dictionaries of the model object. *)
Inductive dictf : Type := F_kinetics_20C | F_params | F_stoichs.

Definition get_dict (d : dictf) (o : asm_model) : gmap string R :=
  match d with
  | F_kinetics_20C => _kinetics_20C o
  | F_params => _params o
  | F_stoichs => _stoichs o
  end.

Definition set_dict (d : dictf) (m : gmap string R) (o : asm_model) : asm_model :=
  match d with
  | F_kinetics_20C =>
      Model (_temperature o) (_bulk_DO o) m (_params o) (_stoichs o)
            (_comps o) (_delta_t o) (_KLa o) (_monods o) (_rate_res o)
  | F_params =>
      Model (_temperature o) (_bulk_DO o) (_kinetics_20C o) m (_stoichs o)
            (_comps o) (_delta_t o) (_KLa o) (_monods o) (_rate_res o)
  | F_stoichs =>
      Model (_temperature o) (_bulk_DO o) (_kinetics_20C o) (_params o) m
            (_comps o) (_delta_t o) (_KLa o) (_monods o) (_rate_res o)
  end.

Definition with_self (o : asm_model) (w : world) : world :=
  World o (heap w) (stdout w).
Definition with_heap (h : gmap loc (list R)) (w : world) : world :=
  World (self w) h (stdout w).

Definition dict_name (d : dictf) : string :=
  match d with
  | F_kinetics_20C => "_kinetics_20C"
  | F_params => "_params"
  | F_stoichs => "_stoichs"
  end.

(** [self.<d>[k]] *)
Definition dict_item (d : dictf) (k : string) : E R :=
  λ w, match get_dict d (self w) !! k with
       | Some v => Ok v
       | None => Err (KeyError k)
       end.

Definition kinetics_20C : string → E R := dict_item F_kinetics_20C.
Definition params : string → E R := dict_item F_params.
Definition stoichs : string → E R := dict_item F_stoichs.

(** The list attributes of the model object. *)
Inductive buff : Type := B_comps | B_monods | B_rate_res.

Definition get_buff (b : buff) (o : asm_model) : option loc :=
  match b with
  | B_comps => _comps o
  | B_monods => _monods o
  | B_rate_res => _rate_res o
  end.

Definition buff_name (b : buff) : string :=
  match b with
  | B_comps => "_comps"
  | B_monods => "_monods"
  | B_rate_res => "_rate_res"
  end.

(** [l[i]] for a reference [l]: a reference that holds no list is not
    subscriptable, an index past the end is an [IndexError]. *)
Definition item (l : loc) (i : nat) : E R :=
  λ w, match heap w !! l with
       | Some xs => match xs !! i with
                    | Some x => Ok x
                    | None => Err IndexError
                    end
       | None => Err TypeError
       end.

Notation "l .[ i ]" := (item l i) (at level 1, format "l .[ i ]").

(** [self.<b>[i]] *)
Definition buff_item (b : buff) (i : nat) : E R :=
  λ w, match get_buff b (self w) with
       | Some l => item l i w
       | None => Err (AttributeError (buff_name b))
       end.

Definition monods : nat → E R := buff_item B_monods.
Definition rate_res : nat → E R := buff_item B_rate_res.

(** [asm_model._monod] *)
Definition _monod (term_in_num_denum term_only_in_denum : R) : result R :=
  py_div term_in_num_denum (term_in_num_denum + term_only_in_denum).

(** [self._monod(a, b)]: the arguments left to right, then the call. *)
Definition monod : E R → E R → E R := ebin _monod.

(** ** Assignment statements *)

Inductive stmt : Type :=
| SetItem (d : dictf) (k : string) (rhs : E R)     (* self.<d>[k] = rhs *)
| SetIndex (b : buff) (i : nat) (rhs : E R).       (* self.<b>[i] = rhs *)

(** [l[i] = v] on the heap. *)
Definition store (l : loc) (i : nat) (v : R) : M unit :=
  λ w, match heap w !! l with
       | Some xs =>
           if decide (i < length xs)%nat
           then (Ok tt, with_heap (<[l := <[i := v]> xs]> (heap w)) w)
           else (Err IndexError, w)
       | None => (Err TypeError, w)
       end.

(** The right-hand side is evaluated first, then the target is written. *)
Definition exec (s : stmt) : M unit :=
  match s with
  | SetItem d k rhs =>
      v <- eval rhs ;;
      λ w, (Ok tt, with_self (set_dict d (<[k := v]> (get_dict d (self w))) (self w)) w)
  | SetIndex b i rhs =>
      v <- eval rhs ;;
      λ w, match get_buff b (self w) with
           | Some l => store l i v w
           | None => (Err (AttributeError (buff_name b)), w)
           end
  end.

Fixpoint run (p : list stmt) : M unit :=
  match p with
  | [] => ret tt
  | s :: p' => exec s ;;; run p'
  end.

Definition set_kinetics_20C := SetItem F_kinetics_20C.
Definition set_params := SetItem F_params.
Definition set_stoichs := SetItem F_stoichs.
Definition set_monods := SetIndex B_monods.
Definition set_rate_res := SetIndex B_rate_res.

(** ** [ASM2d_N2O._set_ideal_kinetics_20C_to_defaults] *)

Definition kinetics_20C_defaults : list stmt := [
  set_kinetics_20C "i_NSF" (lit 0.03);
  set_kinetics_20C "i_PSF" (lit 0.01);
  set_kinetics_20C "i_NSI" (lit 0.01);
  set_kinetics_20C "i_PSI" (lit 0.0);
  set_kinetics_20C "i_NXI" (lit 0.02);
  set_kinetics_20C "i_PXI" (lit 0.01);
  set_kinetics_20C "i_TSSXI" (lit 0.75);
  set_kinetics_20C "i_NXS" (lit 0.04);
  set_kinetics_20C "i_PXS" (lit 0.01);
  set_kinetics_20C "i_TSSXS" (lit 0.75);
  set_kinetics_20C "i_NBM" (lit 0.07);
  set_kinetics_20C "i_PBM" (lit 0.02);
  set_kinetics_20C "i_TSSBM" (lit 0.9);
  set_kinetics_20C "Y_H" (lit 0.625);
  set_kinetics_20C "Y_PHA" (lit 0.2);
  set_kinetics_20C "Y_PAO" (lit 0.625);
  set_kinetics_20C "Y_PO4" (lit 0.4);
  set_kinetics_20C "Y_AOB" (lit 0.18);
  set_kinetics_20C "Y_NOB" (lit 0.08);
  set_kinetics_20C "f_SI" (lit 0.0);
  set_kinetics_20C "f_XI" (lit 0.1);
  set_kinetics_20C "n_G" (lit 1.0);
  set_kinetics_20C "K_H" (lit 3.0);
  set_kinetics_20C "K_O2_H" (lit 0.2);
  set_kinetics_20C "K_X_H" (lit 0.1);
  set_kinetics_20C "n_NO3_H" (lit 0.6);
  set_kinetics_20C "n_NO2_H" (lit 0.6);
  set_kinetics_20C "K_NO3_H" (lit 0.5);
  set_kinetics_20C "K_NO2_H" (lit 0.5);
  set_kinetics_20C "n_fe_H" (lit 0.4);
  set_kinetics_20C "mu_H" (lit 6.0);
  set_kinetics_20C "K_O2" (lit 0.2);
  set_kinetics_20C "K_F" (lit 4.0);
  set_kinetics_20C "K_NH4" (lit 0.05);
  set_kinetics_20C "K_P" (lit 0.01);
  set_kinetics_20C "K_ALK" (lit 0.1);
  set_kinetics_20C "K_A" (lit 4.0);
  set_kinetics_20C "K_NO3" (lit 0.5);
  set_kinetics_20C "K_NO2" (lit 0.5);
  set_kinetics_20C "n_NO3_D" (lit 0.8);
  set_kinetics_20C "q_fe" (lit 3.0);
  set_kinetics_20C "K_fe_H" (lit 4.0);
  set_kinetics_20C "b_H" (lit 0.4);
  set_kinetics_20C "mu_H_Den" (lit 6.25);
  set_kinetics_20C "n_G3" (lit 0.16);
  set_kinetics_20C "n_G4" (lit 0.35);
  set_kinetics_20C "n_G5" (lit 0.35);
  set_kinetics_20C "K_S3" (lit 20.0);
  set_kinetics_20C "K_S4" (lit 20.0);
  set_kinetics_20C "K_S5" (lit 40.0);
  set_kinetics_20C "K_NO2_Den" (lit 0.2);
  set_kinetics_20C "K_OH4" (lit 0.1);
  set_kinetics_20C "K_N2O_Den" (lit 0.05);
  set_kinetics_20C "K_OH3" (lit 0.1);
  set_kinetics_20C "K_NO_Den" (lit 0.05);
  set_kinetics_20C "K_OH5" (lit 0.1);
  set_kinetics_20C "K_I3NO" (lit 0.5);
  set_kinetics_20C "K_I4NO" (lit 0.3);
  set_kinetics_20C "K_I5NO" (lit 0.075);
  set_kinetics_20C "q_PHA" (lit 3.0);
  set_kinetics_20C "K_A_P" (lit 4.0);
  set_kinetics_20C "K_ALK_P" (lit 0.1);
  set_kinetics_20C "q_PP" (lit 1.5);
  set_kinetics_20C "K_O2_P" (lit 0.2);
  set_kinetics_20C "K_P_P" (lit 0.2);
  set_kinetics_20C "K_PHA_P" (lit 0.01);
  set_kinetics_20C "K_MAX_P" (lit 0.34);
  set_kinetics_20C "K_PP_P" (lit 0.01);
  set_kinetics_20C "K_IPP_P" (lit 0.02);
  set_kinetics_20C "K_PO4_P" (lit 0.01);
  set_kinetics_20C "n_NO3_P" (lit 0.6);
  set_kinetics_20C "n_NO2_P" (lit 0.6);
  set_kinetics_20C "K_NO3_P" (lit 0.5);
  set_kinetics_20C "K_NO2_P" (lit 0.5);
  set_kinetics_20C "mu_PAO" (lit 1.0);
  set_kinetics_20C "b_PAO" (lit 0.2);
  set_kinetics_20C "b_PP" (lit 0.2);
  set_kinetics_20C "b_PHA" (lit 0.2);
  set_kinetics_20C "mu_AOB_HAO" (lit 0.78);
  set_kinetics_20C "q_AOB_AMO" (lit 5.2008);
  set_kinetics_20C "K_O2_AOB1" (lit 1.0);
  set_kinetics_20C "K_NH4_AOB" (lit 0.2);
  set_kinetics_20C "K_O2_AOB2" (lit 0.6);
  set_kinetics_20C "K_NH2OH_AOB" (lit 0.9);
  set_kinetics_20C "q_AOB_HAO" (lit 5.2008);
  set_kinetics_20C "K_NO_AOB_HAO" (lit 0.0003);
  set_kinetics_20C "q_AOB_N2O_NN" (lit 0.0078);
  set_kinetics_20C "K_NO_AOB_NN" (lit 0.008);
  set_kinetics_20C "K_O2_AOB_ND" (lit 0.5);
  set_kinetics_20C "K_I_O2_AOB" (lit 0.8);
  set_kinetics_20C "K_HNO2_AOB" (lit 0.004);
  set_kinetics_20C "q_AOB_N2O_ND" (lit 1.3008);
  set_kinetics_20C "K_ALK_AOB" (lit 0.1);
  set_kinetics_20C "K_P_AOB" (lit 0.01);
  set_kinetics_20C "mu_NOB" (lit 0.78);
  set_kinetics_20C "K_O2_NOB" (lit 1.2);
  set_kinetics_20C "K_ALK_NOB" (lit 0.1);
  set_kinetics_20C "K_NO2_NOB" (lit 0.5);
  set_kinetics_20C "K_P_NOB" (lit 0.01);
  set_kinetics_20C "b_AOB" (lit 0.096);
  set_kinetics_20C "b_NOB" (lit 0.096);
  set_kinetics_20C "k_PRE" (lit 1.0);
  set_kinetics_20C "k_RED" (lit 0.6);
  set_kinetics_20C "K_ALK_PR" (lit 0.5)
].

(** ** [ASM2d_N2O._set_params] *)

Definition set_params_stmts : list stmt := [
  set_params "i_NSF" (kinetics_20C "i_NSF");
  set_params "i_PSF" (kinetics_20C "i_PSF");
  set_params "i_NSI" (kinetics_20C "i_NSI");
  set_params "i_PSI" (kinetics_20C "i_PSI");
  set_params "i_NXI" (kinetics_20C "i_NXI");
  set_params "i_PXI" (kinetics_20C "i_PXI");
  set_params "i_TSSXI" (kinetics_20C "i_TSSXI");
  set_params "i_NXS" (kinetics_20C "i_NXS");
  set_params "i_PXS" (kinetics_20C "i_PXS");
  set_params "i_TSSXS" (kinetics_20C "i_TSSXS");
  set_params "i_NBM" (kinetics_20C "i_NBM");
  set_params "i_PBM" (kinetics_20C "i_PBM");
  set_params "i_TSSBM" (kinetics_20C "i_TSSBM");
  set_params "Y_H" (kinetics_20C "Y_H");
  set_params "Y_PHA" (kinetics_20C "Y_PHA");
  set_params "Y_PAO" (kinetics_20C "Y_PAO");
  set_params "Y_PO4" (kinetics_20C "Y_PO4");
  set_params "Y_AOB" (kinetics_20C "Y_AOB");
  set_params "Y_NOB" (kinetics_20C "Y_NOB");
  set_params "f_SI" (kinetics_20C "f_SI");
  set_params "f_XI" (kinetics_20C "f_XI");
  set_params "n_G" (kinetics_20C "n_G");
  set_params "K_H" (kinetics_20C "K_H");
  set_params "K_O2_H" (kinetics_20C "K_O2_H");
  set_params "K_X_H" (kinetics_20C "K_X_H");
  set_params "n_NO3_H" (kinetics_20C "n_NO3_H");
  set_params "n_NO2_H" (kinetics_20C "n_NO2_H");
  set_params "K_NO3_H" (kinetics_20C "K_NO3_H");
  set_params "K_NO2_H" (kinetics_20C "K_NO2_H");
  set_params "n_fe_H" (kinetics_20C "n_fe_H");
  set_params "mu_H" (kinetics_20C "mu_H");
  set_params "K_O2" (kinetics_20C "K_O2");
  set_params "K_F" (kinetics_20C "K_F");
  set_params "K_NH4" (kinetics_20C "K_NH4");
  set_params "K_P" (kinetics_20C "K_P");
  set_params "K_ALK" (kinetics_20C "K_ALK");
  set_params "K_A" (kinetics_20C "K_A");
  set_params "K_NO3" (kinetics_20C "K_NO3");
  set_params "K_NO2" (kinetics_20C "K_NO2");
  set_params "n_NO3_D" (kinetics_20C "n_NO3_D");
  set_params "q_fe" (kinetics_20C "q_fe");
  set_params "K_fe_H" (kinetics_20C "K_fe_H");
  set_params "b_H" (kinetics_20C "b_H");
  set_params "mu_H_Den" (kinetics_20C "mu_H_Den");
  set_params "n_G3" (kinetics_20C "n_G3");
  set_params "n_G4" (kinetics_20C "n_G4");
  set_params "n_G5" (kinetics_20C "n_G5");
  set_params "K_S3" (kinetics_20C "K_S3");
  set_params "K_S4" (kinetics_20C "K_S4");
  set_params "K_S5" (kinetics_20C "K_S5");
  set_params "K_NO2_Den" (kinetics_20C "K_NO2_Den");
  set_params "K_OH4" (kinetics_20C "K_OH4");
  set_params "K_N2O_Den" (kinetics_20C "K_N2O_Den");
  set_params "K_OH3" (kinetics_20C "K_OH3");
  set_params "K_NO_Den" (kinetics_20C "K_NO_Den");
  set_params "K_OH5" (kinetics_20C "K_OH5");
  set_params "K_I3NO" (kinetics_20C "K_I3NO");
  set_params "K_I4NO" (kinetics_20C "K_I4NO");
  set_params "K_I5NO" (kinetics_20C "K_I5NO");
  set_params "q_PHA" (kinetics_20C "q_PHA");
  set_params "K_A_P" (kinetics_20C "K_A_P");
  set_params "K_ALK_P" (kinetics_20C "K_ALK_P");
  set_params "q_PP" (kinetics_20C "q_PP");
  set_params "K_O2_P" (kinetics_20C "K_O2_P");
  set_params "K_P_P" (kinetics_20C "K_P_P");
  set_params "K_PHA_P" (kinetics_20C "K_PHA_P");
  set_params "K_MAX_P" (kinetics_20C "K_MAX_P");
  set_params "K_PP_P" (kinetics_20C "K_PP_P");
  set_params "K_IPP_P" (kinetics_20C "K_IPP_P");
  set_params "K_PO4_P" (kinetics_20C "K_PO4_P");
  set_params "n_NO3_P" (kinetics_20C "n_NO3_P");
  set_params "n_NO2_P" (kinetics_20C "n_NO2_P");
  set_params "K_NO3_P" (kinetics_20C "K_NO3_P");
  set_params "K_NO2_P" (kinetics_20C "K_NO2_P");
  set_params "mu_PAO" (kinetics_20C "mu_PAO");
  set_params "b_PAO" (kinetics_20C "b_PAO");
  set_params "b_PP" (kinetics_20C "b_PP");
  set_params "b_PHA" (kinetics_20C "b_PHA");
  set_params "mu_AOB_HAO" (kinetics_20C "mu_AOB_HAO");
  set_params "q_AOB_AMO" (kinetics_20C "q_AOB_AMO");
  set_params "K_O2_AOB1" (kinetics_20C "K_O2_AOB1");
  set_params "K_NH4_AOB" (kinetics_20C "K_NH4_AOB");
  set_params "K_O2_AOB2" (kinetics_20C "K_O2_AOB2");
  set_params "K_NH2OH_AOB" (kinetics_20C "K_NH2OH_AOB");
  set_params "q_AOB_HAO" (kinetics_20C "q_AOB_HAO");
  set_params "K_NO_AOB_HAO" (kinetics_20C "K_NO_AOB_HAO");
  set_params "q_AOB_N2O_NN" (kinetics_20C "q_AOB_N2O_NN");
  set_params "K_NO_AOB_NN" (kinetics_20C "K_NO_AOB_NN");
  set_params "K_O2_AOB_ND" (kinetics_20C "K_O2_AOB_ND");
  set_params "K_I_O2_AOB" (kinetics_20C "K_I_O2_AOB");
  set_params "K_HNO2_AOB" (kinetics_20C "K_HNO2_AOB");
  set_params "q_AOB_N2O_ND" (kinetics_20C "q_AOB_N2O_ND");
  set_params "K_ALK_AOB" (kinetics_20C "K_ALK_AOB");
  set_params "K_P_AOB" (kinetics_20C "K_P_AOB");
  set_params "mu_NOB" (kinetics_20C "mu_NOB");
  set_params "K_O2_NOB" (kinetics_20C "K_O2_NOB");
  set_params "K_ALK_NOB" (kinetics_20C "K_ALK_NOB");
  set_params "K_NO2_NOB" (kinetics_20C "K_NO2_NOB");
  set_params "K_P_NOB" (kinetics_20C "K_P_NOB");
  set_params "b_AOB" (kinetics_20C "b_AOB");
  set_params "b_NOB" (kinetics_20C "b_NOB");
  set_params "k_PRE" (kinetics_20C "k_PRE");
  set_params "k_RED" (kinetics_20C "k_RED");
  set_params "K_ALK_PR" (kinetics_20C "K_ALK_PR")
].

(** ** [ASM2d_N2O._set_stoichs]

    [stoichs "x_y"]: x is the process index, y the component index. *)

Definition set_stoichs_stmts : list stmt := [
  set_stoichs "1_2" (lit 1.0 - params "f_SI");
  set_stoichs "1_4" (params "i_NXS" - (lit 1.0 - params "f_SI") * params "i_NSF");
  set_stoichs "1_10" (params "i_PXS" - (lit 1.0 - params "f_SI") * params "i_PSF");
  set_stoichs "1_11" (params "f_SI");
  set_stoichs "1_15" (lit (-1.0));
  set_stoichs "1_12" (lit (1 / 14) * stoichs "1_4" + lit ((-1.5) / 31) * stoichs "1_10");
  set_stoichs "1_22" (params "i_TSSXS" * stoichs "1_15");
  set_stoichs "2_2" (lit 1.0 - params "f_SI");
  set_stoichs "2_4" (params "i_NXS" - (lit 1.0 - params "f_SI") * params "i_NSF");
  set_stoichs "2_10" (params "i_PXS" - (lit 1.0 - params "f_SI") * params "i_PSF");
  set_stoichs "2_11" (params "f_SI");
  set_stoichs "2_15" (lit (-1.0));
  set_stoichs "2_12" (lit (1 / 14) * stoichs "2_4" + lit ((-1.5) / 31) * stoichs "2_10");
  set_stoichs "2_22" (params "i_TSSXS" * stoichs "2_15");
  set_stoichs "3_2" (lit 1.0 - params "f_SI");
  set_stoichs "3_4" (params "i_NXS" - (lit 1.0 - params "f_SI") * params "i_NSF");
  set_stoichs "3_10" (params "i_PXS" - (lit 1.0 - params "f_SI") * params "i_PSF");
  set_stoichs "3_11" (params "f_SI");
  set_stoichs "3_15" (lit (-1.0));
  set_stoichs "3_12" (lit (1 / 14) * stoichs "3_4" + lit ((-1.5) / 31) * stoichs "3_10");
  set_stoichs "3_22" (params "i_TSSXS" * stoichs "3_15");
  set_stoichs "4_2" (lit 1.0 - params "f_SI");
  set_stoichs "4_4" (params "i_NXS" - (lit 1.0 - params "f_SI") * params "i_NSF");
  set_stoichs "4_10" (params "i_PXS" - (lit 1.0 - params "f_SI") * params "i_PSF");
  set_stoichs "4_11" (params "f_SI");
  set_stoichs "4_15" (lit (-1.0));
  set_stoichs "4_12" (lit (1 / 14) * stoichs "4_4" + lit ((-1.5) / 31) * stoichs "4_10");
  set_stoichs "4_22" (params "i_TSSXS" * stoichs "4_15");
  set_stoichs "5_1" (lit 1.0 - lit 1.0 / params "Y_H");
  set_stoichs "5_2" (lit (-1.0) / params "Y_H");
  set_stoichs "5_4" (params "i_NSF" / params "Y_H" - params "i_NBM");
  set_stoichs "5_10" (params "i_PSF" / params "Y_H" - params "i_PBM");
  set_stoichs "5_16" (lit 1.0);
  set_stoichs "5_12" (lit (1 / 14) * stoichs "5_4" + lit ((-1.5) / 31) * stoichs "5_10");
  set_stoichs "5_22" (params "i_TSSBM" * stoichs "5_16");
  set_stoichs "6_1" (lit 1.0 - lit 1.0 / params "Y_H");
  set_stoichs "6_3" (lit (-1.0) / params "Y_H");
  set_stoichs "6_4" (lit 0.0 - params "i_NBM");
  set_stoichs "6_10" (lit 0.0 - params "i_PBM");
  set_stoichs "6_16" (lit 1.0);
  set_stoichs "6_12" (lit ((-1) / 64) * stoichs "6_3" + lit (1 / 14) * stoichs "6_4" + lit ((-1.5) / 31) * stoichs "6_10");
  set_stoichs "6_22" (params "i_TSSBM" * stoichs "6_16");
  set_stoichs "7_2" (lit (-1.0) / (params "Y_H" * params "n_G"));
  set_stoichs "7_4" (params "i_NSF" / params "Y_H" - params "i_NBM");
  set_stoichs "7_8" ((lit 1.0 - params "Y_H" * params "n_G") / (lit (8 / 7) * params "Y_H" * params "n_G"));
  set_stoichs "7_9" (lit 0.0 - (lit 1.0 - params "Y_H" * params "n_G") / (lit (8 / 7) * params "Y_H" * params "n_G"));
  set_stoichs "7_10" (params "i_PSF" / params "Y_H" - params "i_PBM");
  set_stoichs "7_16" (lit 1.0);
  set_stoichs "7_12" (lit (1 / 14) * stoichs "7_4" + lit ((-1) / 14) * stoichs "7_8" + lit ((-1) / 14) * stoichs "7_9" + lit ((-1.5) / 31) * stoichs "7_10");
  set_stoichs "7_22" (params "i_TSSBM" * stoichs "7_16");
  set_stoichs "8_2" (lit (-1.0) / (params "Y_H" * params "n_G"));
  set_stoichs "8_4" (params "i_NSF" / params "Y_H" - params "i_NBM");
  set_stoichs "8_7" ((lit 1.0 - params "Y_H" * params "n_G") / (lit (4 / 7) * params "Y_H" * params "n_G"));
  set_stoichs "8_8" (lit 0.0 - (lit 1.0 - params "Y_H" * params "n_G") / (lit (4 / 7) * params "Y_H" * params "n_G"));
  set_stoichs "8_10" (params "i_PSF" / params "Y_H" - params "i_PBM");
  set_stoichs "8_16" (lit 1.0);
  set_stoichs "8_12" (lit (1 / 14) * stoichs "8_4" + lit ((-1) / 14) * stoichs "8_8" + lit ((-1.5) / 31) * stoichs "8_10");
  set_stoichs "8_22" (params "i_TSSBM" * stoichs "8_16");
  set_stoichs "9_2" (lit (-1.0) / (params "Y_H" * params "n_G"));
  set_stoichs "9_4" (params "i_NSF" / params "Y_H" - params "i_NBM");
  set_stoichs "9_6" ((lit 1.0 - params "Y_H" * params "n_G") / (lit (4 / 7) * params "Y_H" * params "n_G"));
  set_stoichs "9_7" (lit 0.0 - (lit 1.0 - params "Y_H" * params "n_G") / (lit (4 / 7) * params "Y_H" * params "n_G"));
  set_stoichs "9_10" (params "i_PSF" / params "Y_H" - params "i_PBM");
  set_stoichs "9_16" (lit 1.0);
  set_stoichs "9_12" (lit (1 / 14) * stoichs "9_4" + lit ((-1.5) / 31) * stoichs "9_10");
  set_stoichs "9_22" (params "i_TSSBM" * stoichs "9_16");
  set_stoichs "10_2" (lit (-1.0) / (params "Y_H" * params "n_G"));
  set_stoichs "10_4" (params "i_NSF" / params "Y_H" - params "i_NBM");
  set_stoichs "10_6" (lit 0.0 - (lit 1.0 - params "Y_H" * params "n_G") / (lit (4 / 7) * params "Y_H" * params "n_G"));
  set_stoichs "10_10" (params "i_PSF" / params "Y_H" - params "i_PBM");
  set_stoichs "10_13" ((lit 1.0 - params "Y_H" * params "n_G") / (lit (4 / 7) * params "Y_H" * params "n_G"));
  set_stoichs "10_16" (lit 1.0);
  set_stoichs "10_12" (lit (1 / 14) * stoichs "10_4" + lit ((-1.5) / 31) * stoichs "10_10");
  set_stoichs "10_22" (params "i_TSSBM" * stoichs "10_16");
  set_stoichs "11_3" (lit (-1.0) / (params "Y_H" * params "n_G"));
  set_stoichs "11_4" (lit 0.0 - params "i_NBM");
  set_stoichs "11_8" ((lit 1.0 - params "Y_H" * params "n_G") / (lit (8 / 7) * params "Y_H" * params "n_G"));
  set_stoichs "11_9" (lit 0.0 - (lit 1.0 - params "Y_H" * params "n_G") / (lit (8 / 7) * params "Y_H" * params "n_G"));
  set_stoichs "11_10" (lit 0.0 - params "i_PBM");
  set_stoichs "11_16" (lit 1.0);
  set_stoichs "11_12" (lit ((-1) / 64) * stoichs "11_3" + lit (1 / 14) * stoichs "11_4" + lit ((-1) / 14) * stoichs "11_8" + lit ((-1) / 14) * stoichs "11_9" + lit ((-1.5) / 31) * stoichs "11_10");
  set_stoichs "11_22" (params "i_TSSBM" * stoichs "11_16");
  set_stoichs "12_3" (lit (-1.0) / (params "Y_H" * params "n_G"));
  set_stoichs "12_4" (lit 0.0 - params "i_NBM");
  set_stoichs "12_7" ((lit 1.0 - params "Y_H" * params "n_G") / (lit (4 / 7) * params "Y_H" * params "n_G"));
  set_stoichs "12_8" (lit 0.0 - (lit 1.0 - params "Y_H" * params "n_G") / (lit (4 / 7) * params "Y_H" * params "n_G"));
  set_stoichs "12_10" (lit 0.0 - params "i_PBM");
  set_stoichs "12_16" (lit 1.0);
  set_stoichs "12_12" (lit ((-1) / 64) * stoichs "12_3" + lit (1 / 14) * stoichs "12_4" + lit ((-1) / 14) * stoichs "12_8" + lit ((-1.5) / 31) * stoichs "12_10");
  set_stoichs "12_22" (params "i_TSSBM" * stoichs "12_16");
  set_stoichs "13_3" (lit (-1.0) / (params "Y_H" * params "n_G"));
  set_stoichs "13_4" (lit 0.0 - params "i_NBM");
  set_stoichs "13_6" ((lit 1.0 - params "Y_H" * params "n_G") / (lit (4 / 7) * params "Y_H" * params "n_G"));
  set_stoichs "13_7" (lit 0.0 - (lit 1.0 - params "Y_H" * params "n_G") / (lit (4 / 7) * params "Y_H" * params "n_G"));
  set_stoichs "13_10" (lit 0.0 - params "i_PBM");
  set_stoichs "13_16" (lit 1.0);
  set_stoichs "13_12" (lit ((-1) / 64) * stoichs "13_3" + lit (1 / 14) * stoichs "13_4" + lit ((-1.5) / 31) * stoichs "13_10");
  set_stoichs "13_22" (params "i_TSSBM" * stoichs "13_16");
  set_stoichs "14_3" (lit (-1.0) / (params "Y_H" * params "n_G"));
  set_stoichs "14_4" (lit 0.0 - params "i_NBM");
  set_stoichs "14_6" (lit 0.0 - (lit 1.0 - params "Y_H" * params "n_G") / (lit (4 / 7) * params "Y_H" * params "n_G"));
  set_stoichs "14_10" (lit 0.0 - params "i_PBM");
  set_stoichs "14_13" ((lit 1.0 - params "Y_H" * params "n_G") / (lit (4 / 7) * params "Y_H" * params "n_G"));
  set_stoichs "14_16" (lit 1.0);
  set_stoichs "14_12" (lit ((-1) / 64) * stoichs "14_3" + lit (1 / 14) * stoichs "14_4" + lit ((-1.5) / 31) * stoichs "14_10");
  set_stoichs "14_22" (params "i_TSSBM" * stoichs "14_16");
  set_stoichs "15_2" (lit (-1.0));
  set_stoichs "15_3" (lit 1.0);
  set_stoichs "15_4" (params "i_NSF");
  set_stoichs "15_10" (params "i_PSF");
  set_stoichs "15_12" (lit ((-1) / 64) * stoichs "15_3" + lit (1 / 14) * stoichs "15_4" + lit ((-1.5) / 31) * stoichs "15_10");
  set_stoichs "16_4" (params "i_NBM" - params "i_NXI" * params "f_XI" - (lit 1.0 - params "f_XI") * params "i_NXS");
  set_stoichs "16_10" (params "i_PBM" - params "i_PXI" * params "f_XI" - (lit 1.0 - params "f_XI") * params "i_PXS");
  set_stoichs "16_14" (params "f_XI");
  set_stoichs "16_15" (lit 1.0 - params "f_XI");
  set_stoichs "16_16" (lit (-1.0));
  set_stoichs "16_12" (lit (1 / 14) * stoichs "16_4" + lit ((-1.5) / 31) * stoichs "16_10");
  set_stoichs "16_22" (params "i_TSSXI" * stoichs "16_14" + params "i_TSSXS" * stoichs "16_15" + params "i_TSSBM" * stoichs "16_16");
  set_stoichs "17_3" (lit (-1.0));
  set_stoichs "17_10" (params "Y_PO4");
  set_stoichs "17_18" (lit 0.0 - params "Y_PO4");
  set_stoichs "17_19" (lit 1.0);
  set_stoichs "17_12" (lit ((-1) / 64) * stoichs "17_3" + lit ((-1.5) / 31) * stoichs "17_10" + lit ((-1) / 31) * stoichs "17_18");
  set_stoichs "17_22" (lit 3.23 * stoichs "17_18" + lit 0.6 * stoichs "17_19");
  set_stoichs "18_1" (lit 0.0 - params "Y_PHA");
  set_stoichs "18_10" (lit (-1.0));
  set_stoichs "18_18" (lit 1.0);
  set_stoichs "18_19" (lit 0.0 - params "Y_PHA");
  set_stoichs "18_12" (lit ((-1.5) / 31) * stoichs "18_10" + lit ((-1) / 31) * stoichs "18_18");
  set_stoichs "18_22" (lit 3.23 * stoichs "18_18" + lit 0.6 * stoichs "18_19");
  set_stoichs "19_8" (params "Y_PHA" / lit (8 / 7));
  set_stoichs "19_9" (lit 0.0 - params "Y_PHA" / lit (8 / 7));
  set_stoichs "19_10" (lit (-1.0));
  set_stoichs "19_18" (lit 1.0);
  set_stoichs "19_19" (lit 0.0 - params "Y_PHA");
  set_stoichs "19_12" (lit ((-1) / 14) * stoichs "19_8" + lit ((-1) / 14) * stoichs "19_9" + lit ((-1.5) / 31) * stoichs "19_10" + lit ((-1) / 31) * stoichs "19_18");
  set_stoichs "19_22" (lit 3.23 * stoichs "19_18" + lit 0.6 * stoichs "19_19");
  set_stoichs "20_7" (params "Y_PHA" / lit (4 / 7));
  set_stoichs "20_8" (lit 0.0 - params "Y_PHA" / lit (4 / 7));
  set_stoichs "20_10" (lit (-1.0));
  set_stoichs "20_18" (lit 1.0);
  set_stoichs "20_19" (lit 0.0 - params "Y_PHA");
  set_stoichs "20_12" (lit ((-1) / 14) * stoichs "20_8" + lit ((-1.5) / 31) * stoichs "20_10" + lit ((-1) / 31) * stoichs "20_18");
  set_stoichs "20_22" (lit 3.23 * stoichs "20_18" + lit 0.6 * stoichs "20_19");
  set_stoichs "21_6" (params "Y_PHA" / lit (4 / 7));
  set_stoichs "21_7" (lit 0.0 - params "Y_PHA" / lit (4 / 7));
  set_stoichs "21_10" (lit (-1.0));
  set_stoichs "21_18" (lit 1.0);
  set_stoichs "21_19" (lit 0.0 - params "Y_PHA");
  set_stoichs "21_12" (lit ((-1.5) / 31) * stoichs "21_10" + lit ((-1) / 31) * stoichs "21_18");
  set_stoichs "21_22" (lit 3.23 * stoichs "21_18" + lit 0.6 * stoichs "21_19");
  set_stoichs "22_6" (lit 0.0 - params "Y_PHA" / lit (4 / 7));
  set_stoichs "22_10" (lit (-1.0));
  set_stoichs "22_13" (params "Y_PHA" / lit (4 / 7));
  set_stoichs "22_18" (lit 1.0);
  set_stoichs "22_19" (lit 0.0 - params "Y_PHA");
  set_stoichs "22_12" (lit ((-1.5) / 31) * stoichs "22_10" + lit ((-1) / 31) * stoichs "22_18");
  set_stoichs "22_22" (lit 3.23 * stoichs "22_18" + lit 0.6 * stoichs "22_19");
  set_stoichs "23_1" (lit 1.0 - lit 1.0 / params "Y_PAO");
  set_stoichs "23_4" (lit 0.0 - params "i_NBM");
  set_stoichs "23_10" (lit 0.0 - params "i_PBM");
  set_stoichs "23_17" (lit 1.0);
  set_stoichs "23_19" (lit (-1.0) / params "Y_PAO");
  set_stoichs "23_12" (lit (1 / 14) * stoichs "23_4" + lit ((-1.5) / 31) * stoichs "23_10");
  set_stoichs "23_22" (params "i_TSSBM" * stoichs "23_17" + lit 0.6 * stoichs "23_19");
  set_stoichs "24_4" (lit 0.0 - params "i_NBM");
  set_stoichs "24_8" ((lit 1.0 - params "Y_PAO" * params "n_G") / (lit (8 / 7) * params "Y_PAO" * params "n_G"));
  set_stoichs "24_9" (lit 0.0 - (lit 1.0 - params "Y_PAO" * params "n_G") / (lit (8 / 7) * params "Y_PAO" * params "n_G"));
  set_stoichs "24_10" (lit 0.0 - params "i_PBM");
  set_stoichs "24_17" (lit 1.0);
  set_stoichs "24_19" (lit (-1.0) / params "Y_PAO");
  set_stoichs "24_12" (lit (1 / 14) * stoichs "24_4" + lit ((-1) / 14) * stoichs "24_8" + lit ((-1) / 14) * stoichs "24_9" + lit ((-1.5) / 31) * stoichs "24_10");
  set_stoichs "24_22" (params "i_TSSBM" * stoichs "24_17" + lit 0.6 * stoichs "24_19");
  set_stoichs "25_4" (lit 0.0 - params "i_NBM");
  set_stoichs "25_7" ((lit 1.0 - params "Y_PAO" * params "n_G") / (lit (4 / 7) * params "Y_PAO" * params "n_G"));
  set_stoichs "25_8" (lit 0.0 - (lit 1.0 - params "Y_PAO" * params "n_G") / (lit (4 / 7) * params "Y_PAO" * params "n_G"));
  set_stoichs "25_10" (lit 0.0 - params "i_PBM");
  set_stoichs "25_17" (lit 1.0);
  set_stoichs "25_19" (lit (-1.0) / params "Y_PAO");
  set_stoichs "25_12" (lit (1 / 14) * stoichs "25_4" + lit ((-1) / 14) * stoichs "25_8" + lit ((-1.5) / 31) * stoichs "25_10");
  set_stoichs "25_22" (params "i_TSSBM" * stoichs "25_17" + lit 0.6 * stoichs "25_19");
  set_stoichs "26_4" (lit 0.0 - params "i_NBM");
  set_stoichs "26_6" ((lit 1.0 - params "Y_PAO" * params "n_G") / (lit (4 / 7) * params "Y_PAO" * params "n_G"));
  set_stoichs "26_7" (lit 0.0 - (lit 1.0 - params "Y_PAO" * params "n_G") / (lit (4 / 7) * params "Y_PAO" * params "n_G"));
  set_stoichs "26_10" (lit 0.0 - params "i_PBM");
  set_stoichs "26_17" (lit 1.0);
  set_stoichs "26_19" (lit (-1.0) / params "Y_PAO");
  set_stoichs "26_12" (lit (1 / 14) * stoichs "26_4" + lit ((-1.5) / 31) * stoichs "26_10");
  set_stoichs "26_22" (params "i_TSSBM" * stoichs "26_17" + lit 0.6 * stoichs "26_19");
  set_stoichs "27_4" (lit 0.0 - params "i_NBM");
  set_stoichs "27_6" (lit 0.0 - (lit 1.0 - params "Y_PAO" * params "n_G") / (lit (4 / 7) * params "Y_PAO" * params "n_G"));
  set_stoichs "27_10" (lit 0.0 - params "i_PBM");
  set_stoichs "27_13" ((lit 1.0 - params "Y_PAO" * params "n_G") / (lit (4 / 7) * params "Y_PAO" * params "n_G"));
  set_stoichs "27_17" (lit 1.0);
  set_stoichs "27_19" (lit (-1.0) / params "Y_PAO");
  set_stoichs "27_12" (lit (1 / 14) * stoichs "27_4" + lit ((-1.5) / 31) * stoichs "27_10");
  set_stoichs "27_22" (params "i_TSSBM" * stoichs "27_17" + lit 0.6 * stoichs "27_19");
  set_stoichs "28_4" (params "i_NBM" - params "i_NXI" * params "f_XI" - (lit 1.0 - params "f_XI") * params "i_NXS");
  set_stoichs "28_10" (params "i_PBM" - params "i_PXI" * params "f_XI" - (lit 1.0 - params "f_XI") * params "i_PXS");
  set_stoichs "28_14" (params "f_XI");
  set_stoichs "28_15" (lit 1.0 - params "f_XI");
  set_stoichs "28_17" (lit (-1.0));
  set_stoichs "28_12" (lit (1 / 14) * stoichs "28_4" + lit ((-1.5) / 31) * stoichs "28_10");
  set_stoichs "28_22" (params "i_TSSXI" * stoichs "28_14" + params "i_TSSXS" * stoichs "28_15" + params "i_TSSBM" * stoichs "28_17");
  set_stoichs "29_10" (lit 1.0);
  set_stoichs "29_18" (lit (-1.0));
  set_stoichs "29_12" (lit ((-1.5) / 31) * stoichs "29_10" + lit ((-1) / 31) * stoichs "29_18");
  set_stoichs "29_22" (lit 3.23 * stoichs "29_18");
  set_stoichs "30_3" (lit 1.0);
  set_stoichs "30_19" (lit (-1.0));
  set_stoichs "30_12" (lit ((-1) / 64) * stoichs "30_3");
  set_stoichs "30_22" (lit 0.6 * stoichs "30_19");
  set_stoichs "31_1" (lit ((-8) / 7));
  set_stoichs "31_4" (lit (-1.0));
  set_stoichs "31_5" (lit 1.0);
  set_stoichs "31_12" (lit (1 / 14) * stoichs "31_4");
  set_stoichs "32_1" (lit 0.0 - (lit (12 / 7) - params "Y_AOB") / params "Y_AOB");
  set_stoichs "32_4" (lit 0.0 - params "i_NBM");
  set_stoichs "32_5" (lit (-1.0) / params "Y_AOB");
  set_stoichs "32_7" (lit 1.0 / params "Y_AOB");
  set_stoichs "32_10" (lit 0.0 - params "i_PBM");
  set_stoichs "32_20" (lit 1.0);
  set_stoichs "32_12" (lit (1 / 14) * stoichs "32_4" + lit ((-1.5) / 31) * stoichs "32_10");
  set_stoichs "32_22" (params "i_TSSBM" * stoichs "32_20");
  set_stoichs "33_1" (lit ((-4) / 7));
  set_stoichs "33_7" (lit (-1.0));
  set_stoichs "33_8" (lit 1.0);
  set_stoichs "33_12" (lit ((-1) / 14) * stoichs "33_8");
  set_stoichs "34_5" (lit (-1.0));
  set_stoichs "34_6" (lit 4.0);
  set_stoichs "34_7" (lit (-4.0));
  set_stoichs "34_8" (lit 1.0);
  set_stoichs "34_12" (lit ((-1) / 14) * stoichs "34_8");
  set_stoichs "35_5" (lit (-1.0));
  set_stoichs "35_6" (lit 2.0);
  set_stoichs "35_8" (lit (-1.0));
  set_stoichs "35_12" (lit ((-1) / 14) * stoichs "35_8");
  set_stoichs "36_1" (lit 0.0 - (lit (8 / 7) - params "Y_NOB") / params "Y_NOB");
  set_stoichs "36_4" (lit 0.0 - params "i_NBM");
  set_stoichs "36_8" (lit (-1.0) / params "Y_NOB");
  set_stoichs "36_9" (lit 1.0 / params "Y_NOB");
  set_stoichs "36_10" (lit 0.0 - params "i_PBM");
  set_stoichs "36_21" (lit 1.0);
  set_stoichs "36_12" (lit (1 / 14) * stoichs "36_4" + lit ((-1) / 14) * stoichs "36_8" + lit ((-1) / 14) * stoichs "36_9" + lit ((-1.5) / 31) * stoichs "36_10");
  set_stoichs "36_22" (params "i_TSSBM" * stoichs "36_21");
  set_stoichs "37_4" (params "i_NBM" - params "i_NXI" * params "f_XI" - (lit 1.0 - params "f_XI") * params "i_NXS");
  set_stoichs "37_10" (params "i_PBM" - params "i_PXI" * params "f_XI" - (lit 1.0 - params "f_XI") * params "i_PXS");
  set_stoichs "37_14" (params "f_XI");
  set_stoichs "37_15" (lit 1.0 - params "f_XI");
  set_stoichs "37_20" (lit (-1.0));
  set_stoichs "37_12" (lit (1 / 14) * stoichs "37_4" + lit ((-1.5) / 31) * stoichs "37_10");
  set_stoichs "37_22" (params "i_TSSXI" * stoichs "37_14" + params "i_TSSXS" * stoichs "37_15" + params "i_TSSBM" * stoichs "37_20");
  set_stoichs "38_4" (params "i_NBM" - params "i_NXI" * params "f_XI" - (lit 1.0 - params "f_XI") * params "i_NXS");
  set_stoichs "38_10" (params "i_PBM" - params "i_PXI" * params "f_XI" - (lit 1.0 - params "f_XI") * params "i_PXS");
  set_stoichs "38_14" (params "f_XI");
  set_stoichs "38_15" (lit 1.0 - params "f_XI");
  set_stoichs "38_21" (lit (-1.0));
  set_stoichs "38_12" (lit (1 / 14) * stoichs "38_4" + lit ((-1.5) / 31) * stoichs "38_10");
  set_stoichs "38_22" (params "i_TSSXI" * stoichs "38_14" + params "i_TSSXS" * stoichs "38_15" + params "i_TSSBM" * stoichs "38_21");
  set_stoichs "39_10" (lit (-1.0));
  set_stoichs "39_23" (lit (-3.45));
  set_stoichs "39_24" (lit 4.87);
  set_stoichs "39_12" (lit ((-1.5) / 31) * stoichs "39_10");
  set_stoichs "39_22" (lit 1.0 * stoichs "39_23" + lit 1.0 * stoichs "39_24");
  set_stoichs "40_10" (lit 1.0);
  set_stoichs "40_23" (lit 3.45);
  set_stoichs "40_24" (lit (-4.87));
  set_stoichs "40_12" (lit ((-1.5) / 31) * stoichs "40_10");
  set_stoichs "40_22" (lit 1.0 * stoichs "40_23" + lit 1.0 * stoichs "40_24")
].

(** ** [ASM2d_N2O._reaction_rate]

    The statements in source order, cut where the source assigns a local
    variable: lines 643-688, 695-701, 704-705, 708-741 and 745-751. *)

(** [self._monod[i]]: a bound method is not subscriptable. *)
Definition _monod_subscript (i : nat) : E R := eraise TypeError.

Definition monod_terms (comps : loc) : list stmt := [
  set_monods 0 (monod comps.[0] (params "K_O2_H"));
  set_monods 1 (monod (comps.[14] / comps.[15]) (params "K_X_H"));
  set_monods 2 (monod (params "K_O2_H") comps.[0]);
  set_monods 3 (monod comps.[8] (params "K_NO3_H"));
  set_monods 4 (monod comps.[7] (params "K_NO2_H"));
  set_monods 5 (monod (params "K_NO2_H") (comps.[7] + comps.[8]));
  set_monods 6 (monod comps.[1] (params "K_F"));
  set_monods 7 (monod comps.[1] comps.[2]);
  set_monods 8 (monod comps.[0] (params "K_O2"));
  set_monods 9 (monod comps.[3] (params "K_NH4"));
  set_monods 10 (monod comps.[9] (params "K_P"));
  set_monods 11 (monod comps.[11] (params "K_ALK"));
  set_monods 12 (monod comps.[2] (params "K_A"));
  set_monods 13 (monod comps.[2] comps.[1]);
  set_monods 14 (monod (params "K_O2") comps.[0]);
  set_monods 15 (monod comps.[1] (params "K_S3"));
  set_monods 16 (monod comps.[7] (params "K_NO2_Den"));
  set_monods 17 (monod (params "K_OH3") comps.[0]);
  set_monods 18 (monod comps.[1] (params "K_S4"));
  set_monods 19 (monod comps.[6] (params "K_NO_Den" + comps.[6] ^ 2 / params "K_I4NO"));
  set_monods 20 (monod (params "K_OH4") comps.[0]);
  set_monods 21 (monod comps.[1] (params "K_S5"));
  set_monods 22 (monod comps.[5] (params "K_N2O_Den"));
  set_monods 23 (monod (params "K_OH5") comps.[0]);
  set_monods 24 (monod comps.[2] (params "K_S3"));
  set_monods 25 (monod comps.[2] (params "K_S4"));
  set_monods 26 (monod comps.[2] (params "K_S5"));
  set_monods 27 (monod (params "K_NO2") (comps.[7] + comps.[8]));
  set_monods 28 (monod comps.[1] (params "K_fe_H"));
  set_monods 29 (monod comps.[2] (params "K_A_P"));
  set_monods 30 (monod comps.[11] (params "K_ALK_P"));
  set_monods 31 (monod (comps.[17] / comps.[16]) (params "K_PP_P"));
  set_monods 32 (monod comps.[0] (params "K_O2_P"));
  set_monods 33 (monod comps.[9] (params "K_P_P"));
  set_monods 34 (monod (comps.[18] / comps.[16]) (params "K_PHA_P"));
  set_monods 35 (monod (params "K_MAX_P" - comps.[17] / comps.[16]) (params "K_IPP_P"));
  set_monods 36 (monod comps.[8] (params "K_NO3_P"));
  set_monods 37 (monod (params "K_O2_P") comps.[0]);
  set_monods 38 (monod comps.[0] (params "K_O2_AOB1"));
  set_monods 39 (monod comps.[3] (params "K_NH4_AOB"));
  set_monods 40 (monod comps.[0] (params "K_O2_AOB2"));
  set_monods 41 (monod comps.[4] (params "K_NH2OH_AOB"));
  set_monods 42 (monod comps.[9] (params "K_P_AOB"));
  set_monods 43 (monod comps.[11] (params "K_ALK_AOB"));
  set_monods 44 (monod comps.[6] (params "K_NO_AOB_HAO"));
  set_monods 45 (monod comps.[6] (params "K_NO_AOB_NN"))
].

Definition temp : R := 20.
Definition pH : nat := 7.
Definition Ka : R := exp ((-2300) / (273.15 + temp)).
Definition S_HNO2_expr (comps : loc) : E R :=
  (comps.[7] / lit (Ka * 10 ^ pH + 1) * lit (47 / 14))%py.

Definition hno2_terms (S_HNO2 : R) (comps : loc) : list stmt := [
  set_monods 46 (monod (lit S_HNO2) (params "K_HNO2_AOB"));
  set_monods 47 (monod comps.[0] (params "K_O2_NOB"));
  set_monods 48 (monod comps.[7] (params "K_NO2_NOB"));
  set_monods 49 (monod comps.[9] (params "K_P_NOB"));
  set_monods 50 (monod comps.[11] (params "K_ALK_NOB"));
  set_monods 51 (monod comps.[11] (params "K_ALK_PR"))
].

(** "Omitted monod terms earlier" *)
Definition omitted_terms (comps : loc) : list stmt := [
  set_monods 52 (monod comps.[8] (params "K_NO3"));
  set_monods 53 (monod comps.[3] (lit 10e-12))
].

Definition rates (comps : loc) : list stmt := [
  set_rate_res 0 (params "K_H" * monods 0 * monods 1 * comps.[15]);
  set_rate_res 1 (params "K_H" * params "n_NO3_H" * monods 2 * monods 3 * monods 1 * comps.[15]);
  set_rate_res 2 (params "K_H" * params "n_NO2_H" * monods 2 * monods 4 * monods 1 * comps.[15]);
  set_rate_res 3 (params "K_H" * params "n_fe_H" * monods 2 * monods 5 * monods 1 * comps.[15]);
  set_rate_res 4 (params "mu_H" * monods 6 * monods 7 * monods 8 * monods 9 * monods 10 * monods 11 * comps.[15]);
  set_rate_res 5 (params "mu_H" * monods 12 * monods 13 * monods 8 * monods 9 * monods 10 * monods 11 * comps.[15]);
  set_rate_res 6 (params "mu_H" * params "n_NO3_D" * monods 6 * monods 7 * monods 14 * monods 52 * monods 9 * monods 10 * monods 11 * comps.[15]);
  set_rate_res 7 (params "mu_H" * params "n_G3" * monods 15 * monods 7 * monods 16 * monods 17 * monods 9 * monods 10 * monods 11 * comps.[15]);
  set_rate_res 8 (params "mu_H" * params "n_G4" * monods 18 * monods 7 * monods 19 * monods 20 * monods 9 * monods 10 * monods 11 * comps.[15]);
  set_rate_res 9 (params "mu_H" * params "n_G5" * monods 21 * monods 7 * monods 22 * monods 23 * monods 9 * monods 10 * monods 11 * comps.[15]);
  set_rate_res 10 (params "mu_H" * params "n_NO3_D" * monods 12 * monods 13 * monods 14 * monods 52 * monods 9 * monods 10 * monods 11 * comps.[15]);
  set_rate_res 11 (params "mu_H" * params "n_G3" * monods 24 * monods 13 * monods 16 * monods 17 * monods 9 * monods 10 * monods 11 * comps.[15]);
  set_rate_res 12 (params "mu_H" * params "n_G4" * monods 25 * monods 13 * monods 19 * monods 20 * monods 9 * monods 10 * monods 11 * comps.[15]);
  set_rate_res 13 (params "mu_H" * params "n_G5" * monods 26 * monods 13 * monods 22 * monods 23 * monods 9 * monods 10 * monods 11 * comps.[15]);
  set_rate_res 14 (params "q_fe" * monods 14 * monods 27 * _monod_subscript 28 * monods 11 * comps.[15]);
  set_rate_res 15 (params "b_H" * comps.[15]);
  set_rate_res 16 (params "q_PHA" * monods 29 * monods 30 * monods 31 * comps.[16]);
  set_rate_res 17 (params "q_PP" * monods 32 * monods 33 * monods 30 * monods 34 * monods 35 * comps.[16]);
  set_rate_res 18 (params "q_PP" * params "n_NO3_P" * monods 36 * monods 37 * monods 33 * monods 30 * monods 34 * monods 35 * comps.[16]);
  set_rate_res 19 (params "q_PP" * params "n_G3" * monods 16 * monods 17 * monods 33 * monods 30 * monods 34 * monods 35 * comps.[16]);
  set_rate_res 20 (params "q_PP" * params "n_G4" * monods 19 * monods 20 * monods 33 * monods 30 * monods 34 * monods 35 * comps.[16]);
  set_rate_res 21 (params "q_PP" * params "n_G5" * monods 22 * monods 23 * monods 33 * monods 30 * monods 34 * monods 35 * comps.[16]);
  set_rate_res 22 (params "mu_PAO" * monods 32 * monods 33 * monods 9 * monods 30 * monods 34 * comps.[16]);
  set_rate_res 23 (params "mu_PAO" * params "n_NO3_P" * monods 36 * monods 37 * monods 33 * monods 9 * monods 30 * monods 34 * comps.[16]);
  set_rate_res 24 (params "mu_PAO" * params "n_G3" * monods 16 * monods 17 * monods 33 * monods 9 * monods 30 * monods 34 * comps.[16]);
  set_rate_res 25 (params "mu_PAO" * params "n_G4" * monods 19 * monods 20 * monods 33 * monods 9 * monods 30 * monods 34 * comps.[16]);
  set_rate_res 26 (params "mu_PAO" * params "n_G5" * monods 22 * monods 23 * monods 33 * monods 9 * monods 30 * monods 34 * comps.[16]);
  set_rate_res 27 (params "b_PAO" * monods 30 * comps.[16]);
  set_rate_res 28 (params "b_PP" * monods 30 * comps.[17]);
  set_rate_res 29 (params "b_PHA" * monods 30 * comps.[18]);
  set_rate_res 30 (params "q_AOB_AMO" * monods 38 * monods 39 * comps.[19]);
  set_rate_res 31 (params "mu_AOB_HAO" * monods 40 * monods 41 * monods 53 * monods 42 * monods 43 * comps.[19]);
  set_rate_res 32 (params "q_AOB_HAO" * monods 40 * monods 44 * comps.[19]);
  set_rate_res 33 (params "q_AOB_N2O_NN" * monods 41 * monods 45 * comps.[19])
].

Definition fSO2_expr (comps : loc) : E R :=
  (comps.[0] / (params "K_O2_AOB_ND" + (lit 1.0 - lit 2.0 * esqrt (params "K_O2_AOB_ND" / params "K_I_O2_AOB")) * comps.[0] + comps.[0] ^ 2 / params "K_I_O2_AOB"))%py.

Definition nd_rates (fSO2 : R) (comps : loc) : list stmt := [
  set_rate_res 34 (params "q_AOB_N2O_ND" * monods 41 * monods 46 * lit fSO2 * comps.[19]);
  set_rate_res 35 (params "mu_NOB" * monods 47 * monods 48 * monods 49 * monods 50 * comps.[20]);
  set_rate_res 36 (params "b_AOB" * comps.[19]);
  set_rate_res 37 (params "b_NOB" * comps.[20]);
  set_rate_res 38 (params "k_PRE" * comps.[9] * comps.[22]);
  set_rate_res 39 (params "k_RED" * monods 51 * comps.[23])
].

(** [return self._rate_res] hands out the reference. *)
Definition attr (b : buff) : M loc :=
  λ w, match get_buff b (self w) with
       | Some l => (Ok l, w)
       | None => (Err (AttributeError (buff_name b)), w)
       end.

Definition _reaction_rate (comps : loc) : M loc :=
  run (monod_terms comps) ;;;
  S_HNO2 <- eval (S_HNO2_expr comps) ;;
  run (hno2_terms S_HNO2 comps) ;;;
  run (omitted_terms comps) ;;;
  run (rates comps) ;;;
  fSO2 <- eval (fSO2_expr comps) ;;
  run (nd_rates fSO2 comps) ;;;
  attr B_rate_res.

(** ** Overall process rates for each component *)

Definition _rate0_S_O2 : E R :=
  (stoichs "5_1" * rate_res 4
   + stoichs "6_1" * rate_res 5
   + stoichs "18_1" * rate_res 17
   + stoichs "23_1" * rate_res 22
   + stoichs "31_1" * rate_res 30
   + stoichs "32_1" * rate_res 31
   + stoichs "33_1" * rate_res 32
   + stoichs "36_1" * rate_res 35)%py.

Definition _rate1_S_F : E R :=
  (stoichs "1_2" * rate_res 0
   + stoichs "2_2" * rate_res 1
   + stoichs "3_2" * rate_res 2
   + stoichs "4_2" * rate_res 3
   + stoichs "5_2" * rate_res 4
   + stoichs "7_2" * rate_res 6
   + stoichs "8_2" * rate_res 7
   + stoichs "9_2" * rate_res 8
   + stoichs "10_2" * rate_res 9
   + stoichs "15_2" * rate_res 14)%py.

Definition _rate2_S_A : E R :=
  (stoichs "6_3" * rate_res 5
   + stoichs "11_3" * rate_res 10
   + stoichs "12_3" * rate_res 11
   + stoichs "13_3" * rate_res 12
   + stoichs "14_3" * rate_res 13
   + stoichs "15_3" * rate_res 14
   + stoichs "17_3" * rate_res 16
   + stoichs "30_3" * rate_res 29)%py.

Definition _rate3_S_NH4 : E R :=
  (stoichs "1_4" * rate_res 0
   + stoichs "2_4" * rate_res 1
   + stoichs "3_4" * rate_res 2
   + stoichs "4_4" * rate_res 3
   + stoichs "5_4" * rate_res 4
   + stoichs "6_4" * rate_res 5
   + stoichs "7_4" * rate_res 6
   + stoichs "8_4" * rate_res 7
   + stoichs "9_4" * rate_res 8
   + stoichs "10_4" * rate_res 9
   + stoichs "11_4" * rate_res 10
   + stoichs "12_4" * rate_res 11
   + stoichs "13_4" * rate_res 12
   + stoichs "14_4" * rate_res 13
   + stoichs "15_4" * rate_res 14
   + stoichs "16_4" * rate_res 15
   + stoichs "23_4" * rate_res 22
   + stoichs "24_4" * rate_res 23
   + stoichs "25_4" * rate_res 24
   + stoichs "26_4" * rate_res 25
   + stoichs "27_4" * rate_res 26
   + stoichs "28_4" * rate_res 27
   + stoichs "31_4" * rate_res 30
   + stoichs "32_4" * rate_res 31
   + stoichs "36_4" * rate_res 35
   + stoichs "37_4" * rate_res 36
   + stoichs "38_4" * rate_res 37)%py.

Definition _rate4_S_NH2OH : E R :=
  (stoichs "31_5" * rate_res 30
   + stoichs "32_5" * rate_res 31
   + stoichs "34_5" * rate_res 33
   + stoichs "35_5" * rate_res 34)%py.

Definition _rate5_S_N2O : E R :=
  (stoichs "9_6" * rate_res 8
   + stoichs "10_6" * rate_res 9
   + stoichs "13_6" * rate_res 12
   + stoichs "14_6" * rate_res 13
   + stoichs "21_6" * rate_res 20
   + stoichs "22_6" * rate_res 21
   + stoichs "26_6" * rate_res 25
   + stoichs "27_6" * rate_res 26
   + stoichs "34_6" * rate_res 33
   + stoichs "35_6" * rate_res 34)%py.

Definition _rate6_S_NO : E R :=
  (stoichs "8_7" * rate_res 7
   + stoichs "9_7" * rate_res 8
   + stoichs "12_7" * rate_res 11
   + stoichs "13_7" * rate_res 12
   + stoichs "20_7" * rate_res 19
   + stoichs "21_7" * rate_res 20
   + stoichs "25_7" * rate_res 24
   + stoichs "26_7" * rate_res 25
   + stoichs "32_7" * rate_res 31
   + stoichs "33_7" * rate_res 32
   + stoichs "34_7" * rate_res 33)%py.

Definition _rate7_S_NO2 : E R :=
  (stoichs "7_8" * rate_res 6
   + stoichs "8_8" * rate_res 7
   + stoichs "11_8" * rate_res 10
   + stoichs "12_8" * rate_res 11
   + stoichs "19_8" * rate_res 18
   + stoichs "20_8" * rate_res 19
   + stoichs "24_8" * rate_res 23
   + stoichs "25_8" * rate_res 24
   + stoichs "33_8" * rate_res 32
   + stoichs "34_8" * rate_res 33
   + stoichs "35_8" * rate_res 34
   + stoichs "36_8" * rate_res 35)%py.

Definition _rate8_S_NO3 : E R :=
  (stoichs "7_9" * rate_res 6
   + stoichs "11_9" * rate_res 10
   + stoichs "19_9" * rate_res 18
   + stoichs "24_9" * rate_res 23
   + stoichs "36_9" * rate_res 35)%py.

Definition _rate9_S_PO4 : E R :=
  (stoichs "1_10" * rate_res 0
   + stoichs "2_10" * rate_res 1
   + stoichs "3_10" * rate_res 2
   + stoichs "4_10" * rate_res 3
   + stoichs "5_10" * rate_res 4
   + stoichs "6_10" * rate_res 5
   + stoichs "7_10" * rate_res 6
   + stoichs "8_10" * rate_res 7
   + stoichs "9_10" * rate_res 8
   + stoichs "10_10" * rate_res 9
   + stoichs "11_10" * rate_res 10
   + stoichs "12_10" * rate_res 11
   + stoichs "13_10" * rate_res 12
   + stoichs "14_10" * rate_res 13
   + stoichs "15_10" * rate_res 14
   + stoichs "16_10" * rate_res 15
   + stoichs "17_10" * rate_res 16
   + stoichs "18_10" * rate_res 17
   + stoichs "19_10" * rate_res 18
   + stoichs "20_10" * rate_res 19
   + stoichs "21_10" * rate_res 20
   + stoichs "22_10" * rate_res 21
   + stoichs "23_10" * rate_res 22
   + stoichs "24_10" * rate_res 23
   + stoichs "25_10" * rate_res 24
   + stoichs "26_10" * rate_res 25
   + stoichs "27_10" * rate_res 26
   + stoichs "28_10" * rate_res 27
   + stoichs "29_10" * rate_res 28
   + stoichs "32_10" * rate_res 31
   + stoichs "36_10" * rate_res 35
   + stoichs "37_10" * rate_res 36
   + stoichs "38_10" * rate_res 37
   + stoichs "39_10" * rate_res 38
   + stoichs "40_10" * rate_res 39)%py.

Definition _rate10_S_I : E R :=
  (stoichs "1_11" * rate_res 0
   + stoichs "2_11" * rate_res 1
   + stoichs "3_11" * rate_res 2
   + stoichs "4_11" * rate_res 3)%py.

Definition _rate11_S_ALK : E R :=
  (stoichs "1_12" * rate_res 0
   + stoichs "2_12" * rate_res 1
   + stoichs "3_12" * rate_res 2
   + stoichs "4_12" * rate_res 3
   + stoichs "5_12" * rate_res 4
   + stoichs "6_12" * rate_res 5
   + stoichs "7_12" * rate_res 6
   + stoichs "8_12" * rate_res 7
   + stoichs "9_12" * rate_res 8
   + stoichs "10_12" * rate_res 9
   + stoichs "11_12" * rate_res 10
   + stoichs "12_12" * rate_res 11
   + stoichs "13_12" * rate_res 12
   + stoichs "14_12" * rate_res 13
   + stoichs "15_12" * rate_res 14
   + stoichs "16_12" * rate_res 15
   + stoichs "17_12" * rate_res 16
   + stoichs "18_12" * rate_res 17
   + stoichs "19_12" * rate_res 18
   + stoichs "20_12" * rate_res 19
   + stoichs "21_12" * rate_res 20
   + stoichs "22_12" * rate_res 21
   + stoichs "23_12" * rate_res 22
   + stoichs "24_12" * rate_res 23
   + stoichs "25_12" * rate_res 24
   + stoichs "26_12" * rate_res 25
   + stoichs "27_12" * rate_res 26
   + stoichs "28_12" * rate_res 27
   + stoichs "29_12" * rate_res 28
   + stoichs "30_12" * rate_res 29
   + stoichs "31_12" * rate_res 30
   + stoichs "32_12" * rate_res 31
   + stoichs "33_12" * rate_res 32
   + stoichs "34_12" * rate_res 33
   + stoichs "35_12" * rate_res 34
   + stoichs "36_12" * rate_res 35
   + stoichs "37_12" * rate_res 36
   + stoichs "38_12" * rate_res 37
   + stoichs "39_12" * rate_res 38
   + stoichs "40_12" * rate_res 39)%py.

Definition _rate12_S_N2 : E R :=
  (stoichs "10_13" * rate_res 9
   + stoichs "14_13" * rate_res 13
   + stoichs "22_13" * rate_res 21
   + stoichs "27_13" * rate_res 26)%py.

Definition _rate13_X_I : E R :=
  (stoichs "16_14" * rate_res 15
   + stoichs "28_14" * rate_res 27
   + stoichs "37_14" * rate_res 36
   + stoichs "38_14" * rate_res 37)%py.

Definition _rate14_X_S : E R :=
  (stoichs "1_15" * rate_res 0
   + stoichs "2_15" * rate_res 1
   + stoichs "3_15" * rate_res 2
   + stoichs "4_15" * rate_res 3
   + stoichs "16_15" * rate_res 15
   + stoichs "28_15" * rate_res 27
   + stoichs "37_15" * rate_res 36
   + stoichs "38_15" * rate_res 37)%py.

Definition _rate15_X_H : E R :=
  (stoichs "5_16" * rate_res 4
   + stoichs "6_16" * rate_res 5
   + stoichs "7_16" * rate_res 6
   + stoichs "8_16" * rate_res 7
   + stoichs "9_16" * rate_res 8
   + stoichs "10_16" * rate_res 9
   + stoichs "11_16" * rate_res 10
   + stoichs "12_16" * rate_res 11
   + stoichs "13_16" * rate_res 12
   + stoichs "14_16" * rate_res 13
   + stoichs "16_16" * rate_res 15)%py.

Definition _rate16_X_PAO : E R :=
  (stoichs "23_17" * rate_res 22
   + stoichs "24_17" * rate_res 23
   + stoichs "25_17" * rate_res 24
   + stoichs "26_17" * rate_res 25
   + stoichs "27_17" * rate_res 26
   + stoichs "28_17" * rate_res 27)%py.

Definition _rate17_X_PP : E R :=
  (stoichs "17_18" * rate_res 16
   + stoichs "18_18" * rate_res 17
   + stoichs "19_18" * rate_res 18
   + stoichs "20_18" * rate_res 19
   + stoichs "21_18" * rate_res 20
   + stoichs "22_18" * rate_res 21
   + stoichs "29_18" * rate_res 28)%py.

Definition _rate18_X_PHA : E R :=
  (stoichs "17_19" * rate_res 16
   + stoichs "18_19" * rate_res 17
   + stoichs "19_19" * rate_res 18
   + stoichs "20_19" * rate_res 19
   + stoichs "21_19" * rate_res 20
   + stoichs "22_19" * rate_res 21
   + stoichs "23_19" * rate_res 22
   + stoichs "24_19" * rate_res 23
   + stoichs "25_19" * rate_res 24
   + stoichs "26_19" * rate_res 25
   + stoichs "27_19" * rate_res 26
   + stoichs "30_19" * rate_res 29)%py.

Definition _rate19_X_AOB : E R :=
  (stoichs "32_20" * rate_res 31
   + stoichs "37_20" * rate_res 36)%py.

Definition _rate20_X_NOB : E R :=
  (stoichs "36_21" * rate_res 35
   + stoichs "38_21" * rate_res 37)%py.

Definition _rate21_X_TSS : E R :=
  (stoichs "1_22" * rate_res 0
   + stoichs "2_22" * rate_res 1
   + stoichs "3_22" * rate_res 2
   + stoichs "4_22" * rate_res 3
   + stoichs "5_22" * rate_res 4
   + stoichs "6_22" * rate_res 5
   + stoichs "7_22" * rate_res 6
   + stoichs "8_22" * rate_res 7
   + stoichs "9_22" * rate_res 8
   + stoichs "10_22" * rate_res 9
   + stoichs "11_22" * rate_res 10
   + stoichs "12_22" * rate_res 11
   + stoichs "13_22" * rate_res 12
   + stoichs "14_22" * rate_res 13
   + stoichs "16_22" * rate_res 15
   + stoichs "17_22" * rate_res 16
   + stoichs "18_22" * rate_res 17
   + stoichs "19_22" * rate_res 18
   + stoichs "20_22" * rate_res 19
   + stoichs "21_22" * rate_res 20
   + stoichs "22_22" * rate_res 21
   + stoichs "23_22" * rate_res 22
   + stoichs "24_22" * rate_res 23
   + stoichs "25_22" * rate_res 24
   + stoichs "26_22" * rate_res 25
   + stoichs "27_22" * rate_res 26
   + stoichs "28_22" * rate_res 27
   + stoichs "29_22" * rate_res 28
   + stoichs "30_22" * rate_res 29
   + stoichs "32_22" * rate_res 31
   + stoichs "36_22" * rate_res 35
   + stoichs "37_22" * rate_res 36
   + stoichs "38_22" * rate_res 37
   + stoichs "39_22" * rate_res 38
   + stoichs "40_22" * rate_res 39)%py.

Definition _rate22_X_MeOH : E R :=
  (stoichs "39_23" * rate_res 38
   + stoichs "40_23" * rate_res 39)%py.

Definition _rate23_X_MeP : E R :=
  (stoichs "39_24" * rate_res 38
   + stoichs "40_24" * rate_res 39)%py.

(** ** [ASM2d_N2O._dCdt] *)

Definition KLa : E R := λ w, Ok (_KLa (self w)).

(** [result.append(e)] on the list the function is building. *)
Definition append (result : list R) (e : E R) : M (list R) :=
  v <- eval e ;; ret (result ++ [v]).

(** Lines 1243-1322: the hydraulic retention time and the 24 balances. *)
Definition mass_balance (mo_comps : loc) (vol flow : R) (in_comps : loc)
    (fix_DO : bool) (DO_sat_T : R) : M (list R) :=
  _HRT <- eval (lit vol / lit flow) ;;
  result <- (λ w, if fix_DO || bool_decide (_bulk_DO (self w) = 0)
                  then ret [0.0] w
                  else (v <- eval ((in_comps.[0] - mo_comps.[0]) / lit _HRT + KLa * (lit DO_sat_T - mo_comps.[0]) + _rate0_S_O2) ;;
                        ret [v]) w) ;;
  result <- append result ((in_comps.[1] - mo_comps.[1]) / lit _HRT + _rate1_S_F) ;;
  result <- append result ((in_comps.[2] - mo_comps.[2]) / lit _HRT + _rate2_S_A) ;;
  result <- append result ((in_comps.[3] - mo_comps.[3]) / lit _HRT + _rate3_S_NH4) ;;
  result <- append result ((in_comps.[4] - mo_comps.[4]) / lit _HRT + _rate4_S_NH2OH) ;;
  result <- append result ((in_comps.[5] - mo_comps.[5]) / lit _HRT + _rate5_S_N2O) ;;
  result <- append result ((in_comps.[6] - mo_comps.[6]) / lit _HRT + _rate6_S_NO) ;;
  result <- append result ((in_comps.[7] - mo_comps.[7]) / lit _HRT + _rate7_S_NO2) ;;
  result <- append result ((in_comps.[8] - mo_comps.[8]) / lit _HRT + _rate8_S_NO3) ;;
  result <- append result ((in_comps.[9] - mo_comps.[9]) / lit _HRT + _rate9_S_PO4) ;;
  result <- append result ((in_comps.[10] - mo_comps.[10]) / lit _HRT + _rate10_S_I) ;;
  result <- append result ((in_comps.[11] - mo_comps.[11]) / lit _HRT + _rate11_S_ALK) ;;
  result <- append result ((in_comps.[12] - mo_comps.[12]) / lit _HRT + _rate12_S_N2) ;;
  result <- append result ((in_comps.[13] - mo_comps.[13]) / lit _HRT + _rate13_X_I) ;;
  result <- append result ((in_comps.[14] - mo_comps.[14]) / lit _HRT + _rate14_X_S) ;;
  result <- append result ((in_comps.[15] - mo_comps.[15]) / lit _HRT + _rate15_X_H) ;;
  result <- append result ((in_comps.[16] - mo_comps.[16]) / lit _HRT + _rate16_X_PAO) ;;
  result <- append result ((in_comps.[17] - mo_comps.[17]) / lit _HRT + _rate17_X_PP) ;;
  result <- append result ((in_comps.[18] - mo_comps.[18]) / lit _HRT + _rate18_X_PHA) ;;
  result <- append result ((in_comps.[19] - mo_comps.[19]) / lit _HRT + _rate19_X_AOB) ;;
  result <- append result ((in_comps.[20] - mo_comps.[20]) / lit _HRT + _rate20_X_NOB) ;;
  result <- append result ((in_comps.[21] - mo_comps.[21]) / lit _HRT + _rate21_X_TSS) ;;
  result <- append result ((in_comps.[22] - mo_comps.[22]) / lit _HRT + _rate22_X_MeOH) ;;
  result <- append result ((in_comps.[23] - mo_comps.[23]) / lit _HRT + _rate23_X_MeP) ;;
  ret result.

Definition _dCdt (t : R) (mo_comps : loc) (vol flow : R) (in_comps : loc)
    (fix_DO : bool) (DO_sat_T : R) : M (list R) :=
  _reaction_rate mo_comps ;;;
  mass_balance mo_comps vol flow in_comps fix_DO DO_sat_T.

(** ** [asmbase.py]: the methods of [asm_model] *)

Definition set_temperature (v : R) (o : asm_model) : asm_model :=
  Model v (_bulk_DO o) (_kinetics_20C o) (_params o) (_stoichs o)
        (_comps o) (_delta_t o) (_KLa o) (_monods o) (_rate_res o).
Definition set_bulk_DO (v : R) (o : asm_model) : asm_model :=
  Model (_temperature o) v (_kinetics_20C o) (_params o) (_stoichs o)
        (_comps o) (_delta_t o) (_KLa o) (_monods o) (_rate_res o).
Definition set_delta_t (v : R) (o : asm_model) : asm_model :=
  Model (_temperature o) (_bulk_DO o) (_kinetics_20C o) (_params o) (_stoichs o)
        (_comps o) v (_KLa o) (_monods o) (_rate_res o).
Definition set_KLa_attr (v : R) (o : asm_model) : asm_model :=
  Model (_temperature o) (_bulk_DO o) (_kinetics_20C o) (_params o) (_stoichs o)
        (_comps o) (_delta_t o) v (_monods o) (_rate_res o).
Definition set_buff (b : buff) (l : loc) (o : asm_model) : asm_model :=
  match b with
  | B_comps =>
      Model (_temperature o) (_bulk_DO o) (_kinetics_20C o) (_params o) (_stoichs o)
            (Some l) (_delta_t o) (_KLa o) (_monods o) (_rate_res o)
  | B_monods =>
      Model (_temperature o) (_bulk_DO o) (_kinetics_20C o) (_params o) (_stoichs o)
            (_comps o) (_delta_t o) (_KLa o) (Some l) (_rate_res o)
  | B_rate_res =>
      Model (_temperature o) (_bulk_DO o) (_kinetics_20C o) (_params o) (_stoichs o)
            (_comps o) (_delta_t o) (_KLa o) (_monods o) (Some l)
  end.

(** [self.<attr> = v] for a scalar or dictionary attribute. *)
Definition setattr (f : asm_model → asm_model) : M unit :=
  λ w, (Ok tt, with_self (f (self w)) w).

(** A list display or [[x] * n]: a new list object on the heap. *)
Definition alloc (xs : list R) : M loc :=
  λ w, let l := fresh (dom (heap w)) in
       (Ok l, with_heap (<[l := xs]> (heap w)) w).

(** [self.<b> = <new list>] *)
Definition setattr_list (b : buff) (xs : list R) : M unit :=
  l <- alloc xs ;; setattr (set_buff b l).

Definition print (msg : string) : M unit :=
  λ w, (Ok tt, World (self w) (heap w) (stdout w ++ [msg])).

(** The methods a subclass overrides; [asm_model] itself has [pass]. *)
Class asm_overrides : Type := {
  _set_ideal_kinetics_20C_to_defaults : M unit;
  _set_params : M unit;
  _set_stoichs : M unit
}.

Definition asm_model_pass : asm_overrides :=
  {| _set_ideal_kinetics_20C_to_defaults := ret tt;
     _set_params := ret tt;
     _set_stoichs := ret tt |}.

Section asmbase.
Context {overrides : asm_overrides}.

(** [asm_model.__init__(self, ww_temp=20, DO=2)] *)
Definition asm_model__init__ (ww_temp DO : R) : M unit :=
  setattr (set_temperature ww_temp) ;;;
  setattr (set_bulk_DO DO) ;;;
  setattr (set_dict F_kinetics_20C ∅) ;;;
  setattr (set_dict F_params ∅) ;;;
  setattr (set_dict F_stoichs ∅) ;;;
  setattr_list B_comps [] ;;;
  (λ w, setattr (set_delta_t (_temperature (self w) - 20)) w) ;;;
  setattr (set_KLa_attr (60 * 24 / (9 - 2))).

Definition alter_kinetic_20C (name : string) (new_val : R) : M unit :=
  λ w, if Rlt_dec 0 new_val
       then if decide (name ∈ dom (_kinetics_20C (self w)))
            then setattr (set_dict F_kinetics_20C
                            (<[name := new_val]> (_kinetics_20C (self w)))) w
            else print "ERROR IN ALTERING 20C KINETICS. NO PARAMETER WAS CHANGED" w
       else print "ERROR IN ALTERING 20C KINETICS. NO PARAMETER WAS CHANGED" w.

Definition update (ww_temp DO : R) : M unit :=
  setattr (set_temperature ww_temp) ;;;
  setattr (set_bulk_DO DO) ;;;
  (λ w, setattr (set_delta_t (_temperature (self w) - 20.0)) w) ;;;
  _set_params ;;;
  _set_stoichs.


(** The getters return copies; a dictionary value is its own copy. *)
Definition get_params : M (gmap string R) := λ w, (Ok (_params (self w)), w).
Definition get_stoichs : M (gmap string R) := λ w, (Ok (_stoichs (self w)), w).
Definition get_bulk_DO : M R := λ w, (Ok (_bulk_DO (self w)), w).
End asmbase.

(** ** [ASM2d_N2O]: overrides and constructor *)

#[export] Instance ASM2d_N2O_overrides : asm_overrides :=
  {| _set_ideal_kinetics_20C_to_defaults := run kinetics_20C_defaults;
     _set_params := run set_params_stmts;
     _set_stoichs := run set_stoichs_stmts |}.

(** [ASM2d_N2O.__init__(self, ww_temp=20, DO=2)]; the base constructor is
    called without arguments, so with its defaults. *)
Definition ASM2d_N2O__init__ (ww_temp DO : R) : M unit :=
  asm_model__init__ 20 2 ;;;
  _set_ideal_kinetics_20C_to_defaults ;;;
  setattr (set_temperature ww_temp) ;;;
  setattr (set_bulk_DO DO) ;;;
  (λ w, setattr (set_delta_t (_temperature (self w) - 20)) w) ;;;
  update ww_temp DO ;;;
  setattr_list B_comps (replicate 24 0.0) ;;;
  setattr_list B_monods (replicate 52 1.0) ;;;
  setattr_list B_rate_res (replicate 40 0.0).

(** An object before its constructor has run has no attributes. *)
Definition new_object : asm_model :=
  Model 0 0 ∅ ∅ ∅ None 0 0 None None.

(** [ASM2d_N2O(ww_temp, DO)] evaluated in a world [w]. *)
Definition ASM2d_N2O (ww_temp DO : R) : M unit :=
  λ w, ASM2d_N2O__init__ ww_temp DO (with_self new_object w).

(** * Properties *)

(** ** Running statement lists *)

Lemma bind_ok {A B} (m : M A) (f : A → M B) w a w' :
  m w = (Ok a, w') → bind m f w = f a w'.
Proof. unfold bind. by intros ->. Qed.

Lemma bind_err {A B} (m : M A) (f : A → M B) w e w' :
  m w = (Err e, w') → bind m f w = (Err e, w').
Proof. unfold bind. by intros ->. Qed.

Lemma bind_inv_ok {A B} (m : M A) (f : A → M B) w b w2 :
  bind m f w = (Ok b, w2) → ∃ a w1, m w = (Ok a, w1) ∧ f a w1 = (Ok b, w2).
Proof.
  unfold bind. destruct (m w) as [[a|e] w1]; [eauto | discriminate].
Qed.

Lemma run_cons s p w :
  run (s :: p) w = bind (exec s) (λ _, run p) w.
Proof. reflexivity. Qed.

Lemma run_app p q w :
  run (p ++ q) w = bind (run p) (λ _, run q) w.
Proof.
  revert w. induction p as [|s p IH]; intros w; [done|].
  cbn [app]. rewrite run_cons. unfold bind. rewrite run_cons. unfold bind.
  destruct (exec s w) as [[[]|e] w1]; [apply IH | done].
Qed.

(** ** The call always raises *)

(** A computation that raises from every world. *)
Definition fails {A} (m : M A) : Prop := ∀ w, ∃ e w', m w = (Err e, w').
Definition efails {A} (e : E A) : Prop := ∀ w, ∃ x, e w = Err x.

Lemma fails_bind_l {A B} (m : M A) (f : A → M B) : fails m → fails (bind m f).
Proof. intros H w. destruct (H w) as (e & w' & Hm). exists e, w'. by apply bind_err. Qed.

Lemma fails_bind_r {A B} (m : M A) (f : A → M B) :
  (∀ a, fails (f a)) → fails (bind m f).
Proof.
  intros H w. unfold bind. destruct (m w) as [[a|e] w1]; [apply H | eauto].
Qed.

Lemma efails_ebin_l f a b : efails a → efails (ebin f a b).
Proof. intros H w. unfold ebin. destruct (H w) as [x ->]. eauto. Qed.

Lemma efails_ebin_r f a b : efails b → efails (ebin f a b).
Proof.
  intros H w. unfold ebin. destruct (a w); [|eauto].
  destruct (H w) as [x ->]. eauto.
Qed.

Lemma fails_exec_SetIndex b i rhs : efails rhs → fails (exec (SetIndex b i rhs)).
Proof.
  intros H w. destruct (H w) as [x Hx]. exists x, w.
  cbn [exec]. apply bind_err. unfold eval. by rewrite Hx.
Qed.

Lemma fails_run_elem s p : s ∈ p → fails (exec s) → fails (run p).
Proof.
  intros Hin Hs. induction Hin as [s p|s s' p _ IH].
  - change (fails (bind (exec s) (λ _, run p))). by apply fails_bind_l.
  - change (fails (bind (exec s') (λ _, run p))). apply fails_bind_r.
    intros _. by apply IH.
Qed.

Lemma efails_monod_subscript i : efails (_monod_subscript i).
Proof. intros w. by exists TypeError. Qed.

(** Line 722: [self._monod[28]] makes the right-hand side of rate 14 raise. *)
Definition rate14_rhs (comps : loc) : E R :=
  (params "q_fe" * monods 14 * monods 27 * _monod_subscript 28
   * monods 11 * comps.[15])%py.

Lemma rate14_in_rates comps : set_rate_res 14 (rate14_rhs comps) ∈ rates comps.
Proof. unfold rates, rate14_rhs. do 14 apply list_elem_of_further. apply list_elem_of_here. Qed.

Lemma rate14_rhs_fails comps : efails (rate14_rhs comps).
Proof.
  unfold rate14_rhs. do 2 apply efails_ebin_l.
  apply efails_ebin_r, efails_monod_subscript.
Qed.

Lemma rate14_rhs_TypeError comps w a :
  (params "q_fe" * monods 14 * monods 27)%py w = Ok a →
  rate14_rhs comps w = Err TypeError.
Proof.
  intros H. unfold rate14_rhs.
  unfold emul at 1 2 3. unfold ebin at 1 2 3. by rewrite H.
Qed.

Lemma fails_rates comps : fails (run (rates comps)).
Proof.
  eapply fails_run_elem; [apply rate14_in_rates|].
  apply fails_exec_SetIndex, rate14_rhs_fails.
Qed.

Lemma fails_reaction_rate comps : fails (_reaction_rate comps).
Proof.
  unfold _reaction_rate.
  apply fails_bind_r; intros _. apply fails_bind_r; intros S.
  apply fails_bind_r; intros _. apply fails_bind_r; intros _.
  apply fails_bind_l, fails_rates.
Qed.

Lemma fails_dCdt t mo_comps vol flow in_comps fix_DO DO_sat_T :
  fails (_dCdt t mo_comps vol flow in_comps fix_DO DO_sat_T).
Proof. apply fails_bind_l, fails_reaction_rate. Qed.

(** A store past the end of the list raises [IndexError] and writes nothing. *)
Lemma exec_SetIndex_past_end b i rhs w l xs v :
  get_buff b (self w) = Some l → heap w !! l = Some xs → (length xs ≤ i)%nat →
  rhs w = Ok v →
  exec (SetIndex b i rhs) w = (Err IndexError, w).
Proof.
  intros Hb Hl Hlen Hv. cbn [exec]. unfold bind, eval. rewrite Hv, Hb.
  unfold store. rewrite Hl. case_decide; [lia | done].
Qed.

(** ** Evaluating the Monod terms on a valid state *)

(** The parameters [_reaction_rate] reads, in the order it first reads them. *)
Definition rate_param_keys : list string :=
  ["K_O2_H"; "K_X_H"; "K_NO3_H"; "K_NO2_H"; "K_F"; "K_O2"; "K_NH4"; "K_P";
   "K_ALK"; "K_A"; "K_S3"; "K_NO2_Den"; "K_OH3"; "K_S4"; "K_NO_Den";
   "K_I4NO"; "K_OH4"; "K_S5"; "K_N2O_Den"; "K_OH5"; "K_NO2"; "K_fe_H";
   "K_A_P"; "K_ALK_P"; "K_PP_P"; "K_O2_P"; "K_P_P"; "K_PHA_P"; "K_MAX_P";
   "K_IPP_P"; "K_NO3_P"; "K_O2_AOB1"; "K_NH4_AOB"; "K_O2_AOB2";
   "K_NH2OH_AOB"; "K_P_AOB"; "K_ALK_AOB"; "K_NO_AOB_HAO"; "K_NO_AOB_NN";
   "K_HNO2_AOB"; "K_O2_NOB"; "K_NO2_NOB"; "K_P_NOB"; "K_ALK_NOB"; "K_ALK_PR";
   "K_NO3"; "K_H"; "n_NO3_H"; "n_NO2_H"; "n_fe_H"; "mu_H"; "n_NO3_D"; "n_G3";
   "n_G4"; "n_G5"; "q_fe"; "b_H"; "q_PHA"; "q_PP"; "n_NO3_P"; "mu_PAO";
   "b_PAO"; "b_PP"; "b_PHA"; "q_AOB_AMO"; "mu_AOB_HAO"; "q_AOB_HAO";
   "q_AOB_N2O_NN"; "K_O2_AOB_ND"; "K_I_O2_AOB"; "q_AOB_N2O_ND"; "mu_NOB";
   "b_AOB"; "b_NOB"; "k_PRE"; "k_RED"].

Section reaction_rate_eval.
(** The world the call starts in, the state vector [comps] it is given and
    the list behind [self._monods]. *)
Variables (w0 : world) (comps lm : loc) (xs : list R).
Hypothesis Hmonods : _monods (self w0) = Some lm.
Hypothesis Hcomps : heap w0 !! comps = Some xs.
Hypothesis Hlen : length xs = 24%nat.
Hypothesis Halias : comps ≠ lm.
Hypothesis Hpar : ∀ k, k ∈ rate_param_keys →
  ∃ v, _params (self w0) !! k = Some v ∧ 0 < v.
Hypothesis Hxs : Forall (λ x, 0 <= x) xs.

Definition par (k : string) : R := default 0 (_params (self w0) !! k).
(** The concentration at position [i] of the state vector. *)
Definition conc (i : nat) : R := default 0 (xs !! i).

(** [w0] with the list behind [self._monods] replaced. *)
Definition wb (B : list R) : world := with_heap (<[lm := B]> (heap w0)) w0.

(** [e] has the value [v] when the Monod buffer holds [B]. *)
Definition ev (B : list R) (e : E R) (v : R) : Prop := e (wb B) = Ok v.

Lemma par_pos k : bool_decide (k ∈ rate_param_keys) = true → 0 < par k.
Proof.
  intros Hk%bool_decide_eq_true. destruct (Hpar k Hk) as (v & Hv & Hpos).
  unfold par. by rewrite Hv.
Qed.

Lemma conc_nonneg i : 0 <= conc i.
Proof.
  unfold conc. destruct (xs !! i) as [v|] eqn:Hi; cbn; [|lra].
  eapply (Forall_lookup_1 _ _ _ _ Hxs Hi).
Qed.

Lemma ev_lit B r : ev B (lit r) r.
Proof. done. Qed.

Lemma ev_params B k :
  bool_decide (k ∈ rate_param_keys) = true → ev B (params k) (par k).
Proof.
  intros Hk%bool_decide_eq_true. destruct (Hpar k Hk) as (v & Hv & _).
  unfold ev, params, dict_item, par. cbn. by rewrite Hv.
Qed.

Lemma ev_comps B i : (i < 24)%nat → ev B comps.[i] (conc i).
Proof.
  intros Hi. unfold ev, item, conc, wb. cbn.
  rewrite lookup_insert_ne by done. rewrite Hcomps.
  destruct (lookup_lt_is_Some_2 xs i) as [v Hv]; [lia|]. by rewrite Hv.
Qed.

Lemma ev_monods B i m : B !! i = Some m → ev B (monods i) m.
Proof.
  intros Hi. unfold ev, monods, buff_item, item, wb. cbn.
  by rewrite Hmonods, lookup_insert_eq, Hi.
Qed.

Lemma ev_bin B f a b va vb v :
  ev B a va → ev B b vb → f va vb = Ok v → ev B (ebin f a b) v.
Proof. unfold ev, ebin. by intros -> ->. Qed.

Lemma ev_add B a b va vb : ev B a va → ev B b vb → ev B (a + b) (va + vb).
Proof. intros. by eapply ev_bin. Qed.
Lemma ev_sub B a b va vb : ev B a va → ev B b vb → ev B (a - b) (va - vb).
Proof. intros. by eapply ev_bin. Qed.
Lemma ev_mul B a b va vb : ev B a va → ev B b vb → ev B (a * b) (va * vb).
Proof. intros. by eapply ev_bin. Qed.

Lemma py_div_ok a b : b ≠ 0 → py_div a b = Ok (a / b).
Proof. intros. unfold py_div. by destruct (Req_dec_T b 0). Qed.

Lemma ev_div B a b va vb :
  ev B a va → ev B b vb → vb ≠ 0 → ev B (a / b) (va / vb).
Proof. intros. eapply ev_bin; [done..|]. by apply py_div_ok. Qed.

Lemma ev_monod B a b va vb :
  ev B a va → ev B b vb → va + vb ≠ 0 → ev B (monod a b) (va / (va + vb)).
Proof. intros. eapply ev_bin; [done..|]. by apply py_div_ok. Qed.

Lemma ev_pow B a va n : ev B a va → ev B (a ^ n) (va ^ n).
Proof. unfold ev, epow, ebind. by intros ->. Qed.

Lemma ev_sqrt B a va : ev B a va → ev B (esqrt a) (sqrt va).
Proof. unfold ev, esqrt, ebind. by intros ->. Qed.

Lemma ev_elim B e v : ev B e v → e (wb B) = Ok v.
Proof. done. Qed.

Lemma eval_ev B e v : ev B e v → eval e (wb B) = (Ok v, wb B).
Proof. unfold ev, eval. by intros ->. Qed.

(** One store into the Monod buffer. *)
Lemma exec_set_monods i rhs v B :
  ev B rhs v → (i < length B)%nat →
  exec (set_monods i rhs) (wb B) = (Ok tt, wb (<[i := v]> B)).
Proof.
  intros Hv Hi. cbn [exec set_monods]. unfold bind, eval. rewrite Hv.
  unfold wb at 1 2. cbn [self with_heap get_buff]. rewrite Hmonods.
  unfold store. cbn [heap with_heap]. rewrite lookup_insert_eq.
  rewrite decide_True by done. unfold wb, with_heap. cbn.
  by rewrite insert_insert_eq.
Qed.

Lemma run_set_monods i rhs v p B r :
  ev B rhs v → (i < length B)%nat →
  run p (wb (<[i := v]> B)) = r →
  run (set_monods i rhs :: p) (wb B) = r.
Proof.
  intros Hv Hi <-. rewrite run_cons.
  by erewrite bind_ok by by apply exec_set_monods.
Qed.

Lemma Rdiv_nonneg a b : 0 <= a → 0 < b → 0 <= a / b.
Proof.
  intros Ha Hb. unfold Rdiv. apply Rmult_le_pos; [done|].
  by apply Rlt_le, Rinv_0_lt_compat.
Qed.

(** The denominator of the oxygen term of the nitrifier-denitrification
    pathway is [DO + (sqrt K_ND - DO / sqrt K_I)²]. *)
Lemma fSO2_den_pos kn ki d :
  0 < kn → 0 < ki → 0 <= d →
  0 < kn + (1.0 - 2.0 * sqrt (kn / ki)) * d + d ^ 2 / ki.
Proof.
  intros Hkn Hki Hd.
  rewrite sqrt_div by lra.
  pose proof (sqrt_lt_R0 kn Hkn) as Ha. pose proof (sqrt_lt_R0 ki Hki) as Hb.
  pose proof (sqrt_sqrt kn (Rlt_le _ _ Hkn)) as Ea.
  pose proof (sqrt_sqrt ki (Rlt_le _ _ Hki)) as Eb.
  set (a := sqrt kn) in *. set (b := sqrt ki) in *.
  rewrite <- Ea, <- Eb. clearbody a b.
  replace 1.0 with 1 by lra. replace 2.0 with 2 by lra.
  replace (a * a + (1 - 2 * (a / b)) * d + d ^ 2 / (b * b))
    with (d + (a - d / b) ^ 2) by (field; lra).
  destruct (Req_dec_T d 0) as [->|Hd0].
  - replace (0 + (a - 0 / b) ^ 2) with (a * a) by (field; lra). nra.
  - pose proof (pow2_ge_0 (a - d / b)). lra.
Qed.

(** Signs of values built from parameters and concentrations. *)
Ltac pos_tac :=
  lazymatch goal with
  | H : 0 < ?a |- 0 < ?a => exact H
  | H : ∀ i, (i < 24)%nat → 0 < conc i |- 0 < conc _ => apply H; lia
  | |- 0 < par _ => apply par_pos; vm_compute; reflexivity
  | |- 0 < _ + (1.0 - 2.0 * sqrt _) * _ + _ => apply fSO2_den_pos; [pos_tac | pos_tac | nn_tac]
  | |- 0 < ?a + ?b =>
      first [ apply Rplus_lt_le_0_compat; [pos_tac | nn_tac]
            | apply Rplus_le_lt_0_compat; [nn_tac | pos_tac] ]
  | |- 0 < ?a * ?b => apply Rmult_lt_0_compat; pos_tac
  | |- 0 < ?a / ?b => apply Rdiv_lt_0_compat; pos_tac
  | |- _ => first [assumption | lra]
  end
with nn_tac :=
  lazymatch goal with
  | |- 0 <= conc _ => apply conc_nonneg
  | |- 0 <= ?a + ?b => apply Rplus_le_le_0_compat; nn_tac
  | |- 0 <= ?a * ?b => apply Rmult_le_pos; nn_tac
  | |- 0 <= ?a / ?b => apply Rdiv_nonneg; [nn_tac | pos_tac]
  | |- 0 <= ?a ^ 2 => apply pow2_ge_0
  | |- _ => first [assumption | apply Rlt_le; pos_tac | lra]
  end.

Ltac nz_tac := first [assumption | apply Rgt_not_eq; red; pos_tac].

Ltac ev_tac :=
  lazymatch goal with
  | |- ev _ (lit _) _ => apply ev_lit
  | |- ev _ (params _) _ => apply ev_params; vm_compute; reflexivity
  | |- ev _ (item _ _) _ => apply ev_comps; lia
  | |- ev _ (monods _) _ => apply ev_monods; reflexivity
  | |- ev _ (eadd _ _) _ => eapply ev_add; ev_tac
  | |- ev _ (esub _ _) _ => eapply ev_sub; ev_tac
  | |- ev _ (emul _ _) _ => eapply ev_mul; ev_tac
  | |- ev _ (ediv _ _) _ => eapply ev_div; [ev_tac | ev_tac | nz_tac]
  | |- ev _ (monod _ _) _ => eapply ev_monod; [ev_tac | ev_tac | nz_tac]
  | |- ev _ (epow _ _) _ => eapply ev_pow; ev_tac
  | |- ev _ (esqrt _) _ => eapply ev_sqrt; ev_tac
  end.

Ltac step_monods :=
  eapply run_set_monods; [ev_tac | cbn [length]; lia | cbn [insert list_insert]].

(** The denominators that must not vanish: X_H, X_PAO, S_F + S_A and the
    one of the polyphosphate inhibition term. *)
Hypothesis HX_H : conc 15 ≠ 0.
Hypothesis HX_PAO : conc 16 ≠ 0.
Hypothesis HS_FA : conc 1 + conc 2 ≠ 0.
Hypothesis HPP : par "K_MAX_P" - conc 17 / conc 16 + par "K_IPP_P" ≠ 0.

Lemma Ka_pos : 0 < Ka.
Proof. apply exp_pos. Qed.

(** The un-ionized nitrite concentration line 694 computes. *)
Definition S_HNO2_val : R := conc 7 / (Ka * 10 ^ pH + 1) * (47 / 14).

Lemma wb_id B : heap w0 !! lm = Some B → wb B = w0.
Proof.
  intros HB. unfold wb, with_heap. rewrite insert_id by done. by destruct w0.
Qed.

(** On a valid state the call stores the 52 Monod terms and then raises
    [IndexError] at the store to [self._monods[52]]. *)
Lemma reaction_rate_valid B :
  heap w0 !! lm = Some B → length B = 52%nat →
  ∃ vs, _reaction_rate comps w0 = (Err IndexError, wb vs)
        ∧ length vs = 52%nat
        ∧ vs !! 46%nat
          = Some (S_HNO2_val / (S_HNO2_val + par "K_HNO2_AOB"))
        ∧ vs !! 35%nat
          = Some ((par "K_MAX_P" - conc 17 / conc 16)
                  / (par "K_MAX_P" - conc 17 / conc 16 + par "K_IPP_P"))
        ∧ (conc 17 / conc 16 <= par "K_MAX_P" → Forall (λ v, 0 <= v) vs)
        ∧ Forall (λ v, 0 <= v) (delete 35%nat vs)
        ∧ (Forall (λ v, 0 < v) xs → Forall (λ v, 0 < v) (delete 35%nat vs)).
Proof.
  intros HB Hlen52. rewrite <- (wb_id B HB).
  do 53 (destruct B as [|? B]; try discriminate Hlen52). clear HB Hlen52.
  assert (0 < conc 15) by (pose proof (conc_nonneg 15); lra).
  assert (0 < conc 16) by (pose proof (conc_nonneg 16); lra).
  assert (conc 2 + conc 1 ≠ 0) by (intros ?; apply HS_FA; lra).
  pose proof Ka_pos.
  assert (0 < 10 ^ pH) by (apply pow_lt; lra).
  eexists. split.
  { unfold _reaction_rate.
    erewrite bind_ok; [|unfold monod_terms; do 46 step_monods; reflexivity].
    erewrite bind_ok; [|apply eval_ev; unfold S_HNO2_expr; ev_tac].
    erewrite bind_ok; [|unfold hno2_terms; do 6 step_monods; reflexivity].
    erewrite bind_err; [reflexivity|].
    unfold omitted_terms. rewrite run_cons. erewrite bind_err; [reflexivity|].
    eapply exec_SetIndex_past_end.
    - cbn. apply Hmonods.
    - cbn. apply lookup_insert_eq.
    - cbn. lia.
    - apply ev_elim. ev_tac. }
  split; [reflexivity|]. split; [reflexivity|]. split; [reflexivity|].
  assert (0 < conc 1 + conc 2)
    by (pose proof (conc_nonneg 1); pose proof (conc_nonneg 2); lra).
  assert (0 < conc 2 + conc 1) by lra.
  split; [|split].
  - intros Hratio.
    assert (0 <= par "K_MAX_P" - conc 17 / conc 16) by lra.
    repeat first [apply List.Forall_nil | apply List.Forall_cons; [nn_tac|]].
  - cbn [delete list_delete].
    repeat first [apply List.Forall_nil | apply List.Forall_cons; [nn_tac|]].
  - intros Hxpos.
    assert (∀ i, (i < 24)%nat → 0 < conc i) as Hconc.
    { intros i Hi. unfold conc.
      destruct (lookup_lt_is_Some_2 xs i) as [v Hv]; [lia|]. rewrite Hv.
      apply (Forall_lookup_1 _ _ _ _ Hxpos Hv). }
    cbn [delete list_delete].
    repeat first [apply List.Forall_nil | apply List.Forall_cons; [pos_tac|]].
Qed.

(** The Monod helper applied to the un-ionized nitrite concentration. *)
Lemma monod_S_HNO2 :
  _monod S_HNO2_val (par "K_HNO2_AOB")
  = Ok (S_HNO2_val / (S_HNO2_val + par "K_HNO2_AOB")).
Proof.
  pose proof Ka_pos. assert (0 < 10 ^ pH) by (apply pow_lt; lra).
  unfold _monod. apply py_div_ok. unfold S_HNO2_val. nz_tac.
Qed.

(** The oxygen term of line 744. *)
Lemma fSO2_valid B : ∃ f, fSO2_expr comps (wb B) = Ok f ∧ 0 <= f.
Proof.
  eexists. split.
  - apply ev_elim. unfold fSO2_expr. ev_tac.
  - nn_tac.
Qed.

End reaction_rate_eval.

(** ** Dictionary programs *)

(** [w] with the dictionary [d] of the model replaced by [m]. *)
Definition wd (d : dictf) (m : gmap string R) (w : world) : world :=
  with_self (set_dict d m (self w)) w.

Lemma get_set_dict d m o : get_dict d (set_dict d m o) = m.
Proof. by destruct d. Qed.

Lemma get_set_dict_ne d d' m o : d ≠ d' → get_dict d' (set_dict d m o) = get_dict d' o.
Proof. by destruct d, d'. Qed.

Lemma set_set_dict d m1 m2 o : set_dict d m2 (set_dict d m1 o) = set_dict d m2 o.
Proof. by destruct d. Qed.

Lemma set_get_dict d o : set_dict d (get_dict d o) o = o.
Proof. by destruct d, o. Qed.

Lemma wd_wd d m1 m2 w : wd d m2 (wd d m1 w) = wd d m2 w.
Proof. unfold wd, with_self. cbn. by rewrite set_set_dict. Qed.

Lemma wd_id d w : wd d (get_dict d (self w)) w = w.
Proof. unfold wd, with_self. rewrite set_get_dict. by destruct w. Qed.

Lemma get_wd d m w : get_dict d (self (wd d m w)) = m.
Proof. apply get_set_dict. Qed.

Lemma get_wd_ne d d' m w : d ≠ d' → get_dict d' (self (wd d m w)) = get_dict d' (self w).
Proof. apply get_set_dict_ne. Qed.

Lemma wd_comm d d' m m' w : d ≠ d' → wd d m (wd d' m' w) = wd d' m' (wd d m w).
Proof. by destruct d, d'. Qed.

Lemma exec_SetItem d k rhs w :
  exec (SetItem d k rhs) w
  = match rhs w with
    | Ok v => (Ok tt, wd d (<[k := v]> (get_dict d (self w))) w)
    | Err e => (Err e, w)
    end.
Proof. cbn [exec]. unfold bind, eval. by destruct (rhs w). Qed.

(** A program that assigns to the keys of one dictionary [d], every
    right-hand side of which satisfies [Q D] for the keys [D] assigned
    before it. *)
Inductive checked (d : dictf) (Q : list string → E R → Prop) :
    list string → list stmt → Prop :=
| checked_nil D : checked d Q D []
| checked_cons D k rhs p :
    Q D rhs → checked d Q (k :: D) p → checked d Q D (SetItem d k rhs :: p).

(** [e] reads the dictionary [d] at the keys [D] only. *)
Definition reads_only (d : dictf) (D : list string) (e : E R) : Prop :=
  ∀ w m, (∀ k, k ∈ D → m !! k = get_dict d (self w) !! k) → e (wd d m w) = e w.

Lemma ro_lit d D r : reads_only d D (lit r).
Proof. done. Qed.

Lemma ro_dict_other d d' D k : d ≠ d' → reads_only d D (dict_item d' k).
Proof. intros Hd w m _. unfold dict_item. by rewrite get_wd_ne. Qed.

Lemma ro_dict_same d D k : bool_decide (k ∈ D) = true → reads_only d D (dict_item d k).
Proof.
  intros Hk%bool_decide_eq_true w m Hm. unfold dict_item.
  by rewrite get_wd, Hm.
Qed.

Lemma ro_ebin d D f a b :
  reads_only d D a → reads_only d D b → reads_only d D (ebin f a b).
Proof. intros Ha Hb w m Hm. unfold ebin. by rewrite Ha, Hb. Qed.

Lemma ro_ebind d D a f : reads_only d D a → reads_only d D (ebind a f).
Proof. intros Ha w m Hm. unfold ebind. by rewrite Ha. Qed.

Ltac ro_rec :=
  lazymatch goal with
  | |- reads_only _ _ (lit _) => apply ro_lit
  | |- reads_only ?d _ (dict_item ?d _) => apply ro_dict_same; vm_compute; reflexivity
  | |- reads_only _ _ (dict_item _ _) => apply ro_dict_other; discriminate
  | |- reads_only _ _ (ebin _ _ _) => apply ro_ebin; ro_rec
  | |- reads_only _ _ (ebind _ _) => apply ro_ebind; ro_rec
  end.

Ltac ro_tac :=
  unfold eadd, esub, emul, ediv, epow, esqrt, monod, params, stoichs, kinetics_20C;
  ro_rec.

Lemma lookup_union_l_Some (W X : gmap string R) k :
  is_Some (W !! k) → (W ∪ X) !! k = W !! k.
Proof. intros [v Hv]. rewrite Hv. by apply lookup_union_Some_l. Qed.

(** Such a program computes what it writes from the rest of the world and
    from what it wrote itself, never from what [d] held before. *)
Lemma checked_sim d D p :
  checked d (reads_only d) D p →
  ∀ w (W X : gmap string R), (∀ k, k ∈ D → is_Some (W !! k)) →
  ∃ r W', run p (wd d (W ∪ X) w) = (r, wd d (W' ∪ X) w)
          ∧ run p (wd d W w) = (r, wd d W' w).
Proof.
  induction 1 as [D|D k rhs p Hro _ IH]; intros w W X HD.
  - by exists (Ok tt), W.
  - rewrite !run_cons. unfold bind. rewrite !exec_SetItem.
    assert (rhs (wd d (W ∪ X) w) = rhs (wd d W w)) as ->.
    { rewrite <- (wd_wd d W (W ∪ X) w). apply Hro.
      intros k' Hk'. rewrite get_wd. by apply lookup_union_l_Some, HD. }
    destruct (rhs (wd d W w)) as [v|e]; [|by exists (Err e), W].
    rewrite !get_wd, !wd_wd, insert_union_l. apply IH.
    intros k' [->|Hk']%elem_of_cons.
    + rewrite lookup_insert_eq. eauto.
    + destruct (decide (k = k')) as [->|Hne].
      * rewrite lookup_insert_eq. eauto.
      * rewrite lookup_insert_ne by done. by apply HD.
Qed.

(** Running it a second time changes nothing and gives the same outcome. *)
Lemma checked_idem d p w :
  checked d (reads_only d) [] p →
  run p (run p w).2 = run p w.
Proof.
  intros Hp.
  destruct (checked_sim d [] p Hp w ∅ (get_dict d (self w))) as (r & W' & H1 & H2).
  { intros k Hk. by apply elem_of_nil in Hk. }
  rewrite (left_id_L ∅ (∪)), wd_id in H1. rewrite H1. cbn [snd].
  destruct (checked_sim d [] p Hp w ∅ (W' ∪ get_dict d (self w)))
    as (r2 & W2 & H3 & H4).
  { intros k Hk. by apply elem_of_nil in Hk. }
  rewrite (left_id_L ∅ (∪)) in H3. rewrite H3.
  rewrite H2 in H4.
  pose proof (f_equal fst H4) as Hr. cbn in Hr. subst r2.
  pose proof (f_equal (λ x, get_dict d (self x.2)) H4) as HW. cbn [snd] in HW.
  rewrite !get_wd in HW. subst W2.
  by rewrite (assoc_L (∪)), (idemp_L (∪)).
Qed.

Ltac checked_tac tac :=
  repeat first [ apply checked_nil | apply checked_cons; [tac|] ].

Lemma set_params_checked :
  checked F_params (reads_only F_params) [] set_params_stmts.
Proof. unfold set_params_stmts, set_params. checked_tac ro_tac. Qed.

Lemma set_stoichs_checked :
  checked F_stoichs (reads_only F_stoichs) [] set_stoichs_stmts.
Proof. unfold set_stoichs_stmts, set_stoichs. checked_tac ro_tac. Qed.

Lemma checked_shape d p w :
  checked d (reads_only d) [] p → ∃ W, (run p w).2 = wd d W w.
Proof.
  intros Hp.
  destruct (checked_sim d [] p Hp w ∅ (get_dict d (self w))) as (r & W' & H1 & _).
  { intros k Hk. by apply elem_of_nil in Hk. }
  rewrite (left_id_L ∅ (∪)), wd_id in H1. rewrite H1. eauto.
Qed.

(** A program on [d] that never reads [d2] runs the same whatever [d2] holds. *)
Lemma checked_frame d d2 D p :
  d ≠ d2 → checked d (λ _, reads_only d2 []) D p →
  ∀ w S, run p (wd d2 S w) = ((run p w).1, wd d2 S (run p w).2).
Proof.
  intros Hd. induction 1 as [D|D k rhs p Hro _ IH]; intros w S; [done|].
  rewrite !run_cons. unfold bind. rewrite !exec_SetItem.
  rewrite Hro by (intros k' Hk'; by apply elem_of_nil in Hk').
  destruct (rhs w) as [v|e]; [|done].
  rewrite get_wd_ne by done. rewrite wd_comm by done. apply IH.
Qed.

Lemma set_params_ignores_stoichs :
  checked F_params (λ _, reads_only F_stoichs []) [] set_params_stmts.
Proof. unfold set_params_stmts, set_params. checked_tac ro_tac. Qed.

(** ** [update] *)

(** The three scalar assignments of [update]. *)
Definition update_scalars (ww_temp DO : R) (w : world) : world :=
  with_self (set_delta_t (ww_temp - 20.0)
               (set_bulk_DO DO (set_temperature ww_temp (self w)))) w.

Lemma update_unfold ww_temp DO w :
  update ww_temp DO w
  = bind (run set_params_stmts) (λ _, run set_stoichs_stmts)
         (update_scalars ww_temp DO w).
Proof. reflexivity. Qed.

Lemma update_scalars_wd T DO d m w :
  update_scalars T DO (wd d m w) = wd d m (update_scalars T DO w).
Proof. by destruct d. Qed.

Lemma update_scalars_idem T DO w :
  update_scalars T DO (update_scalars T DO w) = update_scalars T DO w.
Proof. reflexivity. Qed.

Lemma update_idem T DO w :
  update T DO (update T DO w).2 = update T DO w.
Proof.
  destruct (update T DO w) as [r w1] eqn:Hu. cbn [snd].
  rewrite update_unfold in Hu |- *. set (u := update_scalars T DO w) in *.
  pose proof (checked_idem F_params set_params_stmts u set_params_checked) as Hpi.
  destruct (checked_shape F_params set_params_stmts u set_params_checked) as [P HP].
  unfold bind in Hu.
  destruct (run set_params_stmts u) as [[[]|e] wp] eqn:Hrp;
    cbn [snd] in *; subst wp.
  - pose proof (checked_idem F_stoichs set_stoichs_stmts (wd F_params P u)
                  set_stoichs_checked) as Hsi.
    destruct (checked_shape F_stoichs set_stoichs_stmts (wd F_params P u)
                set_stoichs_checked) as [S HS].
    rewrite Hu in Hsi, HS. cbn [snd] in *. subst w1.
    rewrite !update_scalars_wd. unfold u at 1. rewrite update_scalars_idem.
    fold u. unfold bind.
    rewrite (checked_frame F_params F_stoichs [] _ ltac:(done)
               set_params_ignores_stoichs).
    rewrite Hpi. cbn [fst snd]. apply Hsi.
  - injection Hu as <- <-.
    rewrite update_scalars_wd. unfold u at 1. rewrite update_scalars_idem.
    fold u. unfold bind. by rewrite Hpi.
Qed.

(** ** When [_set_stoichs] succeeds *)

(** The parameters [_set_stoichs] reads, and those it divides by. *)
Definition stoich_param_keys : list string :=
  ["f_SI"; "i_NXS"; "i_NSF"; "i_PXS"; "i_PSF"; "i_TSSXS"; "Y_H"; "i_NBM";
   "i_PBM"; "i_TSSBM"; "n_G"; "i_NXI"; "f_XI"; "i_PXI"; "i_TSSXI"; "Y_PO4";
   "Y_PHA"; "Y_PAO"; "Y_AOB"; "Y_NOB"].
Definition yield_keys : list string := ["Y_H"; "n_G"; "Y_PAO"; "Y_AOB"; "Y_NOB"].

Definition stoich_params_ok (pm : gmap string R) : Prop :=
  (∀ k, k ∈ stoich_param_keys → is_Some (pm !! k))
  ∧ (∀ k, k ∈ yield_keys → ∃ v, pm !! k = Some v ∧ v ≠ 0).

Section set_stoichs_ok.
Variable pm : gmap string R.
Hypothesis Hpm : stoich_params_ok pm.

(** [e] evaluates once the keys [D] of [_stoichs] are set. *)
Definition okE (D : list string) (e : E R) : Prop :=
  ∀ w, _params (self w) = pm →
       (∀ k, k ∈ D → is_Some (_stoichs (self w) !! k)) →
       ∃ v, e w = Ok v.
Definition nzE (e : E R) : Prop :=
  ∀ w, _params (self w) = pm → ∃ v, e w = Ok v ∧ v ≠ 0.

Lemma ok_lit D r : okE D (lit r).
Proof. intros w _ _. by exists r. Qed.

Lemma ok_params D k :
  bool_decide (k ∈ stoich_param_keys) = true → okE D (params k).
Proof.
  intros Hk%bool_decide_eq_true w Hw _. destruct Hpm as [Hkeys _].
  destruct (Hkeys k Hk) as [v Hv]. exists v.
  unfold params, dict_item. cbn. by rewrite Hw, Hv.
Qed.

Lemma ok_stoichs D k : bool_decide (k ∈ D) = true → okE D (stoichs k).
Proof.
  intros Hk%bool_decide_eq_true w _ HD. destruct (HD k Hk) as [v Hv].
  exists v. unfold stoichs, dict_item. cbn. by rewrite Hv.
Qed.

Lemma ok_total D (g : R → R → R) a b :
  okE D a → okE D b → okE D (ebin (λ x y, Ok (g x y)) a b).
Proof.
  intros Ha Hb w Hw HD. destruct (Ha w Hw HD) as [x Hx].
  destruct (Hb w Hw HD) as [y Hy]. exists (g x y). unfold ebin.
  by rewrite Hx, Hy.
Qed.

Lemma ok_div D a b : okE D a → nzE b → okE D (a / b).
Proof.
  intros Ha Hb w Hw HD. destruct (Ha w Hw HD) as [x Hx].
  destruct (Hb w Hw) as (y & Hy & Hnz). exists (x / y).
  unfold ediv, ebin. rewrite Hx, Hy. unfold py_div.
  by destruct (Req_dec_T y 0).
Qed.

Lemma nz_lit r : r ≠ 0 → nzE (lit r).
Proof. intros Hr w _. by exists r. Qed.

Lemma nz_params k : bool_decide (k ∈ yield_keys) = true → nzE (params k).
Proof.
  intros Hk%bool_decide_eq_true w Hw. destruct Hpm as [_ Hy].
  destruct (Hy k Hk) as (v & Hv & Hnz). exists v.
  unfold params, dict_item. cbn. by rewrite Hw, Hv.
Qed.

Lemma nz_mul a b : nzE a → nzE b → nzE (a * b).
Proof.
  intros Ha Hb w Hw. destruct (Ha w Hw) as (x & Hx & Hx0).
  destruct (Hb w Hw) as (y & Hy & Hy0). exists (x * y).
  unfold emul, ebin. rewrite Hx, Hy. split; [done|].
  by apply Rmult_integral_contrapositive_currified.
Qed.

Ltac nzE_tac :=
  lazymatch goal with
  | |- nzE (lit _) => apply nz_lit; lra
  | |- nzE (params _) => apply nz_params; vm_compute; reflexivity
  | |- nzE (emul _ _) => apply nz_mul; nzE_tac
  end.

Ltac okE_tac :=
  lazymatch goal with
  | |- okE _ (lit _) => apply ok_lit
  | |- okE _ (params _) => apply ok_params; vm_compute; reflexivity
  | |- okE _ (stoichs _) => apply ok_stoichs; vm_compute; reflexivity
  | |- okE _ (eadd _ _) => apply ok_total; okE_tac
  | |- okE _ (esub _ _) => apply ok_total; okE_tac
  | |- okE _ (emul _ _) => apply ok_total; okE_tac
  | |- okE _ (ediv _ _) => apply ok_div; [okE_tac | nzE_tac]
  end.

Lemma set_stoichs_okE : checked F_stoichs okE [] set_stoichs_stmts.
Proof. unfold set_stoichs_stmts, set_stoichs. checked_tac ltac:(idtac; okE_tac). Qed.

Lemma checked_ok_run D p :
  checked F_stoichs okE D p →
  ∀ w, _params (self w) = pm →
       (∀ k, k ∈ D → is_Some (_stoichs (self w) !! k)) →
       ∃ S, run p w = (Ok tt, wd F_stoichs S w).
Proof.
  induction 1 as [D|D k rhs p Hok _ IH]; intros w Hw HD.
  - exists (_stoichs (self w)). by rewrite (wd_id F_stoichs).
  - destruct (Hok w Hw HD) as [v Hv].
    rewrite run_cons. unfold bind. rewrite exec_SetItem, Hv.
    destruct (IH (wd F_stoichs (<[k := v]> (_stoichs (self w))) w))
      as [S HS].
    + done.
    + intros k' Hk'. cbn. destruct (decide (k = k')) as [->|Hne].
      * rewrite lookup_insert_eq. eauto.
      * rewrite lookup_insert_ne by done. apply HD.
        by apply elem_of_cons in Hk' as [?|?].
    + exists S. cbn [get_dict]. rewrite HS. by rewrite wd_wd.
Qed.

Lemma set_stoichs_succeeds w :
  _params (self w) = pm →
  ∃ S, run set_stoichs_stmts w = (Ok tt, wd F_stoichs S w).
Proof.
  intros Hw. apply (checked_ok_run [] _ set_stoichs_okE w Hw).
  intros k Hk. by apply elem_of_nil in Hk.
Qed.
End set_stoichs_ok.

(** ** The constructor *)

Definition stmt_key (s : stmt) : option string :=
  match s with SetItem _ k _ => Some k | SetIndex _ _ _ => None end.

(** The 100 parameter names, in the order [_set_params] copies them. *)
Definition param_keys : list string := omap stmt_key set_params_stmts.

Definition copy_param (k : string) : stmt := set_params k (kinetics_20C k).

Lemma set_params_copies : set_params_stmts = copy_param <$> param_keys.
Proof. reflexivity. Qed.

Lemma run_copy_params ks w :
  (∀ k, k ∈ ks → is_Some (_kinetics_20C (self w) !! k)) →
  ∃ P, run (copy_param <$> ks) w = (Ok tt, wd F_params P w)
       ∧ ∀ k, k ∈ ks → P !! k = _kinetics_20C (self w) !! k.
Proof.
  revert w. induction ks as [|k ks IH]; intros w Hks.
  - exists (_params (self w)). split; [by rewrite (wd_id F_params)|].
    intros k Hk. by apply elem_of_nil in Hk.
  - destruct (Hks k) as [v Hv]; [apply list_elem_of_here|].
    cbn [fmap list_fmap]. rewrite run_cons. unfold bind, copy_param at 1.
    unfold set_params. rewrite exec_SetItem.
    unfold kinetics_20C at 1, dict_item. cbn [get_dict]. rewrite Hv.
    destruct (IH (wd F_params (<[k := v]> (_params (self w))) w)) as (P & HP & HPk).
    { intros k' Hk'. cbn. apply Hks. by apply list_elem_of_further. }
    exists P. rewrite HP, wd_wd. split; [done|].
    intros k' Hk'. destruct (decide (k' ∈ ks)) as [Hin|Hnin].
    + by rewrite HPk.
    + apply elem_of_cons in Hk' as [->|?]; [|done].
      assert (∀ p w0, (∀ k0, k0 ∈ p → k0 ≠ k) →
                get_dict F_params (self (run (copy_param <$> p) w0).2) !! k
                = get_dict F_params (self w0) !! k) as Hkeep.
      { clear. induction p as [|k0 p IHp]; intros w0 Hp; [done|].
        cbn [fmap list_fmap]. rewrite run_cons. unfold bind, copy_param at 1.
        unfold set_params. rewrite exec_SetItem.
        destruct (kinetics_20C k0 w0); [|done].
        rewrite IHp by (intros; apply Hp; by apply list_elem_of_further).
        rewrite get_wd. apply lookup_insert_ne, Hp, list_elem_of_here. }
      specialize (Hkeep ks (wd F_params (<[k := v]> (_params (self w))) w)).
      rewrite HP in Hkeep. cbn [snd] in Hkeep. rewrite !get_wd in Hkeep.
      rewrite Hkeep, lookup_insert_eq; [by rewrite Hv|].
      intros k0 Hk0 ->. done.
Qed.

(** The defaults are literals: name and value of each assignment of
    [_set_ideal_kinetics_20C_to_defaults], in source order. *)
Definition stmt_kv (s : stmt) : option (string * R) :=
  match s with
  | SetItem _ k rhs =>
      match rhs (World (Model 0 0 ∅ ∅ ∅ None 0 0 None None) ∅ []) with
      | Ok v => Some (k, v)
      | Err _ => None
      end
  | SetIndex _ _ _ => None
  end.

Definition defaults_kvs : list (string * R) := omap stmt_kv kinetics_20C_defaults.

Definition set_lit (d : dictf) (kv : string * R) : stmt := SetItem d kv.1 (lit kv.2).

Lemma defaults_are_literals :
  kinetics_20C_defaults = set_lit F_kinetics_20C <$> defaults_kvs.
Proof. reflexivity. Qed.

Definition dict_of (m : gmap string R) (kvs : list (string * R)) : gmap string R :=
  foldl (λ m kv, <[kv.1 := kv.2]> m) m kvs.

(** The last value a list of assignments gives to [k]. *)
Definition find_last (k : string) (o : option R) (kvs : list (string * R)) : option R :=
  foldl (λ acc kv, if String.eqb kv.1 k then Some kv.2 else acc) o kvs.

Lemma dict_of_lookup m kvs k : dict_of m kvs !! k = find_last k (m !! k) kvs.
Proof.
  revert m. induction kvs as [|[k' v] kvs IH]; intros m; [done|].
  cbn. rewrite IH. f_equal. rewrite lookup_insert.
  destruct (String.eqb_spec k' k); by case_decide.
Qed.

Lemma run_set_lit d kvs w :
  run (set_lit d <$> kvs) w
  = (Ok tt, wd d (dict_of (get_dict d (self w)) kvs) w).
Proof.
  revert w. induction kvs as [|[k v] kvs IH]; intros w.
  - cbn. by rewrite wd_id.
  - cbn [fmap list_fmap]. rewrite run_cons. unfold bind, set_lit at 1.
    rewrite exec_SetItem. cbn [lit fst snd]. rewrite IH.
    by rewrite get_wd, wd_wd.
Qed.

(** The reference kinetics of a newly constructed model. *)
Definition default_kinetics : gmap string R := dict_of ∅ defaults_kvs.

Lemma default_kinetics_lookup k :
  default_kinetics !! k = find_last k None defaults_kvs.
Proof. unfold default_kinetics. by rewrite dict_of_lookup, lookup_empty. Qed.

Lemma sublist_by_compute (l1 l2 : list string) :
  forallb (λ k, bool_decide (k ∈ l2)) l1 = true → ∀ k, k ∈ l1 → k ∈ l2.
Proof.
  intros H k Hk.
  pose proof (proj1 (List.forallb_forall _ _) H k
                (proj1 (list_elem_of_In _ _) Hk)) as Hb.
  by apply bool_decide_eq_true_1 in Hb.
Qed.

Lemma default_kinetics_complete k :
  k ∈ param_keys → is_Some (default_kinetics !! k).
Proof.
  intros Hk. rewrite default_kinetics_lookup.
  assert (forallb (λ k, bool_decide (is_Some (find_last k None defaults_kvs)))
            param_keys = true) as H by (vm_compute; reflexivity).
  pose proof (proj1 (List.forallb_forall _ _) H k
                (proj1 (list_elem_of_In _ _) Hk)) as Hb.
  by apply bool_decide_eq_true_1 in Hb.
Qed.

Lemma default_rate_params_pos k :
  k ∈ rate_param_keys → ∃ v, default_kinetics !! k = Some v ∧ 0 < v.
Proof.
  intros Hk. rewrite default_kinetics_lookup. unfold rate_param_keys in Hk.
  repeat (apply elem_of_cons in Hk as [->|Hk];
          [eexists; split; [reflexivity|cbn [snd]; lra]|]).
  by apply elem_of_nil in Hk.
Qed.

Lemma default_yields_nonzero k :
  k ∈ yield_keys → ∃ v, default_kinetics !! k = Some v ∧ v ≠ 0.
Proof.
  intros Hk. rewrite default_kinetics_lookup. unfold yield_keys in Hk.
  repeat (apply elem_of_cons in Hk as [->|Hk];
          [eexists; split; [reflexivity|cbn [snd]; lra]|]).
  by apply elem_of_nil in Hk.
Qed.

Lemma rate_keys_are_params k : k ∈ rate_param_keys → k ∈ param_keys.
Proof. apply sublist_by_compute. vm_compute. reflexivity. Qed.

Lemma stoich_keys_are_params k : k ∈ stoich_param_keys → k ∈ param_keys.
Proof. apply sublist_by_compute. vm_compute. reflexivity. Qed.

Lemma yield_keys_are_stoich_keys k : k ∈ yield_keys → k ∈ stoich_param_keys.
Proof. apply sublist_by_compute. vm_compute. reflexivity. Qed.

(** What the constructor leaves behind. *)
Record constructed (w : world) : Prop := {
  c_kinetics : _kinetics_20C (self w) = default_kinetics;
  c_params : ∀ k, k ∈ param_keys → _params (self w) !! k = default_kinetics !! k;
  c_monods : ∃ lm, _monods (self w) = Some lm ∧ heap w !! lm = Some (replicate 52 1.0);
  c_rate_res : ∃ lr, _rate_res (self w) = Some lr ∧ heap w !! lr = Some (replicate 40 0.0);
  c_comps : ∃ lc, _comps (self w) = Some lc ∧ heap w !! lc = Some (replicate 24 0.0)
}.

Lemma default_stoich_params_ok P :
  (∀ k, k ∈ param_keys → P !! k = default_kinetics !! k) → stoich_params_ok P.
Proof.
  intros HP. split.
  - intros k Hk. rewrite HP by by apply stoich_keys_are_params.
    by apply default_kinetics_complete, stoich_keys_are_params.
  - intros k Hk.
    rewrite HP by by apply stoich_keys_are_params, yield_keys_are_stoich_keys.
    by apply default_yields_nonzero.
Qed.

Lemma update_succeeds T DO w :
  (∀ k, k ∈ param_keys → is_Some (_kinetics_20C (self w) !! k)) →
  (∀ k, k ∈ yield_keys → ∃ v, _kinetics_20C (self w) !! k = Some v ∧ v ≠ 0) →
  ∃ P S, update T DO w
         = (Ok tt, wd F_stoichs S (wd F_params P (update_scalars T DO w)))
         ∧ ∀ k, k ∈ param_keys → P !! k = _kinetics_20C (self w) !! k.
Proof.
  intros Hk Hy. rewrite update_unfold. set (u := update_scalars T DO w).
  destruct (run_copy_params param_keys u) as (P & HP & HPk); [done|].
  assert (stoich_params_ok P) as Hok.
  { split.
    - intros k Hin. rewrite HPk by by apply stoich_keys_are_params.
      by apply Hk, stoich_keys_are_params.
    - intros k Hin.
      rewrite HPk by by apply stoich_keys_are_params, yield_keys_are_stoich_keys.
      by apply Hy. }
  destruct (set_stoichs_succeeds P Hok (wd F_params P u)) as [S HS]; [done|].
  exists P, S. unfold bind. rewrite set_params_copies, HP, HS. done.
Qed.

Lemma ASM2d_N2O_constructs T DO w :
  ∃ w', ASM2d_N2O T DO w = (Ok tt, w')
        ∧ constructed w'
        ∧ _temperature (self w') = T ∧ _bulk_DO (self w') = DO
        ∧ stdout w' = stdout w
        ∧ ∀ l, is_Some (heap w !! l) → heap w' !! l = heap w !! l.
Proof.
  unfold ASM2d_N2O, ASM2d_N2O__init__.
  set (l0 := fresh (dom (heap w))).
  set (w1 := World (Model 20 2 ∅ ∅ ∅ (Some l0) (20 - 20) (60 * 24 / (9 - 2)) None None)
                   (<[l0 := []]> (heap w)) (stdout w)).
  erewrite bind_ok by (instantiate (1 := w1); reflexivity).
  cbn [_set_ideal_kinetics_20C_to_defaults ASM2d_N2O_overrides].
  rewrite defaults_are_literals.
  erewrite bind_ok by apply run_set_lit.
  cbn [get_dict self w1 _kinetics_20C]. fold default_kinetics.
  do 3 (erewrite bind_ok by reflexivity).
  match goal with |- context [bind (update T DO) _ ?u] => set (w2 := u) end.
  destruct (update_succeeds T DO w2) as (P & S & Hu & HP).
  { intros k Hk. by apply default_kinetics_complete. }
  { intros k Hk. by apply default_yields_nonzero. }
  erewrite bind_ok by apply Hu.
  unfold setattr_list, bind, alloc, setattr.
  cbn [self heap stdout with_self with_heap set_buff wd set_dict update_scalars
       set_delta_t set_bulk_DO set_temperature _temperature _bulk_DO _kinetics_20C
       _params _stoichs _comps _delta_t _KLa _monods _rate_res w2 w1].
  set (h1 := <[l0 := []]> (heap w)).
  set (l1 := fresh (dom h1)). set (h2 := <[l1 := replicate 24 0.0]> h1).
  set (l2 := fresh (dom h2)). set (h3 := <[l2 := replicate 52 1.0]> h2).
  set (l3 := fresh (dom h3)).
  assert (l0 ∉ dom (heap w)) as F0 by apply is_fresh.
  assert (l1 ∉ dom h1) as F1 by apply is_fresh.
  assert (l2 ∉ dom h2) as F2 by apply is_fresh.
  assert (l3 ∉ dom h3) as F3 by apply is_fresh.
  eexists; split; [reflexivity|].
  assert (l3 ≠ l2) as N32.
  { intros E. apply F3. rewrite E. unfold h3. rewrite dom_insert_L.
    apply elem_of_union_l, elem_of_singleton. reflexivity. }
  assert (l3 ≠ l1) as N31.
  { intros E. apply F3. rewrite E. unfold h3, h2. rewrite !dom_insert_L.
    apply elem_of_union_r, elem_of_union_l, elem_of_singleton. reflexivity. }
  assert (l2 ≠ l1) as N21.
  { intros E. apply F2. rewrite E. unfold h2. rewrite dom_insert_L.
    apply elem_of_union_l, elem_of_singleton. reflexivity. }
  split; [|split; [reflexivity|split; [reflexivity|split; [reflexivity|]]]].
  - split; cbn [self heap with_self with_heap _kinetics_20C _params _monods _rate_res _comps].
    + reflexivity.
    + intros k Hk. rewrite HP by exact Hk. reflexivity.
    + exists l2. split; [reflexivity|]. rewrite lookup_insert_ne by exact N32.
      unfold h3. apply lookup_insert_eq.
    + exists l3. split; [reflexivity|]. apply lookup_insert_eq.
    + exists l1. split; [reflexivity|]. rewrite lookup_insert_ne by exact N31.
      unfold h3. rewrite lookup_insert_ne by exact N21.
      unfold h2. apply lookup_insert_eq.
  - intros l Hl. cbn [heap with_self with_heap].
    assert (l ∈ dom (heap w)) as Hd by (apply elem_of_dom; exact Hl).
    assert (l ∈ dom h1) as Hd1.
    { unfold h1. rewrite dom_insert_L. apply elem_of_union_r. exact Hd. }
    assert (l ∈ dom h2) as Hd2.
    { unfold h2. rewrite dom_insert_L. apply elem_of_union_r. exact Hd1. }
    assert (l ∈ dom h3) as Hd3.
    { unfold h3. rewrite dom_insert_L. apply elem_of_union_r. exact Hd2. }
    rewrite lookup_insert_ne by (intros E; apply F3; rewrite E; exact Hd3).
    unfold h3. rewrite lookup_insert_ne by (intros E; apply F2; rewrite E; exact Hd2).
    unfold h2. rewrite lookup_insert_ne by (intros E; apply F1; rewrite E; exact Hd1).
    unfold h1. rewrite lookup_insert_ne by (intros E; apply F0; rewrite E; exact Hd).
    reflexivity.
Qed.

(** ** The hypotheses of a call on a valid state *)

Definition rate_params_positive (w : world) : Prop :=
  ∀ k, k ∈ rate_param_keys → ∃ v, _params (self w) !! k = Some v ∧ 0 < v.

(** [self._monods] is the 52-element list the constructor made. *)
Definition monods_buffer (w : world) (lm : loc) (B : list R) : Prop :=
  _monods (self w) = Some lm ∧ heap w !! lm = Some B ∧ length B = 52%nat.

(** [comps] refers to a list of 24 concentrations. *)
Definition state_vector (w : world) (comps : loc) (xs : list R) : Prop :=
  heap w !! comps = Some xs ∧ length xs = 24%nat.

Definition non_negative (xs : list R) : Prop := Forall (λ v, 0 <= v) xs.

(** X_H, X_PAO, S_F + S_A and the denominator of the polyphosphate
    inhibition term are not zero. *)
Definition denominators_nonzero (w : world) (xs : list R) : Prop :=
  conc xs 15 ≠ 0 ∧ conc xs 16 ≠ 0 ∧ conc xs 1 + conc xs 2 ≠ 0
  ∧ par w "K_MAX_P" - conc xs 17 / conc xs 16 + par w "K_IPP_P" ≠ 0.

Lemma state_not_aliased w comps xs lm B :
  state_vector w comps xs → monods_buffer w lm B → comps ≠ lm.
Proof.
  intros [Hc Hl] (_ & Hm & HB) ->. rewrite Hc in Hm.
  injection Hm as ->. lia.
Qed.

Lemma reaction_rate_on_valid_state w comps xs lm B :
  rate_params_positive w → monods_buffer w lm B → state_vector w comps xs →
  non_negative xs → denominators_nonzero w xs →
  ∃ vs, _reaction_rate comps w = (Err IndexError, wb w lm vs)
        ∧ length vs = 52%nat
        ∧ vs !! 46%nat = Some (S_HNO2_val xs / (S_HNO2_val xs + par w "K_HNO2_AOB"))
        ∧ vs !! 35%nat
          = Some ((par w "K_MAX_P" - conc xs 17 / conc xs 16)
                  / (par w "K_MAX_P" - conc xs 17 / conc xs 16 + par w "K_IPP_P"))
        ∧ (conc xs 17 / conc xs 16 <= par w "K_MAX_P" → non_negative vs)
        ∧ non_negative (delete 35%nat vs)
        ∧ (Forall (λ v, 0 < v) xs → Forall (λ v, 0 < v) (delete 35%nat vs)).
Proof.
  intros Hp Hm Hs Hn (H15 & H16 & H12 & HPP).
  pose proof (state_not_aliased _ _ _ _ _ Hs Hm) as Hne.
  destruct Hm as (Hm & HB & HlB). destruct Hs as [Hc Hl].
  by apply (reaction_rate_valid w comps lm xs) with (B := B).
Qed.

(** ** A model and two state vectors to run the code on *)

(** 24 concentrations: 1 mg/L each, but for the polyphosphate X_PP. *)
Definition state_with_X_PP (X_PP : R) : list R :=
  [1; 1; 1; 1; 1; 1; 1; 1; 1; 1; 1; 1; 1; 1; 1; 1; 1; X_PP; 1; 1; 1; 1; 1; 1].

Definition state_a : list R := state_with_X_PP 0.1.
Definition state_b : list R := state_with_X_PP 0.35.
Definition influent : list R := replicate 24 1.

(** The caller holds the three lists at references 1, 2 and 3 and then
    evaluates [ASM2d_N2O(20, 2)]. *)
Definition caller_world : world :=
  World (Model 0 0 ∅ ∅ ∅ None 0 0 None None)
        (<[1%positive := state_a]> (<[2%positive := state_b]> (<[3%positive := influent]> ∅)))
        [].

Definition demo_world : world := (ASM2d_N2O 20 2 caller_world).2.

Lemma demo_world_eq w :
  ASM2d_N2O 20 2 caller_world = (Ok tt, w) → demo_world = w.
Proof. intros H. unfold demo_world. by rewrite H. Qed.

Lemma demo_world_constructed :
  ASM2d_N2O 20 2 caller_world = (Ok tt, demo_world)
  ∧ constructed demo_world
  ∧ _bulk_DO (self demo_world) = 2
  ∧ stdout demo_world = []
  ∧ heap demo_world !! 1%positive = Some state_a
  ∧ heap demo_world !! 2%positive = Some state_b
  ∧ heap demo_world !! 3%positive = Some influent.
Proof.
  destruct (ASM2d_N2O_constructs 20 2 caller_world)
    as (w' & Hw & Hc & _ & HDO & Hout & Hheap).
  pose proof (demo_world_eq w' Hw) as E. rewrite E. clear E.
  assert (heap caller_world !! 1%positive = Some state_a) as H1.
  { unfold caller_world. cbn [heap]. apply lookup_insert_eq. }
  assert (heap caller_world !! 2%positive = Some state_b) as H2.
  { unfold caller_world. cbn [heap]. rewrite lookup_insert_ne by discriminate.
    apply lookup_insert_eq. }
  assert (heap caller_world !! 3%positive = Some influent) as H3.
  { unfold caller_world. cbn [heap]. do 2 (rewrite lookup_insert_ne by discriminate).
    apply lookup_insert_eq. }
  split; [exact Hw|]. split; [exact Hc|]. split; [exact HDO|].
  split; [exact Hout|].
  split; [|split].
  - rewrite Hheap; [exact H1 | rewrite H1; eexists; reflexivity].
  - rewrite Hheap; [exact H2 | rewrite H2; eexists; reflexivity].
  - rewrite Hheap; [exact H3 | rewrite H3; eexists; reflexivity].
Qed.

Lemma constructed_params w k v :
  constructed w → bool_decide (k ∈ param_keys) = true →
  find_last k None defaults_kvs = Some v →
  _params (self w) !! k = Some v.
Proof.
  intros Hc Hk%bool_decide_eq_true Hv.
  by rewrite (c_params _ Hc) by done; rewrite default_kinetics_lookup.
Qed.

Lemma constructed_par w k v :
  constructed w → bool_decide (k ∈ param_keys) = true →
  find_last k None defaults_kvs = Some v →
  par w k = v.
Proof. intros. unfold par. by erewrite constructed_params. Qed.

Lemma constructed_rate_params w : constructed w → rate_params_positive w.
Proof.
  intros Hc k Hk. rewrite (c_params _ Hc) by by apply rate_keys_are_params.
  by apply default_rate_params_pos.
Qed.

Lemma constructed_monods w :
  constructed w → ∃ lm, monods_buffer w lm (replicate 52 1.0).
Proof. intros Hc. destruct (c_monods _ Hc) as (lm & ? & ?). by exists lm. Qed.

Lemma state_with_X_PP_nonneg X_PP : 0 <= X_PP → non_negative (state_with_X_PP X_PP).
Proof.
  intros. unfold non_negative, state_with_X_PP.
  repeat first [apply List.Forall_nil | apply List.Forall_cons; [lra|]].
Qed.

Lemma demo_denominators X_PP :
  0.34 - X_PP / 1 + 0.02 ≠ 0 →
  denominators_nonzero demo_world (state_with_X_PP X_PP).
Proof.
  intros H. destruct demo_world_constructed as (_ & Hc & _).
  unfold denominators_nonzero.
  rewrite (constructed_par demo_world "K_MAX_P" 0.34 Hc);
    [|vm_compute; reflexivity|reflexivity].
  rewrite (constructed_par demo_world "K_IPP_P" 0.02 Hc);
    [|vm_compute; reflexivity|reflexivity].
  cbn [conc state_with_X_PP lookup list_lookup default from_option].
  cbv [Datatypes.id].
  split; [apply Rgt_not_eq; lra|]. split; [apply Rgt_not_eq; lra|].
  split; [apply Rgt_not_eq; lra|]. exact H.
Qed.

(** The model of [demo_world] with one of the two state vectors. *)
Lemma demo_call comps X_PP :
  heap demo_world !! comps = Some (state_with_X_PP X_PP) →
  0 <= X_PP → 0.34 - X_PP / 1 + 0.02 ≠ 0 →
  ∃ lm, rate_params_positive demo_world
        ∧ monods_buffer demo_world lm (replicate 52 1.0)
        ∧ state_vector demo_world comps (state_with_X_PP X_PP)
        ∧ non_negative (state_with_X_PP X_PP)
        ∧ denominators_nonzero demo_world (state_with_X_PP X_PP).
Proof.
  intros Hh Hx Hd. destruct demo_world_constructed as (_ & Hc & _).
  destruct (constructed_monods _ Hc) as [lm Hlm]. exists lm.
  split; [by apply constructed_rate_params|]. split; [done|].
  split; [by split|]. split; [by apply state_with_X_PP_nonneg|].
  by apply demo_denominators.
Qed.

(** * The claims *)

(** ** The derivative on a valid state *)

Lemma dCdt_IndexError w t mo_comps vol flow in_comps fix_DO DO_sat_T xs lm B :
  rate_params_positive w → monods_buffer w lm B → state_vector w mo_comps xs →
  non_negative xs → denominators_nonzero w xs →
  ∃ vs, _dCdt t mo_comps vol flow in_comps fix_DO DO_sat_T w
        = (Err IndexError, wb w lm vs).
Proof.
  intros Hp Hm Hs Hn Hd.
  destruct (reaction_rate_on_valid_state w mo_comps xs lm B Hp Hm Hs Hn Hd)
    as (vs & Hrr & _).
  exists vs. unfold _dCdt. by apply bind_err.
Qed.

(** C1, as the code has it: for every state vector of 24 non-negative
    concentrations with non-zero denominators and every positive flow,
    [_dCdt] returns no vector at all; it raises [IndexError], at the store
    to [self._monods[52]]. *)
Theorem dCdt_raises_on_valid_state
    w t mo_comps vol flow in_comps fix_DO DO_sat_T xs lm B :
  rate_params_positive w → monods_buffer w lm B → state_vector w mo_comps xs →
  non_negative xs → denominators_nonzero w xs → 0 < flow →
  ∃ w', _dCdt t mo_comps vol flow in_comps fix_DO DO_sat_T w
        = (Err IndexError, w').
Proof.
  intros Hp Hm Hs Hn Hd _.
  destruct (dCdt_IndexError w t mo_comps vol flow in_comps fix_DO DO_sat_T
              xs lm B Hp Hm Hs Hn Hd) as [vs Hvs].
  by exists (wb w lm vs).
Qed.

Lemma dCdt_raises_on_valid_state_witness :
  ∃ lm, rate_params_positive demo_world
        ∧ monods_buffer demo_world lm (replicate 52 1.0)
        ∧ state_vector demo_world 1%positive state_a
        ∧ non_negative state_a
        ∧ denominators_nonzero demo_world state_a
        ∧ 0 < 100
        ∧ ∃ w', _dCdt 0 1%positive 1000 100 3%positive false 9 demo_world
                = (Err IndexError, w').
Proof.
  destruct demo_world_constructed as (_ & _ & _ & _ & H1 & _).
  destruct (demo_call 1%positive 0.1 H1) as (lm & Hp & Hm & Hs & Hn & Hd);
    [lra | lra |].
  exists lm. split; [exact Hp|]. split; [exact Hm|]. split; [exact Hs|].
  split; [exact Hn|]. split; [exact Hd|]. split; [lra|].
  apply (dCdt_raises_on_valid_state demo_world 0 1%positive 1000 100 3%positive
           false 9 state_a lm (replicate 52 1.0) Hp Hm Hs Hn Hd).
  lra.
Defined.

(** ** Every call raises *)

(** C2: with the 52-element buffer of the constructor, a store to index 52
    or 53 raises [IndexError]; [_reaction_rate] makes both stores, and its
    rate 14 subscripts the method [_monod], a [TypeError]; so
    [_reaction_rate] raises from every world and on every input, and
    [_dCdt], which calls it first, never returns a vector. *)
Theorem reaction_rate_always_raises w comps lm B :
  monods_buffer w lm B →
  (∀ i rhs v, (i = 52 ∨ i = 53)%nat → rhs w = Ok v →
     exec (set_monods i rhs) w = (Err IndexError, w))
  ∧ set_monods 52 (monod comps.[8] (params "K_NO3")) ∈ omitted_terms comps
  ∧ set_monods 53 (monod comps.[3] (lit 10e-12)) ∈ omitted_terms comps
  ∧ set_rate_res 14 (rate14_rhs comps) ∈ rates comps
  ∧ (∀ w1 a, (params "q_fe" * monods 14 * monods 27)%py w1 = Ok a →
       rate14_rhs comps w1 = Err TypeError)
  ∧ (∀ w1, ∃ e w', _reaction_rate comps w1 = (Err e, w'))
  ∧ (∀ w1 t vol flow in_comps fix_DO DO_sat_T,
       ∃ e w', _dCdt t comps vol flow in_comps fix_DO DO_sat_T w1 = (Err e, w')).
Proof.
  intros (Hm & HB & Hlen).
  split.
  { intros i rhs v Hi Hv. eapply exec_SetIndex_past_end; [exact Hm|exact HB| |exact Hv].
    lia. }
  split; [apply list_elem_of_here|].
  split; [apply list_elem_of_further, list_elem_of_here|].
  split; [apply rate14_in_rates|].
  split; [apply rate14_rhs_TypeError|].
  split; [apply fails_reaction_rate|].
  intros w1 t vol flow in_comps fix_DO DO_sat_T. apply fails_dCdt.
Qed.

Lemma reaction_rate_always_raises_witness :
  ∃ lm, monods_buffer demo_world lm (replicate 52 1.0)
        ∧ ∃ e w', _reaction_rate 1%positive demo_world = (Err e, w').
Proof.
  destruct demo_world_constructed as (_ & Hc & _).
  destruct (constructed_monods _ Hc) as [lm Hlm]. exists lm.
  split; [exact Hlm|].
  apply (reaction_rate_always_raises demo_world 1%positive lm _ Hlm).
Defined.

(** ** Zero flow *)

Definition raises_named {A} (name : string) (r : result A * world) : Prop :=
  ∃ e w', r = (Err e, w') ∧ exn_name e = name.




(** ** Overriding a reference kinetic *)

Definition alter_error_message : string :=
  "ERROR IN ALTERING 20C KINETICS. NO PARAMETER WAS CHANGED".

Lemma alter_kinetic_20C_returns name new_val w :
  ∃ w', alter_kinetic_20C name new_val w = (Ok tt, w').
Proof.
  unfold alter_kinetic_20C.
  destruct (Rlt_dec 0 new_val); [case_decide|]; eauto.
Qed.

(** C4 as stated fails: [alter_kinetic_20C("mu_H", -1.0)] raises nothing. *)
Lemma alter_kinetic_20C_counterexample :
  ¬ raises_named "InvalidParameterError"
      (alter_kinetic_20C "mu_H" (-1.0) demo_world).
Proof.
  destruct (alter_kinetic_20C_returns "mu_H" (-1.0) demo_world) as [w' Hw].
  intros (e & w'' & He & _). rewrite Hw in He. discriminate He.
Qed.

(** C4 amended: a non-positive value, or a name that is not a key of the
    reference kinetics, leaves the model object as it was (no value is
    changed, no key is added); the call prints an error message and
    returns normally. *)
Theorem alter_kinetic_20C_rejects w name new_val :
  new_val <= 0 ∨ name ∉ dom (_kinetics_20C (self w)) →
  alter_kinetic_20C name new_val w
  = (Ok tt, World (self w) (heap w) (stdout w ++ [alter_error_message])).
Proof.
  intros H. unfold alter_kinetic_20C.
  destruct (Rlt_dec 0 new_val) as [Hpos|Hneg]; [|reflexivity].
  case_decide as Hin; [|reflexivity].
  destruct H as [H|H]; [lra | contradiction].
Qed.

Lemma alter_kinetic_20C_rejects_witness :
  (-1.0 <= 0 ∨ "mu_H" ∉ dom (_kinetics_20C (self demo_world)))
  ∧ alter_kinetic_20C "mu_H" (-1.0) demo_world
    = (Ok tt, World (self demo_world) (heap demo_world)
                    (stdout demo_world ++ [alter_error_message])).
Proof.
  split; [left; lra|].
  apply (alter_kinetic_20C_rejects demo_world "mu_H" (-1.0)). left. lra.
Defined.

(** ** Fixed dissolved oxygen *)

Lemma append_inv result e w r w' :
  append result e w = (Ok r, w') → w' = w ∧ ∃ v, r = result ++ [v].
Proof.
  unfold append, bind, eval, ret. destruct (e w) as [v|x]; [|discriminate].
  intros [= <- <-]. eauto.
Qed.

(** When the balance block returns, a fixed DO gives a first entry that is
    exactly 0.0, in a vector of 24 entries. *)
Lemma mass_balance_fixed_DO w mo_comps vol flow in_comps fix_DO DO_sat_T r w' :
  fix_DO = true ∨ _bulk_DO (self w) = 0 →
  mass_balance mo_comps vol flow in_comps fix_DO DO_sat_T w = (Ok r, w') →
  r !! 0%nat = Some 0.0 ∧ length r = 24%nat.
Proof.
  intros Hfix H. unfold mass_balance in H.
  apply bind_inv_ok in H as (hrt & w1 & H1 & H).
  assert (w1 = w) as ->.
  { unfold eval in H1. by injection H1. }
  apply bind_inv_ok in H as (r0 & w2 & H2 & H).
  assert (r0 = [0.0] ∧ w2 = w) as [-> ->].
  { assert (fix_DO || bool_decide (_bulk_DO (self w) = 0) = true) as Hc.
    { destruct Hfix as [->|Hb]; [done|].
      rewrite (bool_decide_eq_true_2 _ Hb). by destruct fix_DO. }
    rewrite Hc in H2. unfold ret in H2. by injection H2 as <- <-. }
  repeat (apply bind_inv_ok in H as (? & ? & [-> [? ->]]%append_inv & H)).
  unfold ret in H. injection H as <- <-. split; reflexivity.
Qed.

(** C5, as the code has it: with [fix_DO] set, or a bulk DO of exactly 0,
    [_dCdt] returns no vector, so no dissolved-oxygen entry either: it
    raises in [_reaction_rate].  The balance block that follows does
    force the entry to 0.0 whenever it is reached and returns. *)
Theorem dCdt_fixed_DO_raises w t mo_comps vol flow in_comps fix_DO DO_sat_T :
  fix_DO = true ∨ _bulk_DO (self w) = 0 →
  (∃ e w', _dCdt t mo_comps vol flow in_comps fix_DO DO_sat_T w = (Err e, w'))
  ∧ (∀ w1 r w', fix_DO = true ∨ _bulk_DO (self w1) = 0 →
       mass_balance mo_comps vol flow in_comps fix_DO DO_sat_T w1 = (Ok r, w') →
       r !! 0%nat = Some 0.0 ∧ length r = 24%nat).
Proof.
  intros _. split; [apply fails_dCdt|].
  intros w1 r w'. apply mass_balance_fixed_DO.
Qed.

Lemma dCdt_fixed_DO_raises_witness :
  (true = true ∨ _bulk_DO (self demo_world) = 0)
  ∧ ∃ e w', _dCdt 0 1%positive 1000 100 3%positive true 9 demo_world
            = (Err e, w').
Proof.
  split; [by left|].
  apply (dCdt_fixed_DO_raises demo_world 0 1%positive 1000 100 3%positive true 9).
  by left.
Defined.

(** ** [update] twice *)

(** C9: a second [update(T, DO)] with the same arguments ends like the
    first one and leaves the world of the first one as it is; so the
    snapshots [get_params] and [get_stoichs] return are the same after
    each of the two calls. *)
Theorem update_twice_same_snapshots T DO w :
  let w1 := (update T DO w).2 in
  let w2 := (update T DO w1).2 in
  (update T DO w1).1 = (update T DO w).1
  ∧ w2 = w1
  ∧ (get_params w2).1 = (get_params w1).1
  ∧ (get_stoichs w2).1 = (get_stoichs w1).1.
Proof.
  cbn zeta. rewrite update_idem. done.
Qed.

(** ** The alkalinity coefficient of process 1 *)

#[export] Instance dictf_eq_dec : EqDecision dictf.
Proof. solve_decision. Defined.

(** [s] assigns to the key [k0] of the dictionary [d0]. *)
Definition writes (d0 : dictf) (k0 : string) (s : stmt) : bool :=
  match s with
  | SetItem d k _ => bool_decide (d = d0) && bool_decide (k = k0)
  | SetIndex _ _ _ => false
  end.

Lemma exec_keeps_key d0 k0 s w :
  writes d0 k0 s = false →
  get_dict d0 (self (exec s w).2) !! k0 = get_dict d0 (self w) !! k0.
Proof.
  destruct s as [d k rhs|b i rhs]; intros Hw.
  - rewrite exec_SetItem. destruct (rhs w) as [v|e]; [|done]. cbn [snd].
    destruct (decide (d = d0)) as [->|Hd].
    + rewrite get_wd. apply lookup_insert_ne. intros ->.
      cbn in Hw. by rewrite !bool_decide_eq_true_2 in Hw.
    + by rewrite get_wd_ne.
  - cbn [exec]. unfold bind, eval. destruct (rhs w) as [v|e]; [|done].
    destruct (get_buff b (self w)) as [l|]; [|done].
    unfold store. destruct (heap w !! l) as [xs|]; [|done].
    by case_decide.
Qed.

Lemma run_keeps_key d0 k0 p w :
  forallb (λ s, negb (writes d0 k0 s)) p = true →
  get_dict d0 (self (run p w).2) !! k0 = get_dict d0 (self w) !! k0.
Proof.
  revert w. induction p as [|s p IH]; intros w Hp; [done|].
  cbn [forallb] in Hp. apply andb_prop in Hp as [Hs Hp].
  apply negb_true_iff in Hs.
  rewrite run_cons. unfold bind.
  pose proof (exec_keeps_key d0 k0 s w Hs) as Hk.
  destruct (exec s w) as [[[]|e] w1]; cbn [snd] in *; [|done].
  by rewrite IH.
Qed.

Lemma ebin_ok_inv f a b w v :
  ebin f a b w = Ok v → ∃ x y, a w = Ok x ∧ b w = Ok y ∧ f x y = Ok v.
Proof.
  unfold ebin. destruct (a w) as [x|]; [|discriminate].
  destruct (b w) as [y|]; [|discriminate]. eauto.
Qed.

Lemma dict_item_ok_inv d k w v :
  dict_item d k w = Ok v → get_dict d (self w) !! k = Some v.
Proof.
  unfold dict_item. destruct (get_dict d (self w) !! k); [|discriminate].
  by intros [= ->].
Qed.

Lemma exec_SetItem_ok_inv d k rhs w w' :
  exec (SetItem d k rhs) w = (Ok tt, w') →
  ∃ v, rhs w = Ok v ∧ w' = wd d (<[k := v]> (get_dict d (self w))) w.
Proof.
  rewrite exec_SetItem. destruct (rhs w) as [v|e]; [|discriminate].
  intros [= <-]. eauto.
Qed.

Ltac inv_rhs :=
  repeat match goal with
         | H : ebin _ _ _ _ = Ok _ |- _ =>
             apply ebin_ok_inv in H as (? & ? & ? & ? & H)
         | H : dict_item _ _ _ = Ok _ |- _ => apply dict_item_ok_inv in H
         | H : lit _ _ = Ok _ |- _ => unfold lit in H
         | H : Ok _ = Ok _ |- _ => injection H as H; subst
         end.

Ltac peel_stmt H :=
  rewrite run_cons in H;
  let w1 := fresh "w" in
  let He := fresh "He" in
  let Hr := fresh "Hr" in
  apply bind_inv_ok in H as ([] & w1 & He & Hr);
  rename Hr into H;
  apply exec_SetItem_ok_inv in He as (? & He & ->);
  rewrite ?get_wd, ?wd_wd in H.

(** C7: after an [update] that returned, [stoichs "1_12"] is
    [(1 / 14) * stoichs "1_4" + (-1.5 / 31) * stoichs "1_10"], and the two
    coefficients it is computed from are those this same [update] derived
    from the parameters, not what the dictionary held before. *)
Theorem stoichs_1_12_alkalinity T DO w w' :
  update T DO w = (Ok tt, w') →
  ∃ f_SI i_NXS i_NSF i_PXS i_PSF n p,
    _params (self w') !! "f_SI" = Some f_SI
    ∧ _params (self w') !! "i_NXS" = Some i_NXS
    ∧ _params (self w') !! "i_NSF" = Some i_NSF
    ∧ _params (self w') !! "i_PXS" = Some i_PXS
    ∧ _params (self w') !! "i_PSF" = Some i_PSF
    ∧ n = i_NXS - (1.0 - f_SI) * i_NSF
    ∧ p = i_PXS - (1.0 - f_SI) * i_PSF
    ∧ _stoichs (self w') !! "1_4" = Some n
    ∧ _stoichs (self w') !! "1_10" = Some p
    ∧ _stoichs (self w') !! "1_12" = Some (1 / 14 * n + -1.5 / 31 * p).
Proof.
  intros H. rewrite update_unfold in H.
  apply bind_inv_ok in H as ([] & wp & _ & Hs).
  unfold set_stoichs_stmts, set_stoichs in Hs.
  do 6 peel_stmt Hs.
  unfold eadd, esub, emul, params, stoichs in He, He0, He1, He2, He3, He4.
  inv_rhs.
  rewrite ?get_wd, ?get_wd_ne in * by discriminate.
  cbn [get_dict] in *.
  repeat match goal with
         | H : <[_:=_]> _ !! _ = Some _ |- _ =>
             first [ rewrite lookup_insert_eq in H
                   | rewrite lookup_insert_ne in H by discriminate ]
         end.
  simplify_eq.
  match type of Hs with
  | run ?rest ?W = _ =>
      assert (∀ d k, forallb (λ s, negb (writes d k s)) rest = true →
                     get_dict d (self w') !! k = get_dict d (self W) !! k) as Keep
        by (intros d k Hk; pose proof (run_keeps_key d k rest W Hk) as K;
            rewrite Hs in K; exact K)
  end.
  clear Hs.
  pose proof (Keep F_params "f_SI" ltac:(vm_compute; reflexivity)) as K1.
  pose proof (Keep F_params "i_NXS" ltac:(vm_compute; reflexivity)) as K2.
  pose proof (Keep F_params "i_NSF" ltac:(vm_compute; reflexivity)) as K3.
  pose proof (Keep F_params "i_PXS" ltac:(vm_compute; reflexivity)) as K4.
  pose proof (Keep F_params "i_PSF" ltac:(vm_compute; reflexivity)) as K5.
  pose proof (Keep F_stoichs "1_4" ltac:(vm_compute; reflexivity)) as K6.
  pose proof (Keep F_stoichs "1_10" ltac:(vm_compute; reflexivity)) as K7.
  pose proof (Keep F_stoichs "1_12" ltac:(vm_compute; reflexivity)) as K8.
  clear Keep.
  rewrite ?get_wd, ?get_wd_ne in * by discriminate.
  cbn [get_dict] in *.
  repeat match goal with
         | H : _ = <[_:=_]> _ !! _ |- _ =>
             first [ rewrite lookup_insert_eq in H
                   | rewrite lookup_insert_ne in H by discriminate ]
         end.
  exists x24, x17, x20, x11, x14, (x17 - (1.0 - x24) * x20),
    (x11 - (1.0 - x24) * x14).
  rewrite K1, K2, K3, K4, K5.
  split; [exact H18|]. split; [exact H11|]. split; [exact H14|].
  split; [exact H5|]. split; [exact H8|]. split; [reflexivity|].
  split; [reflexivity|]. split; [exact K6|]. split; [exact K7|]. exact K8.
Qed.

Lemma constructed_update_succeeds T DO w :
  constructed w → ∃ w', update T DO w = (Ok tt, w').
Proof.
  intros Hc. destruct (update_succeeds T DO w) as (P & S & Hu & _).
  - intros k Hk. rewrite (c_kinetics _ Hc). by apply default_kinetics_complete.
  - intros k Hk. rewrite (c_kinetics _ Hc). by apply default_yields_nonzero.
  - eauto.
Qed.

Lemma stoichs_1_12_alkalinity_witness :
  ∃ w', update 25 1.5 demo_world = (Ok tt, w')
        ∧ ∃ n p, _stoichs (self w') !! "1_4" = Some n
                 ∧ _stoichs (self w') !! "1_10" = Some p
                 ∧ _stoichs (self w') !! "1_12" = Some (1 / 14 * n + -1.5 / 31 * p).
Proof.
  destruct demo_world_constructed as (_ & Hc & _).
  destruct (constructed_update_succeeds 25 1.5 demo_world Hc) as [w' Hw].
  exists w'. split; [exact Hw|].
  destruct (stoichs_1_12_alkalinity 25 1.5 demo_world w' Hw)
    as (f_SI & i_NXS & i_NSF & i_PXS & i_PSF & n & p & _ & _ & _ & _ & _ & _ & _
        & H4 & H10 & H12).
  exists n, p. split; [exact H4|]. split; [exact H10|]. exact H12.
Defined.

(** ** The un-ionized nitrite term *)

(** The term as the specification words it: the dissociation constant at
    20 degrees Celsius, pH 7, and the Monod quotient. *)
Definition Ka_20C : R := exp (-2300 / (273.15 + 20)).
Definition S_HNO2_spec (NO2 : R) : R := NO2 / (Ka_20C * 10 ^ 7 + 1) * (47 / 14).

Lemma S_HNO2_val_spec xs : S_HNO2_val xs = S_HNO2_spec (conc xs 7).
Proof. reflexivity. Qed.

(** C8: on a valid state the entry 46 of the Monod buffer that
    [_reaction_rate] leaves behind is the value of the helper [_monod] at
    [S_HNO2] and [K_HNO2_AOB], with [S_HNO2 = NO2 / (Ka * 10^7 + 1) * (47/14)],
    [NO2] the state entry 7 and [Ka = exp (-2300 / (273.15 + 20))]. *)
Theorem hno2_term_is_monod_of_S_HNO2 w comps xs lm B :
  rate_params_positive w → monods_buffer w lm B → state_vector w comps xs →
  non_negative xs → denominators_nonzero w xs →
  ∃ vs v, heap (_reaction_rate comps w).2 !! lm = Some vs
          ∧ vs !! 46%nat = Some v
          ∧ _monod (S_HNO2_spec (conc xs 7)) (par w "K_HNO2_AOB") = Ok v
          ∧ v = S_HNO2_spec (conc xs 7)
                / (S_HNO2_spec (conc xs 7) + par w "K_HNO2_AOB").
Proof.
  intros Hp Hm Hs Hn Hd.
  destruct (reaction_rate_on_valid_state w comps xs lm B Hp Hm Hs Hn Hd)
    as (vs & Hrr & _ & H46 & _).
  exists vs, (S_HNO2_val xs / (S_HNO2_val xs + par w "K_HNO2_AOB")).
  rewrite Hrr. cbn [snd]. unfold wb, with_heap. cbn [heap].
  split; [apply lookup_insert_eq|]. split; [exact H46|].
  rewrite <- S_HNO2_val_spec.
  split; [exact (monod_S_HNO2 w xs Hp Hn) | reflexivity].
Qed.

Lemma hno2_term_is_monod_of_S_HNO2_witness :
  ∃ lm, rate_params_positive demo_world
        ∧ monods_buffer demo_world lm (replicate 52 1.0)
        ∧ state_vector demo_world 1%positive state_a
        ∧ non_negative state_a
        ∧ denominators_nonzero demo_world state_a
        ∧ ∃ vs v, heap (_reaction_rate 1%positive demo_world).2 !! lm = Some vs
                  ∧ vs !! 46%nat = Some v
                  ∧ _monod (S_HNO2_spec (conc state_a 7)) (par demo_world "K_HNO2_AOB")
                    = Ok v
                  ∧ v = S_HNO2_spec (conc state_a 7)
                        / (S_HNO2_spec (conc state_a 7) + par demo_world "K_HNO2_AOB").
Proof.
  destruct demo_world_constructed as (_ & _ & _ & _ & H1 & _).
  destruct (demo_call 1%positive 0.1 H1) as (lm & Hp & Hm & Hs & Hn & Hd);
    [lra | lra |].
  exists lm. split; [exact Hp|]. split; [exact Hm|]. split; [exact Hs|].
  split; [exact Hn|]. split; [exact Hd|].
  exact (hno2_term_is_monod_of_S_HNO2 demo_world 1%positive state_a lm
           (replicate 52 1.0) Hp Hm Hs Hn Hd).
Defined.

(** ** The rates *)

(** [self._rate_res] is a list of 40 entries. *)
Definition rates_buffer (w : world) (lr : loc) (rs : list R) : Prop :=
  _rate_res (self w) = Some lr ∧ heap w !! lr = Some rs ∧ length rs = 40%nat.

Lemma rates_not_aliased w lm B lr rs :
  monods_buffer w lm B → rates_buffer w lr rs → lr ≠ lm.
Proof.
  intros (_ & Hm & HB) (_ & Hr & Hrs) ->. rewrite Hm in Hr.
  injection Hr as ->. lia.
Qed.

(** C6, as the code has it: on a valid state [_reaction_rate] computes no
    rate.  It raises [IndexError] at the store to [_monods[52]] (line 704),
    before the first rate assignment (line 707), and [self._rate_res] holds
    what it held before the call.  The 52 Monod factors stored by then are
    non-negative but for the factor 35 of line 678, which is non-negative
    when X_PP / X_PAO is at most K_MAX_P and negative when it lies between
    K_MAX_P and K_MAX_P + K_IPP_P. *)
Theorem reaction_rate_stores_no_rate w comps xs lm B lr rs :
  rate_params_positive w → monods_buffer w lm B → state_vector w comps xs →
  non_negative xs → denominators_nonzero w xs → rates_buffer w lr rs →
  ∃ w' vs m35,
    _reaction_rate comps w = (Err IndexError, w')
    ∧ rates_buffer w' lr rs
    ∧ heap w' !! lm = Some vs ∧ length vs = 52%nat
    ∧ non_negative (delete 35%nat vs)
    ∧ vs !! 35%nat = Some m35
    ∧ (conc xs 17 / conc xs 16 <= par w "K_MAX_P" → 0 <= m35)
    ∧ (par w "K_MAX_P" < conc xs 17 / conc xs 16
       → conc xs 17 / conc xs 16 < par w "K_MAX_P" + par w "K_IPP_P"
       → m35 < 0).
Proof.
  intros Hp Hm Hs Hn Hd Hr.
  pose proof (rates_not_aliased _ _ _ _ _ Hm Hr) as Hne.
  destruct (reaction_rate_on_valid_state w comps xs lm B Hp Hm Hs Hn Hd)
    as (vs & Hrr & Hlen & _ & H35 & Hnn & Hdel & _).
  destruct Hr as (Hlr & Hrs & Hl40).
  eexists (wb w lm vs), vs, _. split; [exact Hrr|].
  split.
  { split; [exact Hlr|]. split; [|exact Hl40].
    unfold wb, with_heap. cbn [heap]. by rewrite lookup_insert_ne. }
  split; [unfold wb, with_heap; cbn [heap]; apply lookup_insert_eq|].
  split; [exact Hlen|]. split; [exact Hdel|]. split; [exact H35|].
  split.
  - intros Hratio. exact (Forall_lookup_1 _ _ _ _ (Hnn Hratio) H35).
  - intros Hlo Hhi.
    set (a := par w "K_MAX_P" - conc xs 17 / conc xs 16) in *.
    assert (a < 0) as Ha by (unfold a; lra).
    assert (0 < a + par w "K_IPP_P") as Hb by (unfold a; lra).
    pose proof (Rinv_0_lt_compat _ Hb) as Hi.
    unfold Rdiv. nra.
Qed.

Lemma reaction_rate_stores_no_rate_witness :
  ∃ lm lr, rate_params_positive demo_world
        ∧ monods_buffer demo_world lm (replicate 52 1.0)
        ∧ state_vector demo_world 1%positive state_a
        ∧ non_negative state_a
        ∧ denominators_nonzero demo_world state_a
        ∧ rates_buffer demo_world lr (replicate 40 0.0)
        ∧ ∃ w' vs m35,
            _reaction_rate 1%positive demo_world = (Err IndexError, w')
            ∧ rates_buffer w' lr (replicate 40 0.0)
            ∧ heap w' !! lm = Some vs ∧ length vs = 52%nat
            ∧ non_negative (delete 35%nat vs)
            ∧ vs !! 35%nat = Some m35
            ∧ (conc state_a 17 / conc state_a 16 <= par demo_world "K_MAX_P"
               → 0 <= m35)
            ∧ (par demo_world "K_MAX_P" < conc state_a 17 / conc state_a 16
               → conc state_a 17 / conc state_a 16
                 < par demo_world "K_MAX_P" + par demo_world "K_IPP_P"
               → m35 < 0).
Proof.
  destruct demo_world_constructed as (_ & Hc & _ & _ & H1 & _).
  destruct (demo_call 1%positive 0.1 H1) as (lm & Hp & Hm & Hs & Hn & Hd);
    [lra | lra |].
  destruct (c_rate_res _ Hc) as (lr & Hlr & Hrs).
  assert (rates_buffer demo_world lr (replicate 40 0.0)) as Hr
    by (split; [exact Hlr|split; [exact Hrs|reflexivity]]).
  exists lm, lr. split; [exact Hp|]. split; [exact Hm|]. split; [exact Hs|].
  split; [exact Hn|]. split; [exact Hd|]. split; [exact Hr|].
  exact (reaction_rate_stores_no_rate demo_world 1%positive state_a lm
           (replicate 52 1.0) lr (replicate 40 0.0) Hp Hm Hs Hn Hd Hr).
Defined.

(** ** What a call leaves unchanged *)

(** [w'] differs from [w] at most in the entries of the list at [lm]: the
    model object, the output, every other list and the length of the list
    at [lm] are the same. *)
Definition same_but (lm : loc) (w w' : world) : Prop :=
  self w' = self w ∧ stdout w' = stdout w
  ∧ (∀ l, l ≠ lm → heap w' !! l = heap w !! l)
  ∧ length <$> heap w' !! lm = length <$> heap w !! lm.

(** The model holds a 52-element Monod buffer at [lm]. *)
Definition has_monods (lm : loc) (w : world) : Prop :=
  _monods (self w) = Some lm ∧ length <$> heap w !! lm = Some 52%nat.

(** The value or exception of [e] does not depend on the entries of the
    list at [lm]. *)
Definition insensitive {A} (lm : loc) (e : E A) : Prop :=
  ∀ w w', same_but lm w w' → e w' = e w.

(** A store into the Monod buffer of a value that does not depend on it. *)
Definition monod_store (lm : loc) (s : stmt) : Prop :=
  match s with
  | SetIndex B_monods _ rhs => insensitive lm rhs
  | _ => False
  end.

(** [m] changes only the list at [lm], and what it returns or raises does
    not depend on the entries of that list. *)
Definition stable {A} (lm : loc) (m : M A) : Prop :=
  ∀ w, has_monods lm w →
    same_but lm w (m w).2 ∧ ∀ w', same_but lm w w' → (m w').1 = (m w).1.

Lemma same_but_refl lm w : same_but lm w w.
Proof. by repeat split. Qed.

Lemma same_but_sym lm w w' : same_but lm w w' → same_but lm w' w.
Proof.
  intros (Hs & Ho & Hh & Hl). split; [done|]. split; [done|].
  split; [|done]. intros l Hne. symmetry. by apply Hh.
Qed.

Lemma same_but_trans lm w1 w2 w3 :
  same_but lm w1 w2 → same_but lm w2 w3 → same_but lm w1 w3.
Proof.
  intros (Hs & Ho & Hh & Hl) (Hs' & Ho' & Hh' & Hl').
  split; [congruence|]. split; [congruence|]. split; [|congruence].
  intros l Hne. rewrite Hh' by done. by apply Hh.
Qed.

Lemma has_monods_same_but lm w w' :
  has_monods lm w → same_but lm w w' → has_monods lm w'.
Proof. intros [Hm Hl] (Hs & _ & _ & Hl'). split; congruence. Qed.

Lemma ins_lit lm r : insensitive lm (lit r).
Proof. by intros w w' _. Qed.

Lemma ins_dict_item lm d k : insensitive lm (dict_item d k).
Proof. intros w w' (Hs & _). unfold dict_item. by rewrite Hs. Qed.

Lemma ins_item lm l i : l ≠ lm → insensitive lm l.[i].
Proof. intros Hne w w' (_ & _ & Hh & _). unfold item. by rewrite Hh. Qed.

Lemma ins_ebin lm f a b :
  insensitive lm a → insensitive lm b → insensitive lm (ebin f a b).
Proof. intros Ha Hb w w' Hw. unfold ebin. by rewrite (Ha w w'), (Hb w w'). Qed.

Lemma ins_ebind {A B} lm (a : E A) (f : A → result B) :
  insensitive lm a → insensitive lm (ebind a f).
Proof. intros Ha w w' Hw. unfold ebind. by rewrite (Ha w w'). Qed.

Ltac ins_tac :=
  unfold monod, eadd, esub, emul, ediv, epow, esqrt, params;
  repeat first
    [ apply ins_lit | apply ins_dict_item | apply ins_item; assumption
    | apply ins_ebin | apply ins_ebind ].

Ltac monod_stores_tac :=
  repeat first
    [ apply List.Forall_nil
    | apply List.Forall_cons; [cbn [monod_store]; ins_tac|] ].

Lemma store_same_but lm i v w : same_but lm w (store lm i v w).2.
Proof.
  unfold store. destruct (heap w !! lm) as [xs|] eqn:Hxs;
    [|apply same_but_refl].
  case_decide; [|apply same_but_refl].
  cbn [snd]. unfold with_heap. split; [done|]. split; [done|]. cbn [heap].
  split.
  - intros l Hne. by rewrite lookup_insert_ne.
  - rewrite lookup_insert_eq, Hxs. cbn. by rewrite length_insert.
Qed.

Lemma exec_monod_store lm s : monod_store lm s → stable lm (exec s).
Proof.
  destruct s as [|[] i rhs]; cbn [monod_store]; try done.
  intros Hrhs w [Hm Hl]. split.
  - cbn [exec]. unfold bind, eval. destruct (rhs w) as [v|e];
      [|apply same_but_refl].
    cbn [get_buff]. rewrite Hm. apply store_same_but.
  - intros w' Hw. pose proof Hw as (Hs & _ & _ & Hl').
    cbn [exec]. unfold bind, eval. rewrite (Hrhs w w' Hw).
    destruct (rhs w) as [v|e]; [|done].
    cbn [get_buff]. rewrite Hs, Hm. unfold store.
    destruct (heap w !! lm) as [xs|], (heap w' !! lm) as [xs'|];
      cbn in Hl, Hl'; try discriminate.
    injection Hl' as Hl'. rewrite Hl'. by case_decide.
Qed.

Lemma stable_bind {A B} lm (m : M A) (k : A → M B) :
  stable lm m → (∀ a, stable lm (k a)) → stable lm (bind m k).
Proof.
  intros Hm Hk w Hw. destruct (Hm w Hw) as [Hf Hr]. split.
  - unfold bind. destruct (m w) as [[a|e] w1]; [|exact Hf].
    cbn [snd] in Hf. eapply same_but_trans; [exact Hf|].
    apply Hk. by eapply has_monods_same_but.
  - intros w' Hww'. specialize (Hr w' Hww').
    destruct (Hm w' (has_monods_same_but _ _ _ Hw Hww')) as [Hf' _].
    unfold bind. destruct (m w) as [[a|e] w1], (m w') as [[a'|e'] w1'];
      cbn [fst snd] in *; try discriminate; [|by injection Hr as ->].
    injection Hr as ->.
    apply Hk; [by eapply has_monods_same_but|].
    eapply same_but_trans; [apply same_but_sym; exact Hf|].
    by eapply same_but_trans.
Qed.

(** When [m] raises, what follows it does not matter. *)
Lemma stable_bind_raises {A B} lm (m : M A) (k : A → M B) :
  stable lm m → (∀ w, has_monods lm w → is_ok (m w).1 = false) →
  stable lm (bind m k).
Proof.
  intros Hm Hfail w Hw. destruct (Hm w Hw) as [Hf Hr].
  pose proof (Hfail w Hw) as Hfw. split.
  - unfold bind. destruct (m w) as [[a|e] w1]; [discriminate|exact Hf].
  - intros w' Hww'. specialize (Hr w' Hww').
    pose proof (Hfail w' (has_monods_same_but _ _ _ Hw Hww')) as Hfw'.
    unfold bind. destruct (m w) as [[a|e] w1], (m w') as [[a'|e'] w1'];
      cbn [fst snd is_ok] in *; try discriminate. by injection Hr as ->.
Qed.

Lemma stable_ret {A} lm (a : A) : stable lm (ret a).
Proof. intros w _. split; [apply same_but_refl | done]. Qed.

Lemma stable_eval {A} lm (e : E A) : insensitive lm e → stable lm (eval e).
Proof.
  intros He w _. split; [apply same_but_refl|].
  intros w' Hw. unfold eval. cbn [fst]. by apply He.
Qed.

Lemma stable_run lm p : Forall (monod_store lm) p → stable lm (run p).
Proof.
  induction 1 as [|s p Hs _ IH]; [apply stable_ret|].
  change (run (s :: p)) with (bind (exec s) (λ _, run p)).
  apply stable_bind; [by apply exec_monod_store | intros _; exact IH].
Qed.

(** With a 52-element buffer the first of the two late stores raises. *)
Lemma omitted_terms_raise lm comps w :
  has_monods lm w → is_ok (run (omitted_terms comps) w).1 = false.
Proof.
  intros [Hm Hl]. unfold omitted_terms, set_monods. rewrite run_cons.
  unfold bind. cbn [exec]. unfold bind at 1, eval.
  match goal with |- context [monod ?a ?b w] => destruct (monod a b w) as [v|e] end;
    [|done].
  cbn [get_buff]. rewrite Hm. unfold store.
  destruct (heap w !! lm) as [xs|]; [|done].
  injection Hl as Hl. case_decide; [lia|done].
Qed.

Lemma stable_reaction_rate lm comps : comps ≠ lm → stable lm (_reaction_rate comps).
Proof.
  intros Hne. unfold _reaction_rate.
  apply stable_bind; [apply stable_run; unfold monod_terms, set_monods;
                      monod_stores_tac | intros _].
  apply stable_bind; [apply stable_eval; unfold S_HNO2_expr; ins_tac | intros S].
  apply stable_bind; [apply stable_run; unfold hno2_terms, set_monods;
                      monod_stores_tac | intros _].
  apply stable_bind_raises; [|intros w; apply omitted_terms_raise].
  apply stable_run. unfold omitted_terms, set_monods. monod_stores_tac.
Qed.

Lemma stable_dCdt lm t mo_comps vol flow in_comps fix_DO DO_sat_T :
  mo_comps ≠ lm →
  stable lm (_dCdt t mo_comps vol flow in_comps fix_DO DO_sat_T).
Proof.
  intros Hne. unfold _dCdt.
  apply stable_bind_raises; [by apply stable_reaction_rate|].
  intros w _. destruct (fails_reaction_rate mo_comps w) as (e & w' & ->). done.
Qed.

(** C10: a call of [_dCdt] on two 24-element lists leaves both lists and
    the model object as they were, and a second call with the same
    arguments ends as the first did. *)
Theorem dCdt_leaves_arguments_unchanged
    w t mo_comps vol flow in_comps fix_DO DO_sat_T xs ys lm B r w' :
  monods_buffer w lm B → state_vector w mo_comps xs → state_vector w in_comps ys →
  _dCdt t mo_comps vol flow in_comps fix_DO DO_sat_T w = (r, w') →
  heap w' !! mo_comps = Some xs
  ∧ heap w' !! in_comps = Some ys
  ∧ self w' = self w
  ∧ (_dCdt t mo_comps vol flow in_comps fix_DO DO_sat_T w').1 = r.
Proof.
  intros Hm Hs Hi Hcall.
  pose proof (state_not_aliased _ _ _ _ _ Hs Hm) as Hne.
  pose proof (state_not_aliased _ _ _ _ _ Hi Hm) as Hne'.
  destruct Hm as (Hm & HB & HlB). destruct Hs as [Hxs _]. destruct Hi as [Hys _].
  assert (has_monods lm w) as Hw by (split; [done|by rewrite HB; cbn; rewrite HlB]).
  destruct (stable_dCdt lm t mo_comps vol flow in_comps fix_DO DO_sat_T Hne w Hw)
    as [Hf Hr].
  rewrite Hcall in Hf, Hr. cbn [fst snd] in Hf, Hr.
  pose proof Hf as (Hself & _ & Hheap & _).
  split; [by rewrite Hheap|]. split; [by rewrite Hheap|]. split; [done|].
  by apply Hr.
Qed.

Lemma dCdt_leaves_arguments_unchanged_witness :
  ∃ lm, monods_buffer demo_world lm (replicate 52 1.0)
        ∧ state_vector demo_world 1%positive state_a
        ∧ state_vector demo_world 3%positive influent
        ∧ ∀ r w', _dCdt 0 1%positive 1000 100 3%positive false 9 demo_world = (r, w') →
            heap w' !! 1%positive = Some state_a
            ∧ heap w' !! 3%positive = Some influent
            ∧ self w' = self demo_world
            ∧ (_dCdt 0 1%positive 1000 100 3%positive false 9 w').1 = r.
Proof.
  destruct demo_world_constructed as (_ & Hc & _ & _ & H1 & _ & H3).
  destruct (constructed_monods _ Hc) as [lm Hlm]. exists lm.
  assert (state_vector demo_world 1%positive state_a) as Hs by (by split).
  assert (state_vector demo_world 3%positive influent) as Hi by (by split).
  split; [exact Hlm|]. split; [exact Hs|]. split; [exact Hi|].
  intros r w'.
  exact (dCdt_leaves_arguments_unchanged demo_world 0 1%positive 1000 100
           3%positive false 9 state_a influent lm (replicate 52 1.0) r w'
           Hlm Hs Hi).
Defined.

(** * Further properties of the two classes *)

(** ** The Monod helper *)

(** X1: for a non-negative substrate term and a positive half-saturation
    constant [_monod] returns a value in [0, 1) that grows with the
    substrate term. *)
Theorem monod_saturation a a' b :
  0 <= a → a <= a' → 0 < b →
  ∃ v v', _monod a b = Ok v ∧ _monod a' b = Ok v'
          ∧ 0 <= v ∧ v <= v' ∧ v' < 1.
Proof.
  intros Ha Haa Hb. exists (a / (a + b)), (a' / (a' + b)).
  assert (0 < a + b) as Hab by lra. assert (0 < a' + b) as Hab' by lra.
  unfold _monod, py_div.
  destruct (Req_dec_T (a + b) 0) as [E|_]; [lra|].
  destruct (Req_dec_T (a' + b) 0) as [E|_]; [lra|].
  split; [reflexivity|]. split; [reflexivity|].
  split; [apply Rdiv_nonneg; lra|]. split.
  - apply (Rmult_le_reg_r ((a + b) * (a' + b)));
      [by apply Rmult_lt_0_compat|].
    replace (a / (a + b) * ((a + b) * (a' + b))) with (a * (a' + b))
      by (field; lra).
    replace (a' / (a' + b) * ((a + b) * (a' + b))) with (a' * (a + b))
      by (field; lra).
    nra.
  - apply (Rmult_lt_reg_r (a' + b)); [done|].
    replace (a' / (a' + b) * (a' + b)) with a' by (field; lra). lra.
Qed.

Lemma monod_saturation_witness :
  0 <= 1 ∧ 1 <= 3 ∧ 0 < 1
  ∧ ∃ v v', _monod 1 1 = Ok v ∧ _monod 3 1 = Ok v'
            ∧ 0 <= v ∧ v <= v' ∧ v' < 1.
Proof.
  assert (0 <= 1) as H0 by lra. assert (1 <= 3) as H1 by lra.
  assert (0 < 1) as H2 by lra.
  split; [exact H0|]. split; [exact H1|]. split; [exact H2|].
  exact (monod_saturation 1 3 1 H0 H1 H2).
Defined.

(** X2: [_monod] raises exactly when its two arguments add up to zero, the
    exception is [ZeroDivisionError], and otherwise the term and the term
    with the arguments exchanged add up to one. *)
Theorem monod_zero_division_and_complement a b :
  (is_ok (_monod a b) = false ↔ a + b = 0)
  ∧ (a + b = 0 → _monod a b = Err ZeroDivisionError)
  ∧ (a + b ≠ 0 →
     ∃ v v', _monod a b = Ok v ∧ _monod b a = Ok v' ∧ v + v' = 1).
Proof.
  unfold _monod, py_div. split; [|split].
  - destruct (Req_dec_T (a + b) 0) as [E|N]; cbn [is_ok]; split; intros H;
      first [done | by destruct N].
  - intros E. by destruct (Req_dec_T (a + b) 0).
  - intros N. assert (b + a ≠ 0) as N' by (intros E; apply N; lra).
    destruct (Req_dec_T (a + b) 0) as [E|_]; [done|].
    destruct (Req_dec_T (b + a) 0) as [E|_]; [done|].
    eexists _, _. split; [reflexivity|]. split; [reflexivity|]. by field.
Qed.

(** ** [alter_kinetic_20C], [set_KLa], [update] and [get_params] *)







Lemma alter_kinetic_20C_effect name new_val w :
  ∃ w', alter_kinetic_20C name new_val w = (Ok tt, w')
        ∧ dom (_kinetics_20C (self w')) = dom (_kinetics_20C (self w))
        ∧ (∀ k, k ≠ name →
             _kinetics_20C (self w') !! k = _kinetics_20C (self w) !! k)
        ∧ (_kinetics_20C (self w') !! name = _kinetics_20C (self w) !! name
           ∨ 0 < new_val ∧ _kinetics_20C (self w') !! name = Some new_val)
        ∧ _params (self w') = _params (self w)
        ∧ _stoichs (self w') = _stoichs (self w)
        ∧ heap w' = heap w.
Proof.
  unfold alter_kinetic_20C.
  destruct (Rlt_dec 0 new_val) as [Hpos|Hneg];
    [destruct (decide (name ∈ dom (_kinetics_20C (self w)))) as [Hin|Hout]|].
  - eexists. split; [reflexivity|].
    cbn [self with_self set_dict _kinetics_20C _params _stoichs heap].
    split; [|split; [|split; [|done]]].
    + rewrite dom_insert_L. apply elem_of_dom in Hin.
      apply set_eq. intros k. rewrite elem_of_union, elem_of_singleton.
      split; [intros [->|H]; [by apply elem_of_dom|done] | by right].
    + intros k Hne. by rewrite lookup_insert_ne.
    + right. split; [done|]. apply lookup_insert_eq.
  - eexists. split; [reflexivity|]. cbn [self heap]. by repeat split; try left.
  - eexists. split; [reflexivity|]. cbn [self heap]. by repeat split; try left.
Qed.

(** X3: [alter_kinetic_20C] never raises and never adds or removes a key.
    Whatever its arguments, it changes at most the entry [name] of the 20C
    kinetics, and only to a positive value; the working parameters, the
    stoichiometry and every list are as before. *)
Theorem alter_kinetic_20C_changes_one_entry name new_val w :
  ∃ w', alter_kinetic_20C name new_val w = (Ok tt, w')
        ∧ dom (_kinetics_20C (self w')) = dom (_kinetics_20C (self w))
        ∧ (∀ k, k ≠ name →
             _kinetics_20C (self w') !! k = _kinetics_20C (self w) !! k)
        ∧ (_kinetics_20C (self w') !! name = _kinetics_20C (self w) !! name
           ∨ 0 < new_val ∧ _kinetics_20C (self w') !! name = Some new_val)
        ∧ _params (self w') = _params (self w)
        ∧ _stoichs (self w') = _stoichs (self w)
        ∧ heap w' = heap w.
Proof. exact (alter_kinetic_20C_effect name new_val w). Qed.









(** ** [update] and the temperature *)

(** [e] does not read the temperature, the oxygen level or the temperature
    difference. *)
Definition scalar_free (e : E R) : Prop :=
  ∀ T DO w, e (update_scalars T DO w) = e w.

Definition dict_stmt (s : stmt) : Prop :=
  match s with
  | SetItem _ _ rhs => scalar_free rhs
  | SetIndex _ _ _ => False
  end.

Lemma sf_lit r : scalar_free (lit r).
Proof. done. Qed.

Lemma sf_dict_item d k : scalar_free (dict_item d k).
Proof. intros T DO w. unfold dict_item. by destruct d. Qed.

Lemma sf_ebin f a b : scalar_free a → scalar_free b → scalar_free (ebin f a b).
Proof. intros Ha Hb T DO w. unfold ebin. by rewrite Ha, Hb. Qed.

Lemma sf_ebind a f : scalar_free a → scalar_free (ebind a f).
Proof. intros Ha T DO w. unfold ebind. by rewrite Ha. Qed.

Ltac sf_tac :=
  unfold eadd, esub, emul, ediv, epow, esqrt, params, stoichs, kinetics_20C;
  repeat first [apply sf_lit | apply sf_dict_item | apply sf_ebin | apply sf_ebind].

Ltac dict_stmts_tac :=
  repeat first
    [ apply List.Forall_nil
    | apply List.Forall_cons; [cbn [dict_stmt]; sf_tac|] ].

Lemma set_params_dict_stmts : Forall dict_stmt set_params_stmts.
Proof. unfold set_params_stmts, set_params. dict_stmts_tac. Qed.

Lemma set_stoichs_dict_stmts : Forall dict_stmt set_stoichs_stmts.
Proof. unfold set_stoichs_stmts, set_stoichs. dict_stmts_tac. Qed.

Lemma exec_scalars s T DO w :
  dict_stmt s →
  exec s (update_scalars T DO w) = ((exec s w).1, update_scalars T DO (exec s w).2).
Proof.
  destruct s as [d k rhs|]; [|done]. cbn [dict_stmt]. intros Hs.
  rewrite !exec_SetItem, Hs. destruct (rhs w) as [v|e]; [|done].
  cbn [fst snd]. rewrite update_scalars_wd.
  assert (get_dict d (self (update_scalars T DO w)) = get_dict d (self w)) as ->
    by (by destruct d).
  reflexivity.
Qed.

Lemma run_scalars p T DO w :
  Forall dict_stmt p →
  run p (update_scalars T DO w) = ((run p w).1, update_scalars T DO (run p w).2).
Proof.
  intros Hp. revert w. induction Hp as [|s p Hs _ IH]; intros w; [done|].
  rewrite !run_cons. unfold bind. rewrite exec_scalars by done.
  destruct (exec s w) as [[[]|e] w1]; cbn [fst snd]; [apply IH | done].
Qed.

(** The two recomputations of [update], without the scalar assignments. *)
Definition recompute : M unit :=
  bind (run set_params_stmts) (λ _, run set_stoichs_stmts).

Lemma update_recompute T DO w :
  update T DO w = ((recompute w).1, update_scalars T DO (recompute w).2).
Proof.
  rewrite update_unfold. fold recompute. unfold recompute, bind.
  rewrite (run_scalars _ _ _ _ set_params_dict_stmts).
  destruct (run set_params_stmts w) as [[[]|e] w1]; cbn [fst snd]; [|done].
  apply (run_scalars _ _ _ _ set_stoichs_dict_stmts).
Qed.

Lemma recompute_shape w :
  ∃ P S, (recompute w).2 = wd F_stoichs S (wd F_params P w).
Proof.
  unfold recompute, bind.
  destruct (checked_shape F_params set_params_stmts w set_params_checked)
    as [P HP].
  destruct (run set_params_stmts w) as [[[]|e] w1]; cbn [snd] in HP |- *; subst w1.
  - destruct (checked_shape F_stoichs set_stoichs_stmts (wd F_params P w)
                set_stoichs_checked) as [S HS].
    by exists P, S.
  - exists P, (_stoichs (self (wd F_params P w))).
    by rewrite (wd_id F_stoichs).
Qed.

(** X6: the temperature and the oxygen level given to [update] do not
    enter the parameters or the stoichiometry.  Two calls from the same
    state with different arguments end alike (both return or both raise
    the same exception) and leave the same three dictionaries, lists and
    output. *)
Theorem update_ignores_temperature T DO T' DO' w :
  (update T' DO' w).1 = (update T DO w).1
  ∧ (∀ d, get_dict d (self (update T' DO' w).2)
          = get_dict d (self (update T DO w).2))
  ∧ heap (update T' DO' w).2 = heap (update T DO w).2
  ∧ stdout (update T' DO' w).2 = stdout (update T DO w).2.
Proof.
  rewrite !update_recompute. cbn [fst snd].
  split; [done|]. split; [|done]. intros d. by destruct d.
Qed.

Lemma update_stores_arguments_state T DO w :
  _temperature (self (update T DO w).2) = T
  ∧ _bulk_DO (self (update T DO w).2) = DO
  ∧ _delta_t (self (update T DO w).2) = T - 20
  ∧ _kinetics_20C (self (update T DO w).2) = _kinetics_20C (self w)
  ∧ _KLa (self (update T DO w).2) = _KLa (self w)
  ∧ _comps (self (update T DO w).2) = _comps (self w)
  ∧ _monods (self (update T DO w).2) = _monods (self w)
  ∧ _rate_res (self (update T DO w).2) = _rate_res (self w)
  ∧ heap (update T DO w).2 = heap w
  ∧ stdout (update T DO w).2 = stdout w.
Proof.
  rewrite update_recompute. cbn [snd].
  destruct (recompute_shape w) as (P & S & ->).
  cbn. split; [done|]. split; [done|]. split; [lra|]. done.
Qed.

(** X7: whether it returns or raises, [update] has stored its two
    arguments and the temperature difference to 20 degrees, so that
    [get_bulk_DO] returns the new oxygen level, and it has touched neither
    the 20C kinetics nor KLa, the list attributes, the lists themselves or
    the output. *)
Theorem update_stores_arguments_first T DO w :
  _temperature (self (update T DO w).2) = T
  ∧ _bulk_DO (self (update T DO w).2) = DO
  ∧ get_bulk_DO (update T DO w).2 = (Ok DO, (update T DO w).2)
  ∧ _delta_t (self (update T DO w).2) = T - 20
  ∧ _kinetics_20C (self (update T DO w).2) = _kinetics_20C (self w)
  ∧ _KLa (self (update T DO w).2) = _KLa (self w)
  ∧ _comps (self (update T DO w).2) = _comps (self w)
  ∧ _monods (self (update T DO w).2) = _monods (self w)
  ∧ _rate_res (self (update T DO w).2) = _rate_res (self w)
  ∧ heap (update T DO w).2 = heap w
  ∧ stdout (update T DO w).2 = stdout w.
Proof.
  destruct (update_stores_arguments_state T DO w)
    as (HT & HDO & Hdt & HK & HKLa & Hc & Hm & Hr & Hh & Ho).
  split; [exact HT|]. split; [exact HDO|].
  split; [unfold get_bulk_DO; by rewrite HDO|].
  split; [exact Hdt|]. split; [exact HK|]. split; [exact HKLa|].
  split; [exact Hc|]. split; [exact Hm|]. split; [exact Hr|].
  split; [exact Hh | exact Ho].
Qed.

(** X8: if a parameter name is missing from the 20C kinetics, [update]
    raises [KeyError] for the first such name in the order of
    [_set_params]; the arguments are stored and the parameters before that
    name are copied all the same, and the stoichiometry is not recomputed. *)
Theorem update_missing_parameter T DO w ks1 k ks2 :
  param_keys = ks1 ++ k :: ks2 →
  (∀ k', k' ∈ ks1 → is_Some (_kinetics_20C (self w) !! k')) →
  _kinetics_20C (self w) !! k = None →
  ∃ w', update T DO w = (Err (KeyError k), w')
        ∧ _temperature (self w') = T ∧ _bulk_DO (self w') = DO
        ∧ (∀ k', k' ∈ ks1 → _params (self w') !! k' = _kinetics_20C (self w) !! k')
        ∧ _stoichs (self w') = _stoichs (self w).
Proof.
  intros Hks Hk1 Hk.
  rewrite update_unfold, set_params_copies, Hks, fmap_app, fmap_cons.
  set (u := update_scalars T DO w).
  destruct (run_copy_params ks1 u) as (P & HP & HPk); [exact Hk1|].
  exists (wd F_params P u). split.
  - apply bind_err. rewrite run_app. erewrite bind_ok by exact HP.
    rewrite run_cons. apply bind_err. unfold copy_param, set_params.
    rewrite exec_SetItem. unfold kinetics_20C, dict_item.
    cbn [get_dict self wd with_self set_dict _kinetics_20C u update_scalars
         set_delta_t set_bulk_DO set_temperature].
    by rewrite Hk.
  - split; [done|]. split; [done|]. split; [|done].
    intros k' Hk'. cbn. by apply HPk.
Qed.

Lemma update_missing_parameter_witness :
  param_keys = [] ++ "i_NSF" :: tail param_keys
  ∧ (∀ k', k' ∈ [] → is_Some (_kinetics_20C (self caller_world) !! k'))
  ∧ _kinetics_20C (self caller_world) !! "i_NSF" = None
  ∧ ∃ w', update 20 2 caller_world = (Err (KeyError "i_NSF"), w')
        ∧ _temperature (self w') = 20 ∧ _bulk_DO (self w') = 2
        ∧ (∀ k', k' ∈ [] →
             _params (self w') !! k' = _kinetics_20C (self caller_world) !! k')
        ∧ _stoichs (self w') = _stoichs (self caller_world).
Proof.
  assert (param_keys = [] ++ "i_NSF" :: tail param_keys) as H1
    by (vm_compute; reflexivity).
  assert (∀ k', k' ∈ [] → is_Some (_kinetics_20C (self caller_world) !! k')) as H2
    by (intros k' Hk'; by apply elem_of_nil in Hk').
  assert (_kinetics_20C (self caller_world) !! "i_NSF" = None) as H3
    by apply lookup_empty.
  split; [exact H1|]. split; [exact H2|]. split; [exact H3|].
  exact (update_missing_parameter 20 2 caller_world [] "i_NSF" (tail param_keys)
           H1 H2 H3).
Defined.

(** ** The keys of the dictionaries *)

(** The names [_set_stoichs] assigns, in its order. *)
Definition stoich_keys : list string := omap stmt_key set_stoichs_stmts.

(** [s] assigns to an entry of the dictionary [d]. *)
Definition sets (d : dictf) (s : stmt) : bool :=
  match s with
  | SetItem d' _ _ => bool_decide (d' = d)
  | SetIndex _ _ _ => false
  end.

Lemma set_params_sets : forallb (sets F_params) set_params_stmts = true.
Proof. vm_compute. reflexivity. Qed.

Lemma set_stoichs_sets : forallb (sets F_stoichs) set_stoichs_stmts = true.
Proof. vm_compute. reflexivity. Qed.

Lemma sets_not_writes d d0 k0 p :
  d ≠ d0 → forallb (sets d) p = true →
  forallb (λ s, negb (writes d0 k0 s)) p = true.
Proof.
  intros Hd. induction p as [|s p IH]; [done|]. cbn [forallb].
  intros [Hs Hp]%andb_prop. rewrite IH by done. rewrite andb_true_r.
  destruct s as [d' k rhs|]; [|done]. cbn in Hs |- *.
  apply bool_decide_eq_true_1 in Hs as ->.
  by rewrite bool_decide_eq_false_2.
Qed.

(** After a run that returns, the dictionary holds its old keys and the
    keys the statements assign. *)
Lemma run_keys d p :
  forallb (sets d) p = true →
  ∀ w w', run p w = (Ok tt, w') →
  ∀ k, is_Some (get_dict d (self w') !! k)
       ↔ is_Some (get_dict d (self w) !! k) ∨ k ∈ omap stmt_key p.
Proof.
  induction p as [|s p IH]; intros Hp w w' Hrun k.
  - injection Hrun as <-. cbn. rewrite elem_of_nil. tauto.
  - cbn [forallb] in Hp. apply andb_prop in Hp as [Hs Hp].
    rewrite run_cons in Hrun. apply bind_inv_ok in Hrun as ([] & w1 & He & Hrun).
    destruct s as [d' k' rhs|]; [|done]. cbn in Hs.
    apply bool_decide_eq_true_1 in Hs as ->.
    rewrite exec_SetItem in He. destruct (rhs w) as [v|e]; [|done].
    injection He as <-. rewrite (IH Hp _ _ Hrun k), get_wd.
    cbn [omap list_omap stmt_key]. rewrite elem_of_cons.
    destruct (decide (k = k')) as [->|Hne].
    + rewrite lookup_insert_eq. split; [by right; left | by left; eexists].
    + rewrite lookup_insert_ne by done. split; [|intros [?|[?|?]]]; tauto.
Qed.

Lemma update_keys T DO w w' :
  update T DO w = (Ok tt, w') →
  (∀ k, is_Some (_params (self w') !! k)
        ↔ is_Some (_params (self w) !! k) ∨ k ∈ param_keys)
  ∧ (∀ k, is_Some (_stoichs (self w') !! k)
          ↔ is_Some (_stoichs (self w) !! k) ∨ k ∈ stoich_keys).
Proof.
  rewrite update_unfold. intros ([] & w1 & Hp & Hs)%bind_inv_ok.
  set (u := update_scalars T DO w) in *.
  split; intros k.
  - pose proof (run_keeps_key F_params k set_stoichs_stmts w1
                  (sets_not_writes F_stoichs F_params k _ ltac:(done) set_stoichs_sets)) as Hk.
    rewrite Hs in Hk. cbn [snd get_dict] in Hk. rewrite Hk.
    apply (run_keys F_params _ set_params_sets u w1 Hp k).
  - pose proof (run_keeps_key F_stoichs k set_params_stmts u
                  (sets_not_writes F_params F_stoichs k _ ltac:(done) set_params_sets)) as Hk.
    rewrite Hp in Hk. cbn [snd get_dict] in Hk.
    change (_stoichs (self u)) with (_stoichs (self w)) in Hk.
    pose proof (run_keys F_stoichs _ set_stoichs_sets w1 w' Hs k) as Hr.
    cbn [get_dict] in Hr. rewrite Hk in Hr. exact Hr.
Qed.

Lemma find_last_absent k o kvs : k ∉ kvs.*1 → find_last k o kvs = o.
Proof.
  revert o. induction kvs as [|[k' v] kvs IH]; intros o Hk; [done|].
  rewrite fmap_cons in Hk. cbn [fst] in Hk.
  apply not_elem_of_cons in Hk as [Hne Hk].
  change (find_last k (if String.eqb k' k then Some v else o) kvs = o).
  rewrite IH by done. destruct (String.eqb_spec k' k); [by subst|done].
Qed.

Lemma default_keys_are_params k : k ∈ defaults_kvs.*1 → k ∈ param_keys.
Proof. apply sublist_by_compute. vm_compute. reflexivity. Qed.

(** ** The constructor *)

Lemma ASM2d_N2O_state T DO w :
  ∃ w' lc lm lr,
    ASM2d_N2O T DO w = (Ok tt, w')
    ∧ _temperature (self w') = T ∧ _bulk_DO (self w') = DO
    ∧ _delta_t (self w') = T - 20
    ∧ _KLa (self w') = 60 * 24 / (9 - 2)
    ∧ _kinetics_20C (self w') = default_kinetics
    ∧ _params (self w') = default_kinetics
    ∧ (∀ k, is_Some (_stoichs (self w') !! k) ↔ k ∈ stoich_keys)
    ∧ _comps (self w') = Some lc ∧ _monods (self w') = Some lm
    ∧ _rate_res (self w') = Some lr
    ∧ heap w' !! lc = Some (replicate 24 0.0)
    ∧ heap w' !! lm = Some (replicate 52 1.0)
    ∧ heap w' !! lr = Some (replicate 40 0.0)
    ∧ lc ≠ lm ∧ lm ≠ lr ∧ lc ≠ lr
    ∧ heap w !! lc = None ∧ heap w !! lm = None ∧ heap w !! lr = None
    ∧ (∀ l, is_Some (heap w !! l) → heap w' !! l = heap w !! l)
    ∧ stdout w' = stdout w.
Proof.
  unfold ASM2d_N2O, ASM2d_N2O__init__.
  set (l0 := fresh (dom (heap w))).
  set (w1 := World (Model 20 2 ∅ ∅ ∅ (Some l0) (20 - 20) (60 * 24 / (9 - 2)) None None)
                   (<[l0 := []]> (heap w)) (stdout w)).
  erewrite bind_ok by (instantiate (1 := w1); reflexivity).
  cbn [_set_ideal_kinetics_20C_to_defaults ASM2d_N2O_overrides].
  rewrite defaults_are_literals.
  erewrite bind_ok by apply run_set_lit.
  cbn [get_dict self w1 _kinetics_20C]. fold default_kinetics.
  do 3 (erewrite bind_ok by reflexivity).
  match goal with |- context [bind (update T DO) _ ?u] => set (w2 := u) end.
  destruct (update_succeeds T DO w2) as (P & S & Hu & HP).
  { intros k Hk. by apply default_kinetics_complete. }
  { intros k Hk. by apply default_yields_nonzero. }
  destruct (update_keys T DO w2 _ Hu) as [HPkeys HSkeys].
  cbn [self wd with_self set_dict _params _stoichs w2 w1 update_scalars
       set_delta_t set_bulk_DO set_temperature] in HPkeys, HSkeys.
  assert (P = default_kinetics) as HPeq.
  { apply map_eq. intros k. destruct (decide (k ∈ param_keys)) as [Hin|Hout].
    - exact (HP k Hin).
    - transitivity (@None R).
      + apply eq_None_not_Some. rewrite HPkeys, lookup_empty.
        intros [[? [=]]|Hin]. exact (Hout Hin).
      + symmetry. rewrite default_kinetics_lookup. apply find_last_absent.
        intros Hk. by apply Hout, default_keys_are_params. }
  assert (∀ k, is_Some (S !! k) ↔ k ∈ stoich_keys) as HSeq.
  { intros k. rewrite HSkeys, lookup_empty.
    split; [|intros Hin; right; exact Hin].
    intros [[? [=]]|Hin]. exact Hin. }
  clear HPkeys HSkeys.
  erewrite bind_ok by apply Hu.
  unfold setattr_list, bind, alloc, setattr.
  cbn [self heap stdout with_self with_heap set_buff wd set_dict update_scalars
       set_delta_t set_bulk_DO set_temperature _temperature _bulk_DO _kinetics_20C
       _params _stoichs _comps _delta_t _KLa _monods _rate_res w2 w1].
  set (h1 := <[l0 := []]> (heap w)).
  set (l1 := fresh (dom h1)). set (h2 := <[l1 := replicate 24 0.0]> h1).
  set (l2 := fresh (dom h2)). set (h3 := <[l2 := replicate 52 1.0]> h2).
  set (l3 := fresh (dom h3)).
  assert (l0 ∉ dom (heap w)) as F0 by apply is_fresh.
  assert (l1 ∉ dom h1) as F1 by apply is_fresh.
  assert (l2 ∉ dom h2) as F2 by apply is_fresh.
  assert (l3 ∉ dom h3) as F3 by apply is_fresh.
  assert (dom (heap w) ⊆ dom h1) as D1.
  { unfold h1. rewrite dom_insert_L. apply union_subseteq_r. }
  assert (dom h1 ⊆ dom h2) as D2.
  { unfold h2. rewrite dom_insert_L. apply union_subseteq_r. }
  assert (dom h2 ⊆ dom h3) as D3.
  { unfold h3. rewrite dom_insert_L. apply union_subseteq_r. }
  assert (l1 ∈ dom h2) as I1.
  { unfold h2. rewrite dom_insert_L. apply elem_of_union_l, elem_of_singleton.
    reflexivity. }
  assert (l2 ∈ dom h3) as I2.
  { unfold h3. rewrite dom_insert_L. apply elem_of_union_l, elem_of_singleton.
    reflexivity. }
  assert (l3 ≠ l2) as N32 by (intros E; apply F3; rewrite E; exact I2).
  assert (l3 ≠ l1) as N31 by (intros E; apply F3; rewrite E; apply D3; exact I1).
  assert (l2 ≠ l1) as N21 by (intros E; apply F2; rewrite E; exact I1).
  eexists _, l1, l2, l3. split; [reflexivity|].
  cbn [self heap stdout with_self with_heap set_buff wd set_dict update_scalars
       set_delta_t set_bulk_DO set_temperature _temperature _bulk_DO _kinetics_20C
       _params _stoichs _comps _delta_t _KLa _monods _rate_res w2 w1].
  split; [reflexivity|]. split; [reflexivity|]. split; [lra|].
  split; [reflexivity|]. split; [reflexivity|]. split; [exact HPeq|].
  split; [exact HSeq|].
  split; [reflexivity|]. split; [reflexivity|]. split; [reflexivity|].
  split.
  { rewrite lookup_insert_ne by exact N31.
    unfold h3. rewrite lookup_insert_ne by exact N21.
    unfold h2. apply lookup_insert_eq. }
  split.
  { rewrite lookup_insert_ne by exact N32. unfold h3. apply lookup_insert_eq. }
  split; [apply lookup_insert_eq|].
  split; [exact (not_eq_sym N21)|]. split; [exact (not_eq_sym N32)|].
  split; [exact (not_eq_sym N31)|].
  split.
  { apply not_elem_of_dom. intros H. apply F1, D1, H. }
  split.
  { apply not_elem_of_dom. intros H. apply F2, D2, D1, H. }
  split.
  { apply not_elem_of_dom. intros H. apply F3, D3, D2, D1, H. }
  split; [|reflexivity].
  intros l Hl.
  assert (l ∈ dom (heap w)) as Hd by (apply elem_of_dom; exact Hl).
  rewrite lookup_insert_ne by (intros E; apply F3; rewrite E; apply D3, D2, D1, Hd).
  unfold h3. rewrite lookup_insert_ne by (intros E; apply F2; rewrite E; apply D2, D1, Hd).
  unfold h2. rewrite lookup_insert_ne by (intros E; apply F1; rewrite E; apply D1, Hd).
  unfold h1. rewrite lookup_insert_ne by (intros E; apply F0; rewrite E; exact Hd).
  reflexivity.
Qed.

(** X9: [ASM2d_N2O(ww_temp, DO)] returns for every temperature and oxygen
    level, and prints nothing.  The new model holds the two arguments and
    the temperature difference to 20 degrees, KLa = 60 * 24 / (9 - 2), the
    default 20C kinetics, working parameters equal to these kinetics
    whatever the temperature, a stoichiometry with exactly the keys
    [_set_stoichs] assigns, and three new lists of 24 zeros, 52 ones and 40
    zeros, distinct from each other and from every list the caller holds,
    none of which is changed. *)
Theorem ASM2d_N2O_new_model T DO w :
  ∃ w' lc lm lr,
    ASM2d_N2O T DO w = (Ok tt, w')
    ∧ _temperature (self w') = T ∧ _bulk_DO (self w') = DO
    ∧ _delta_t (self w') = T - 20
    ∧ _KLa (self w') = 60 * 24 / (9 - 2)
    ∧ _kinetics_20C (self w') = default_kinetics
    ∧ _params (self w') = default_kinetics
    ∧ (∀ k, is_Some (_stoichs (self w') !! k) ↔ k ∈ stoich_keys)
    ∧ _comps (self w') = Some lc ∧ _monods (self w') = Some lm
    ∧ _rate_res (self w') = Some lr
    ∧ heap w' !! lc = Some (replicate 24 0.0)
    ∧ heap w' !! lm = Some (replicate 52 1.0)
    ∧ heap w' !! lr = Some (replicate 40 0.0)
    ∧ lc ≠ lm ∧ lm ≠ lr ∧ lc ≠ lr
    ∧ heap w !! lc = None ∧ heap w !! lm = None ∧ heap w !! lr = None
    ∧ (∀ l, is_Some (heap w !! l) → heap w' !! l = heap w !! l)
    ∧ stdout w' = stdout w.
Proof. exact (ASM2d_N2O_state T DO w). Qed.

(** ** [get_all_comps] *)

(** [asm_model.get_all_comps]: the slice [self._comps[:]] is a new list. *)
Definition get_all_comps : M loc :=
  λ w, match _comps (self w) with
       | Some l => match heap w !! l with
                   | Some xs => alloc xs w
                   | None => (Err TypeError, w)
                   end
       | None => (Err (AttributeError "_comps"), w)
       end.

(** X10: [get_all_comps] returns a new list with the entries of
    [self._comps]; the model and every existing list are as before, and a
    store into the returned list does not reach [self._comps]. *)
Theorem get_all_comps_returns_copy w lc xs i v :
  _comps (self w) = Some lc → heap w !! lc = Some xs →
  ∃ l w', get_all_comps w = (Ok l, w')
          ∧ heap w !! l = None ∧ l ≠ lc
          ∧ heap w' !! l = Some xs
          ∧ self w' = self w
          ∧ (∀ l', l' ≠ l → heap w' !! l' = heap w !! l')
          ∧ heap (store l i v w').2 !! lc = Some xs.
Proof.
  intros Hc Hxs. unfold get_all_comps. rewrite Hc, Hxs. unfold alloc.
  set (l := fresh (dom (heap w))).
  assert (heap w !! l = None) as Hl by apply not_elem_of_dom, is_fresh.
  assert (l ≠ lc) as Hne by (intros ->; by rewrite Hxs in Hl).
  eexists l, _. split; [reflexivity|]. cbn [self heap with_heap].
  split; [exact Hl|]. split; [exact Hne|].
  split; [apply lookup_insert_eq|]. split; [reflexivity|].
  split; [intros l' Hl'; by apply lookup_insert_ne|].
  unfold store. cbn [heap with_heap]. rewrite lookup_insert_eq.
  case_decide; cbn [snd heap with_heap].
  - do 2 (rewrite lookup_insert_ne by exact Hne). exact Hxs.
  - rewrite lookup_insert_ne by exact Hne. exact Hxs.
Qed.

Lemma get_all_comps_returns_copy_witness :
  ∃ lc, _comps (self demo_world) = Some lc
        ∧ heap demo_world !! lc = Some (replicate 24 0.0)
        ∧ ∃ l w', get_all_comps demo_world = (Ok l, w')
            ∧ heap demo_world !! l = None ∧ l ≠ lc
            ∧ heap w' !! l = Some (replicate 24 0.0)
            ∧ self w' = self demo_world
            ∧ (∀ l', l' ≠ l → heap w' !! l' = heap demo_world !! l')
            ∧ heap (store l 3 7 w').2 !! lc = Some (replicate 24 0.0).
Proof.
  destruct demo_world_constructed as (_ & Hc & _).
  destruct (c_comps _ Hc) as (lc & Hlc & Hxs). exists lc.
  split; [exact Hlc|]. split; [exact Hxs|].
  exact (get_all_comps_returns_copy demo_world lc (replicate 24 0.0) 3 7 Hlc Hxs).
Defined.

(** ** What [_dCdt] writes *)

(** X11: a call of [_dCdt] on a 24-element state writes into the list
    [self._monods] and nowhere else: the model object, the output and every
    other list, [self._rate_res] and [self._comps] among them, are as
    before, and [self._monods] still has 52 entries. *)
Theorem dCdt_writes_only_monods
    w t mo_comps vol flow in_comps fix_DO DO_sat_T xs lm B :
  monods_buffer w lm B → state_vector w mo_comps xs →
  self (_dCdt t mo_comps vol flow in_comps fix_DO DO_sat_T w).2 = self w
  ∧ stdout (_dCdt t mo_comps vol flow in_comps fix_DO DO_sat_T w).2 = stdout w
  ∧ (∀ l, l ≠ lm →
       heap (_dCdt t mo_comps vol flow in_comps fix_DO DO_sat_T w).2 !! l
       = heap w !! l)
  ∧ ∃ B', heap (_dCdt t mo_comps vol flow in_comps fix_DO DO_sat_T w).2 !! lm
          = Some B' ∧ length B' = 52%nat.
Proof.
  intros Hm Hs. pose proof (state_not_aliased _ _ _ _ _ Hs Hm) as Hne.
  destruct Hm as (Hm & HB & HlB).
  assert (has_monods lm w) as Hw by (split; [done|by rewrite HB; cbn; rewrite HlB]).
  destruct (stable_dCdt lm t mo_comps vol flow in_comps fix_DO DO_sat_T Hne w Hw)
    as [(Hself & Hout & Hheap & Hlen) _].
  split; [exact Hself|]. split; [exact Hout|]. split; [exact Hheap|].
  rewrite HB in Hlen.
  destruct (heap (_dCdt t mo_comps vol flow in_comps fix_DO DO_sat_T w).2 !! lm)
    as [B'|]; [|discriminate Hlen].
  exists B'. split; [reflexivity|]. injection Hlen as Hlen. lia.
Qed.

Lemma dCdt_writes_only_monods_witness :
  ∃ lm, monods_buffer demo_world lm (replicate 52 1.0)
        ∧ state_vector demo_world 1%positive state_a
        ∧ self (_dCdt 0 1%positive 1000 100 3%positive false 9 demo_world).2
          = self demo_world
        ∧ stdout (_dCdt 0 1%positive 1000 100 3%positive false 9 demo_world).2
          = stdout demo_world
        ∧ (∀ l, l ≠ lm →
             heap (_dCdt 0 1%positive 1000 100 3%positive false 9 demo_world).2 !! l
             = heap demo_world !! l)
        ∧ ∃ B', heap (_dCdt 0 1%positive 1000 100 3%positive false 9 demo_world).2 !! lm
                = Some B' ∧ length B' = 52%nat.
Proof.
  destruct demo_world_constructed as (_ & Hc & _ & _ & H1 & _).
  destruct (constructed_monods _ Hc) as [lm Hlm]. exists lm.
  assert (state_vector demo_world 1%positive state_a) as Hs by (by split).
  split; [exact Hlm|]. split; [exact Hs|].
  exact (dCdt_writes_only_monods demo_world 0 1%positive 1000 100 3%positive
           false 9 state_a lm (replicate 52 1.0) Hlm Hs).
Defined.

(** ** States on which [_reaction_rate] stops early *)

(** X12: on an empty state list [_reaction_rate] and [_dCdt] raise
    [IndexError] at the first read, and nothing has been written. *)
Theorem reaction_rate_empty_state w comps t vol flow in_comps fix_DO DO_sat_T :
  heap w !! comps = Some [] →
  _reaction_rate comps w = (Err IndexError, w)
  ∧ _dCdt t comps vol flow in_comps fix_DO DO_sat_T w = (Err IndexError, w).
Proof.
  intros Hc.
  assert (_reaction_rate comps w = (Err IndexError, w)) as Hrr.
  { unfold _reaction_rate. apply bind_err. unfold monod_terms.
    rewrite run_cons. apply bind_err. unfold set_monods. cbn [exec].
    apply bind_err. unfold eval, monod, ebin, item. by rewrite Hc. }
  split; [exact Hrr|]. unfold _dCdt. by apply bind_err.
Qed.

Lemma reaction_rate_empty_state_witness :
  heap (with_heap (<[1%positive := []]> (heap demo_world)) demo_world) !! 1%positive
  = Some []
  ∧ _reaction_rate 1%positive
      (with_heap (<[1%positive := []]> (heap demo_world)) demo_world)
    = (Err IndexError, with_heap (<[1%positive := []]> (heap demo_world)) demo_world)
  ∧ _dCdt 0 1%positive 1000 100 3%positive false 9
      (with_heap (<[1%positive := []]> (heap demo_world)) demo_world)
    = (Err IndexError, with_heap (<[1%positive := []]> (heap demo_world)) demo_world).
Proof.
  assert (heap (with_heap (<[1%positive := []]> (heap demo_world)) demo_world)
            !! 1%positive = Some []) as H by apply lookup_insert_eq.
  split; [exact H|].
  exact (reaction_rate_empty_state _ 1%positive 0 1000 100 3%positive false 9 H).
Defined.

(** X13: with no heterotrophic biomass (X_H = comps[15] = 0) the call
    raises [ZeroDivisionError] at the second Monod term (line 644); the
    first term has been stored by then and stays stored. *)
Theorem reaction_rate_zero_X_H
    w comps xs lm B t vol flow in_comps fix_DO DO_sat_T :
  monods_buffer w lm B → state_vector w comps xs →
  is_Some (_params (self w) !! "K_O2_H") →
  conc xs 0 + par w "K_O2_H" ≠ 0 → conc xs 15 = 0 →
  _reaction_rate comps w
  = (Err ZeroDivisionError,
     wb w lm (<[0%nat := conc xs 0 / (conc xs 0 + par w "K_O2_H")]> B))
  ∧ _dCdt t comps vol flow in_comps fix_DO DO_sat_T w
    = (Err ZeroDivisionError,
       wb w lm (<[0%nat := conc xs 0 / (conc xs 0 + par w "K_O2_H")]> B)).
Proof.
  intros Hm Hs [K HK] Hden HXH.
  pose proof (state_not_aliased _ _ _ _ _ Hs Hm) as Hne.
  destruct Hm as (Hm & HB & HlB). destruct Hs as [Hxs Hl24].
  assert (par w "K_O2_H" = K) as HparK by (unfold par; by rewrite HK).
  rewrite HparK in *.
  destruct (lookup_lt_is_Some_2 xs 0) as [x0 Hx0]; [lia|].
  destruct (lookup_lt_is_Some_2 xs 14) as [x14 Hx14]; [lia|].
  destruct (lookup_lt_is_Some_2 xs 15) as [x15 Hx15]; [lia|].
  unfold conc in Hden, HXH |- *. rewrite Hx0 in Hden |- *. rewrite Hx15 in HXH.
  cbn in Hden, HXH |- *. subst x15.
  set (w1 := wb w lm (<[0%nat := x0 / (x0 + K)]> B)).
  assert (_reaction_rate comps w = (Err ZeroDivisionError, w1)) as Hrr.
  { unfold _reaction_rate. apply bind_err. unfold monod_terms, set_monods.
    rewrite run_cons.
    assert (exec (SetIndex B_monods 0 (monod comps.[0] (params "K_O2_H"))) w
            = (Ok tt, w1)) as He.
    { cbn [exec]. unfold bind, eval, monod, ebin, item, params, dict_item.
      cbn [get_dict get_buff]. rewrite Hxs, Hx0, HK, Hm. unfold _monod, py_div.
      destruct (Req_dec_T (x0 + K) 0) as [E|_]; [done|].
      unfold store. rewrite HB. rewrite decide_True by lia. reflexivity. }
    unfold bind at 1. rewrite He.
    rewrite run_cons. apply bind_err. cbn [exec]. apply bind_err.
    unfold eval, monod, ediv, ebin, item.
    assert (heap w1 !! comps = Some xs) as ->.
    { unfold w1, wb, with_heap. cbn [heap]. by rewrite lookup_insert_ne. }
    rewrite Hx14, Hx15. unfold py_div.
    destruct (Req_dec_T 0 0) as [_|N]; [done | by destruct N]. }
  split; [exact Hrr|]. unfold _dCdt. by apply bind_err.
Qed.

Lemma reaction_rate_zero_X_H_witness :
  ∃ lm lc,
    monods_buffer demo_world lm (replicate 52 1.0)
    ∧ state_vector demo_world lc (replicate 24 0.0)
    ∧ is_Some (_params (self demo_world) !! "K_O2_H")
    ∧ conc (replicate 24 0.0) 0 + par demo_world "K_O2_H" ≠ 0
    ∧ conc (replicate 24 0.0) 15 = 0
    ∧ _reaction_rate lc demo_world
      = (Err ZeroDivisionError,
         wb demo_world lm
           (<[0%nat := conc (replicate 24 0.0) 0
                       / (conc (replicate 24 0.0) 0 + par demo_world "K_O2_H")]>
              (replicate 52 1.0)))
    ∧ _dCdt 0 lc 1000 100 3%positive false 9 demo_world
      = (Err ZeroDivisionError,
         wb demo_world lm
           (<[0%nat := conc (replicate 24 0.0) 0
                       / (conc (replicate 24 0.0) 0 + par demo_world "K_O2_H")]>
              (replicate 52 1.0))).
Proof.
  destruct demo_world_constructed as (_ & Hc & _).
  destruct (constructed_monods _ Hc) as [lm Hlm].
  destruct (c_comps _ Hc) as (lc & _ & Hlc).
  assert (state_vector demo_world lc (replicate 24 0.0)) as Hs by (by split).
  assert (_params (self demo_world) !! "K_O2_H" = Some 0.2) as HK
    by (apply (constructed_params _ _ _ Hc); [vm_compute|]; reflexivity).
  assert (is_Some (_params (self demo_world) !! "K_O2_H")) as HK' by (by eexists).
  assert (conc (replicate 24 0.0) 0 + par demo_world "K_O2_H" ≠ 0) as Hden.
  { unfold par. rewrite HK. cbn. lra. }
  assert (conc (replicate 24 0.0) 15 = 0) as HXH by (cbn; lra).
  exists lm, lc. split; [exact Hlm|]. split; [exact Hs|]. split; [exact HK'|].
  split; [exact Hden|]. split; [exact HXH|].
  exact (reaction_rate_zero_X_H demo_world lc (replicate 24 0.0) lm
           (replicate 52 1.0) 0 1000 100 3%positive false 9 Hlm Hs HK' Hden HXH).
Defined.

(** ** The dictionaries satisfy their defining equations *)

(** In [w] the entry that [s] assigns holds the value of the right-hand
    side of [s]. *)
Definition assigns_value (d : dictf) (w : world) (s : stmt) : Prop :=
  match s with
  | SetItem d' k rhs =>
      d' = d ∧ ∃ v, rhs w = Ok v ∧ get_dict d (self w) !! k = Some v
  | SetIndex _ _ _ => False
  end.

Lemma not_key_not_writes d k p :
  k ∉ omap stmt_key p → forallb (λ s, negb (writes d k s)) p = true.
Proof.
  induction p as [|s p IH]; [done|]. intros Hk. cbn [forallb].
  destruct s as [d' k' rhs|b i rhs]; cbn [omap list_omap stmt_key] in Hk.
  - apply not_elem_of_cons in Hk as [Hne Hk]. rewrite IH by done.
    cbn [writes]. rewrite (bool_decide_eq_false_2 (k' = k)) by done.
    by rewrite andb_false_r.
  - by rewrite IH.
Qed.

Lemma checked_wd d Q D p :
  checked d Q D p → ∀ w, ∃ S, (run p w).2 = wd d S w.
Proof.
  induction 1 as [D|D k rhs p _ _ IH]; intros w.
  - exists (get_dict d (self w)). by rewrite wd_id.
  - rewrite run_cons. unfold bind. rewrite exec_SetItem.
    destruct (rhs w) as [v|e].
    + destruct (IH (wd d (<[k := v]> (get_dict d (self w))) w)) as [S HS].
      exists S. by rewrite HS, wd_wd.
    + exists (get_dict d (self w)). by rewrite wd_id.
Qed.

(** A program that reads only what it has written, and writes no key
    twice, leaves every entry equal to its right-hand side as evaluated at
    the end. *)
Lemma checked_equations d D p :
  checked d (reads_only d) D p → NoDup (D ++ omap stmt_key p) →
  ∀ w w', run p w = (Ok tt, w') → Forall (assigns_value d w') p.
Proof.
  induction 1 as [D|D k rhs p Hro Hp IH]; intros Hnd w w' Hrun;
    [apply List.Forall_nil|].
  cbn [omap list_omap stmt_key] in Hnd.
  assert (NoDup ((k :: D) ++ omap stmt_key p)) as Hnd'.
  { revert Hnd. rewrite <- !Permutation_middle. done. }
  pose proof Hrun as Hrun0.
  rewrite run_cons in Hrun. apply bind_inv_ok in Hrun as ([] & w1 & He & Hrun).
  rewrite exec_SetItem in He. destruct (rhs w) as [v|e] eqn:Hv; [|done].
  injection He as <-.
  apply List.Forall_cons; [|by eapply IH].
  cbn [assigns_value]. split; [done|]. exists v.
  apply NoDup_app in Hnd as (_ & Hdisj & Hnd).
  apply NoDup_cons in Hnd as [Hk _].
  assert (w' = (run (SetItem d k rhs :: p) w).2) as Hw' by (by rewrite Hrun0).
  split.
  - destruct (checked_wd _ _ _ _ Hp (wd d (<[k:=v]> (get_dict d (self w))) w))
      as [S HS].
    rewrite Hrun in HS. cbn [snd] in HS. rewrite wd_wd in HS.
    rewrite <- Hv, HS. apply Hro. intros k' Hk'.
    rewrite <- (get_wd d S w), <- HS, Hw'.
    apply run_keeps_key, not_key_not_writes.
    cbn [omap list_omap stmt_key]. by apply Hdisj.
  - replace w' with (run p (wd d (<[k:=v]> (get_dict d (self w))) w)).2
      by (by rewrite Hrun).
    rewrite run_keeps_key by by apply not_key_not_writes.
    rewrite get_wd. apply lookup_insert_eq.
Qed.

Lemma checked_equations_all d p :
  checked d (reads_only d) [] p → NoDup (omap stmt_key p) →
  ∀ w w', run p w = (Ok tt, w') → Forall (assigns_value d w') p.
Proof. intros Hc Hn. exact (checked_equations d [] p Hc Hn). Qed.

Lemma stoich_keys_NoDup : NoDup (omap stmt_key set_stoichs_stmts).
Proof.
  assert (bool_decide (NoDup (omap stmt_key set_stoichs_stmts)) = true) as H
    by (vm_compute; reflexivity).
  by apply bool_decide_eq_true_1 in H.
Qed.

Lemma param_keys_NoDup : NoDup (omap stmt_key set_params_stmts).
Proof.
  assert (bool_decide (NoDup (omap stmt_key set_params_stmts)) = true) as H
    by (vm_compute; reflexivity).
  by apply bool_decide_eq_true_1 in H.
Qed.

Lemma copy_param_value w1 S k :
  assigns_value F_params w1 (copy_param k) →
  assigns_value F_params (wd F_stoichs S w1) (copy_param k).
Proof.
  unfold copy_param, set_params. cbn [assigns_value].
  intros (_ & v & Hv & Hl). split; [reflexivity|]. exists v.
  split; [exact Hv | exact Hl].
Qed.

Lemma update_equations T DO w w' :
  update T DO w = (Ok tt, w') →
  Forall (assigns_value F_params w') set_params_stmts
  ∧ Forall (assigns_value F_stoichs w') set_stoichs_stmts.
Proof.
  rewrite update_unfold. intros ([] & w1 & Hp & Hs)%bind_inv_ok.
  split.
  - pose proof (checked_equations_all F_params set_params_stmts
                  set_params_checked param_keys_NoDup
                  (update_scalars T DO w) w1 Hp) as HF.
    destruct (checked_wd F_stoichs (reads_only F_stoichs) [] set_stoichs_stmts
                set_stoichs_checked w1) as [S HS].
    rewrite Hs in HS. cbn [snd] in HS. subst w'.
    revert HF. rewrite set_params_copies.
    generalize param_keys. intros ks HF.
    induction ks as [|k ks IH]; [apply List.Forall_nil|].
    cbn [fmap list_fmap] in HF |- *.
    apply Forall_cons_1 in HF as [Hk HF].
    apply List.Forall_cons; [by apply copy_param_value | by apply IH].
  - exact (checked_equations_all F_stoichs set_stoichs_stmts
             set_stoichs_checked stoich_keys_NoDup w1 w' Hs).
Qed.

(** X14: after an [update] that returned, every entry that [_set_params]
    and [_set_stoichs] assign holds the value of its right-hand side in the
    final state of the model: no entry is assigned twice, and none is
    computed from a value that is changed afterwards. *)
Theorem update_satisfies_assignments T DO w w' :
  update T DO w = (Ok tt, w') →
  Forall (assigns_value F_params w') set_params_stmts
  ∧ Forall (assigns_value F_stoichs w') set_stoichs_stmts
  ∧ NoDup (omap stmt_key set_params_stmts)
  ∧ NoDup (omap stmt_key set_stoichs_stmts).
Proof.
  intros Hu. destruct (update_equations T DO w w' Hu) as [HP HS].
  split; [exact HP|]. split; [exact HS|].
  split; [exact param_keys_NoDup | exact stoich_keys_NoDup].
Qed.

Lemma update_satisfies_assignments_witness :
  ∃ w', update 25 1.5 demo_world = (Ok tt, w')
        ∧ Forall (assigns_value F_params w') set_params_stmts
        ∧ Forall (assigns_value F_stoichs w') set_stoichs_stmts
        ∧ NoDup (omap stmt_key set_params_stmts)
        ∧ NoDup (omap stmt_key set_stoichs_stmts).
Proof.
  destruct demo_world_constructed as (_ & Hc & _).
  destruct (constructed_update_succeeds 25 1.5 demo_world Hc) as [w' Hu].
  exists w'. split; [exact Hu|].
  exact (update_satisfies_assignments 25 1.5 demo_world w' Hu).
Defined.

(** The right-hand side of the first assignment to [k]. *)
Fixpoint find_stmt (k : string) (p : list stmt) : option (E R) :=
  match p with
  | [] => None
  | SetItem _ k' rhs :: p' => if String.eqb k' k then Some rhs else find_stmt k p'
  | SetIndex _ _ _ :: p' => find_stmt k p'
  end.

Lemma find_stmt_value d w k p rhs :
  Forall (assigns_value d w) p → find_stmt k p = Some rhs →
  ∃ v, rhs w = Ok v ∧ get_dict d (self w) !! k = Some v.
Proof.
  induction 1 as [|s p Hs _ IH]; [done|]. cbn [find_stmt].
  destruct s as [d' k' rhs'|]; [|done].
  destruct (String.eqb_spec k' k) as [->|_]; [|exact IH].
  intros [= ->]. by destruct Hs as [_ Hv].
Qed.

Lemma stoich_value T DO w w' k rhs :
  update T DO w = (Ok tt, w') → find_stmt k set_stoichs_stmts = Some rhs →
  ∃ v, rhs w' = Ok v ∧ _stoichs (self w') !! k = Some v.
Proof.
  intros Hu Hf. destruct (update_equations T DO w w' Hu) as [_ HS].
  exact (find_stmt_value F_stoichs w' k _ rhs HS Hf).
Qed.

(** ** Nitrogen in the denitrification steps *)

(** The sixteen reduction steps of the stoichiometric matrix: the key of
    the nitrogen species a step forms and of the one it consumes (8 and 9:
    nitrite and nitrate; 7: NO; 6: N2O; 13: N2). *)
Definition reduction_steps : list (string * string) :=
  [("7_8", "7_9"); ("8_7", "8_8"); ("9_6", "9_7"); ("10_13", "10_6");
   ("11_8", "11_9"); ("12_7", "12_8"); ("13_6", "13_7"); ("14_13", "14_6");
   ("19_8", "19_9"); ("20_7", "20_8"); ("21_6", "21_7"); ("22_13", "22_6");
   ("24_8", "24_9"); ("25_7", "25_8"); ("26_6", "26_7"); ("27_13", "27_6")].

Lemma esub_lit_value c (e : E R) w y :
  (lit c - e)%py w = Ok y → ∃ x, e w = Ok x ∧ y = c - x.
Proof.
  unfold esub, ebin, lit. destruct (e w) as [x|]; [|done].
  intros [= <-]. by exists x.
Qed.

Ltac reduction_step Hu :=
  let x := fresh "x" in let y := fresh "y" in let x' := fresh "x'" in
  let Hx := fresh "Hx" in let Hy := fresh "Hy" in let Hx' := fresh "Hx'" in
  let Lx := fresh "Lx" in let Ly := fresh "Ly" in
  lazymatch goal with
  | |- ∃ _, _ !! ?a = _ ∧ _ !! ?b = _ =>
      destruct (stoich_value _ _ _ _ a _ Hu eq_refl) as (x & Hx & Lx);
      destruct (stoich_value _ _ _ _ b _ Hu eq_refl) as (y & Hy & Ly);
      exists x; split; [exact Lx|];
      apply esub_lit_value in Hy as (x' & Hx' & ->);
      rewrite Ly; congruence
  end.

(** X15: after an [update] that returned, in each of the sixteen reduction
    steps of the heterotrophs and of the PAO the coefficient of the
    nitrogen species consumed is the opposite of the coefficient of the
    one formed. *)
Theorem reduction_steps_conserve_nitrogen T DO w w' :
  update T DO w = (Ok tt, w') →
  Forall (λ step, ∃ x, _stoichs (self w') !! step.1 = Some x
                       ∧ _stoichs (self w') !! step.2 = Some (0.0 - x))
         reduction_steps.
Proof.
  intros Hu. unfold reduction_steps.
  repeat first
    [ apply List.Forall_nil
    | apply List.Forall_cons; [cbn [fst snd]; reduction_step Hu|] ].
Qed.

Lemma reduction_steps_conserve_nitrogen_witness :
  ∃ w', update 25 1.5 demo_world = (Ok tt, w')
        ∧ Forall (λ step, ∃ x, _stoichs (self w') !! step.1 = Some x
                               ∧ _stoichs (self w') !! step.2 = Some (0.0 - x))
                 reduction_steps.
Proof.
  destruct demo_world_constructed as (_ & Hc & _).
  destruct (constructed_update_succeeds 25 1.5 demo_world Hc) as [w' Hu].
  exists w'. split; [exact Hu|].
  exact (reduction_steps_conserve_nitrogen 25 1.5 demo_world w' Hu).
Defined.

(** ** The 24 component rate functions *)

Definition rate_functions : list (E R) :=
  [_rate0_S_O2; _rate1_S_F; _rate2_S_A; _rate3_S_NH4; _rate4_S_NH2OH;
   _rate5_S_N2O; _rate6_S_NO; _rate7_S_NO2; _rate8_S_NO3; _rate9_S_PO4;
   _rate10_S_I; _rate11_S_ALK; _rate12_S_N2; _rate13_X_I; _rate14_X_S;
   _rate15_X_H; _rate16_X_PAO; _rate17_X_PP; _rate18_X_PHA; _rate19_X_AOB;
   _rate20_X_NOB; _rate21_X_TSS; _rate22_X_MeOH; _rate23_X_MeP].

Section rate_functions.
Variables (w : world) (lr : loc) (rs : list R).
Hypothesis Hkeys : ∀ k, k ∈ stoich_keys → is_Some (_stoichs (self w) !! k).
Hypothesis Hrates : rates_buffer w lr rs.

(** [e] returns in [w], and returns zero when every rate is zero. *)
Definition returns (e : E R) : Prop :=
  ∃ v, e w = Ok v ∧ (Forall (λ r, r = 0) rs → v = 0).

Lemma returns_term k i :
  bool_decide (k ∈ stoich_keys) = true → (i < 40)%nat →
  returns (stoichs k * rate_res i)%py.
Proof.
  intros Hk%bool_decide_eq_true_1 Hi. destruct (Hkeys k Hk) as [s Hs].
  destruct Hrates as (Hlr & Hrs & Hlen).
  destruct (lookup_lt_is_Some_2 rs i) as [r Hr]; [lia|].
  exists (s * r). split.
  - unfold emul, ebin, stoichs, dict_item, rate_res, buff_item, item.
    cbn [get_dict get_buff]. by rewrite Hs, Hlr, Hrs, Hr.
  - intros Hz. rewrite (Forall_lookup_1 _ _ _ _ Hz Hr). lra.
Qed.

Lemma returns_add a b : returns a → returns b → returns (a + b)%py.
Proof.
  intros (x & Hx & Hx0) (y & Hy & Hy0). exists (x + y). split.
  - unfold eadd, ebin. by rewrite Hx, Hy.
  - intros Hz. rewrite Hx0, Hy0 by done. lra.
Qed.

Ltac returns_tac :=
  repeat first
    [ apply returns_add
    | apply returns_term; [vm_compute; reflexivity | lia] ].

Lemma rate_functions_return_in : Forall returns rate_functions.
Proof.
  unfold rate_functions.
  repeat first
    [ apply List.Forall_nil
    | apply List.Forall_cons;
      [ unfold _rate0_S_O2, _rate1_S_F, _rate2_S_A, _rate3_S_NH4, _rate4_S_NH2OH,
          _rate5_S_N2O, _rate6_S_NO, _rate7_S_NO2, _rate8_S_NO3, _rate9_S_PO4,
          _rate10_S_I, _rate11_S_ALK, _rate12_S_N2, _rate13_X_I, _rate14_X_S,
          _rate15_X_H, _rate16_X_PAO, _rate17_X_PP, _rate18_X_PHA, _rate19_X_AOB,
          _rate20_X_NOB, _rate21_X_TSS, _rate22_X_MeOH, _rate23_X_MeP;
        returns_tac | ] ].
Qed.
End rate_functions.

(** X16: after an [update] that returned, each of the 24 component rate
    functions [_rate0_S_O2] to [_rate23_X_MeP] returns: every stoichiometric
    key it reads is one that [_set_stoichs] assigns and every rate index is
    below 40.  While [self._rate_res] holds zeros, as it does from the
    constructor on, each of them returns zero. *)
Theorem rate_functions_return T DO w w' lr rs :
  update T DO w = (Ok tt, w') → rates_buffer w' lr rs →
  Forall (λ f, ∃ v, f w' = Ok v ∧ (Forall (λ r, r = 0) rs → v = 0))
         rate_functions.
Proof.
  intros Hu Hr. destruct (update_keys T DO w w' Hu) as [_ Hk].
  apply (rate_functions_return_in w' lr rs); [|exact Hr].
  intros k Hin. apply Hk. by right.
Qed.

Lemma rate_functions_return_witness :
  ∃ w' lr, update 25 1.5 demo_world = (Ok tt, w')
           ∧ rates_buffer w' lr (replicate 40 0.0)
           ∧ Forall (λ f, ∃ v, f w' = Ok v
                               ∧ (Forall (λ r, r = 0) (replicate 40 0.0) → v = 0))
                    rate_functions.
Proof.
  destruct demo_world_constructed as (_ & Hc & _).
  destruct (constructed_update_succeeds 25 1.5 demo_world Hc) as [w' Hu].
  destruct (c_rate_res _ Hc) as (lr & Hlr & Hrs).
  destruct (update_stores_arguments_state 25 1.5 demo_world)
    as (_ & _ & _ & _ & _ & _ & _ & HRR & Hheap & _).
  rewrite Hu in HRR, Hheap. cbn [snd] in HRR, Hheap.
  assert (rates_buffer w' lr (replicate 40 0.0)) as Hr.
  { split; [by rewrite HRR|]. split; [by rewrite Hheap | reflexivity]. }
  exists w', lr. split; [exact Hu|]. split; [exact Hr|].
  exact (rate_functions_return 25 1.5 demo_world w' lr (replicate 40 0.0) Hu Hr).
Defined.
